(** * Weather MCP server (week3/server/main.py): model and checked properties

    The development embeds the retrieval pipeline of [main.py]: the retrying
    fetcher, the location resolver, the three response formatters and the
    tool dispatcher.  Python values that come from JSON are kept as they are
    at run time (a tagged union), floats are IEEE binary64 numbers
    ([PrimFloat]), raising is an explicit [Raise] result, and the HTTP client
    and [asyncio.sleep] act on an explicit world. *)

From Stdlib Require Import ZArith List String Ascii Bool Lia.
From Stdlib Require Import Floats DecimalString.
Import ListNotations.

Set Warnings "-inexact-float,-register-all".

Open Scope string_scope.
Open Scope Z_scope.

(* ================================================================== *)
(** ** Strings

    A Python [str] is represented by its UTF-8 encoding. *)

Definition nl : string := String "010" EmptyString.

(** [s.startswith(p)] *)
Fixpoint starts_with (p s : string) : bool :=
  match p with
  | EmptyString => true
  | String a p' =>
      match s with
      | EmptyString => false
      | String b s' => Ascii.eqb a b && starts_with p' s'
      end
  end.

(** [needle in hay] on two strings. *)
Fixpoint str_contains (needle hay : string) : bool :=
  starts_with needle hay
  || match hay with
     | EmptyString => false
     | String _ rest => str_contains needle rest
     end.

(** [s.split(c)] for a one-character separator. *)
Fixpoint split_on (c : ascii) (s : string) : list string :=
  match s with
  | EmptyString => [EmptyString]
  | String a rest =>
      if Ascii.eqb a c then EmptyString :: split_on c rest
      else match split_on c rest with
           | [] => [String a EmptyString]
           | p :: ps => String a p :: ps
           end
  end.

Fixpoint string_rev_onto (s acc : string) : string :=
  match s with
  | EmptyString => acc
  | String a rest => string_rev_onto rest (String a acc)
  end.

Definition string_rev (s : string) : string := string_rev_onto s EmptyString.

Definition byte_in (lo hi : N) (c : ascii) : bool :=
  (lo <=? N_of_ascii c)%N && (N_of_ascii c <=? hi)%N.

Definition byte_is (n : N) (c : ascii) : bool := (N_of_ascii c =? n)%N.

(** The characters for which [str.isspace()] holds, by their UTF-8 bytes:
    U+0009..000D, U+001C..0020; U+0085, U+00A0; U+1680, U+2000..200A,
    U+2028, U+2029, U+202F, U+205F, U+3000. *)
Definition is_space1 (a : ascii) : bool := byte_in 9 13 a || byte_in 28 32 a.

Definition is_space2 (a b : ascii) : bool :=
  byte_is 194 a && (byte_is 133 b || byte_is 160 b).

Definition is_space3 (a b c : ascii) : bool :=
  (byte_is 225 a && byte_is 154 b && byte_is 128 c)
  || (byte_is 226 a && byte_is 128 b
      && (byte_in 128 138 c || byte_in 168 169 c || byte_is 175 c))
  || (byte_is 226 a && byte_is 129 b && byte_is 159 c)
  || (byte_is 227 a && byte_is 128 b && byte_is 128 c).

(** Drop leading whitespace; with [backwards] the string is read from its
    end, so the bytes of a character arrive last byte first. *)
Fixpoint drop_space (backwards : bool) (s : string) : string :=
  match s with
  | EmptyString => EmptyString
  | String a r1 =>
      if is_space1 a then drop_space backwards r1
      else
        match r1 with
        | EmptyString => s
        | String b r2 =>
            if (if backwards then is_space2 b a else is_space2 a b)
            then drop_space backwards r2
            else
              match r2 with
              | EmptyString => s
              | String c r3 =>
                  if (if backwards then is_space3 c b a else is_space3 a b c)
                  then drop_space backwards r3
                  else s
              end
        end
  end.

(** [s.strip()] *)
Definition py_strip (s : string) : string :=
  string_rev (drop_space true (string_rev (drop_space false s))).

Fixpoint str_repeat (n : nat) (s : string) : string :=
  match n with
  | O => EmptyString
  | S k => s ++ str_repeat k s
  end.

(** [str(z)] for an int. *)
Definition str_of_Z (z : Z) : string := NilZero.string_of_int (Z.to_int z).

(** The decimal digits of [n >= 0], left-padded with zeros to [width]. *)
Definition zero_pad (width : nat) (n : Z) : string :=
  let d := str_of_Z n in
  str_repeat (width - String.length d) "0" ++ d.

(** The first character of a non-empty string: its lead byte and the
    continuation bytes (10xxxxxx) that follow it. *)
Fixpoint continuation_bytes (s : string) : string :=
  match s with
  | String a rest =>
      if byte_in 128 191 a then String a (continuation_bytes rest)
      else EmptyString
  | EmptyString => EmptyString
  end.

Definition first_char (s : string) : option string :=
  match s with
  | EmptyString => None
  | String a rest => Some (String a (continuation_bytes rest))
  end.

(* ================================================================== *)
(** ** Values, exceptions, results *)

(** What [response.json()] can produce, and so what every payload field and
    every tool argument can be. A dict keeps its items in insertion order;
    lookup takes the first item with the key. *)
Inductive json : Type :=
| JNull
| JBool (b : bool)
| JInt (z : Z)
| JFloat (f : float)
| JStr (s : string)
| JList (l : list json)
| JDict (d : list (string * json)).

Inductive exc_kind : Type :=
| KeyError | IndexError | ValueError | TypeError | AttributeError
| OverflowError | OSError | JSONDecodeError | OtherException.

(** [WeatherAPIError] is the program's own exception; the others are raised
    by the interpreter or a library and carry CPython's message. *)
Inductive exn : Type :=
| WeatherAPIError (msg : string)
| PyExc (kind : exc_kind) (msg : string).

(** [str(e)] *)
Definition str_of_exn (e : exn) : string :=
  match e with
  | WeatherAPIError msg => msg
  | PyExc _ msg => msg
  end.

(** [isinstance(e, base)] for the classes named in the [except] clauses. *)
Definition is_key_or_index_error (e : exn) : bool :=
  match e with
  | PyExc KeyError _ | PyExc IndexError _ => true
  | _ => false
  end.

Definition is_value_or_index_error (e : exn) : bool :=
  match e with
  | PyExc ValueError _ | PyExc JSONDecodeError _ | PyExc IndexError _ => true
  | _ => false
  end.

Inductive result (A : Type) : Type :=
| Ok (a : A)
| Raise (e : exn).

Arguments Ok {A} a.
Arguments Raise {A} e.

Definition rbind {A B : Type} (r : result A) (k : A -> result B) : result B :=
  match r with
  | Ok a => k a
  | Raise e => Raise e
  end.

Notation "'let*' x ':=' r 'in' k" := (rbind r (fun x => k))
  (at level 10, x pattern, r at level 200, k at level 200).

Definition type_name (v : json) : string :=
  match v with
  | JNull => "NoneType"
  | JBool _ => "bool"
  | JInt _ => "int"
  | JFloat _ => "float"
  | JStr _ => "str"
  | JList _ => "list"
  | JDict _ => "dict"
  end.

Definition type_error {A : Type} (msg : string) : result A :=
  Raise (PyExc TypeError msg).

Definition no_attribute {A : Type} (v : json) (attr : string) : result A :=
  Raise (PyExc AttributeError
           ("'" ++ type_name v ++ "' object has no attribute '" ++ attr ++ "'")).

(* ================================================================== *)
(** ** Floats

    A Python float is an IEEE binary64 number. Arithmetic is the primitive
    one; formatting and parsing go through the exact value
    [(-1)^s * m * 2^e] given by [Prim2SF]. *)

(** The integer nearest to [a / b] for [b > 0], ties to the even one. *)
Definition round_half_even (a b : Z) : Z :=
  let q := a / b in
  match 2 * (a mod b) ?= b with
  | Lt => q
  | Gt => q + 1
  | Eq => if Z.even q then q else q + 1
  end.

(** [m * 2^e * 10^p] rounded to an integer. *)
Definition scaled_round (m : positive) (e : Z) (p : nat) : Z :=
  if 0 <=? e then Zpos m * 2 ^ e * 10 ^ Z.of_nat p
  else round_half_even (Zpos m * 10 ^ Z.of_nat p) (2 ^ (- e)).

(** [n / 10^p] written with exactly [p] digits after the point (and no point
    when [p] is 0). *)
Definition fixed_digits (p : nat) (n : Z) : string :=
  str_of_Z (n / 10 ^ Z.of_nat p)
  ++ match p with
     | O => ""
     | S _ => "." ++ zero_pad p (n mod 10 ^ Z.of_nat p)
     end.

Definition sign_text (s : bool) : string := if s then "-" else "".

(** [format(x, '.pf')] for a float [x] *)
Definition fmt_f (p : nat) (x : float) : string :=
  match Prim2SF x with
  | S754_nan => "nan"
  | S754_infinity s => sign_text s ++ "inf"
  | S754_zero s => sign_text s ++ fixed_digits p 0
  | S754_finite s m e => sign_text s ++ fixed_digits p (scaled_round m e p)
  end.

(** [float(z)] for an int: correctly rounded, [OverflowError] beyond the
    largest float. *)
Definition float_of_Z (z : Z) : result float :=
  let x := SF2Prim (binary_normalize prec emax z 0 false) in
  if is_infinity x
  then Raise (PyExc OverflowError "int too large to convert to float")
  else Ok x.

(** *** [repr(x)]: the shortest decimal that reads back as [x] *)

Definition pow10 (k : Z) : Z := 10 ^ Z.max k 0.
Definition pow2 (k : Z) : Z := 2 ^ Z.max k 0.

(** [floor (log10 (m * 2^e))] *)
Definition decimal_exponent (m : positive) (e : Z) : Z :=
  let est := (Z.log2 (Zpos m) + e) * 30103 / 100000 in
  let reaches k := pow10 k * pow2 (- e) <=? Zpos m * pow2 e * pow10 (- k) in
  if reaches (est + 1) then est + 1
  else if reaches est then est
  else est - 1.

(** The [n]-digit decimal [c * 10^k] that reads back as [m * 2^e], if there
    is one; of two, the nearer (ties to the even [c]). The float's rounding
    interval is [lo, hi] in units of [2^(e-2)], closed when [m] is even. *)
Definition decimal_candidate (m : positive) (e k : Z) : option Z :=
  let v := 4 * Zpos m in
  let hi := v + 2 in
  let lo := if (Zpos m =? 2 ^ 52) && (-1074 <? e) then v - 1 else v - 2 in
  let P := pow2 (e - 2) * pow10 (- k) in
  let Q := pow2 (2 - e) * pow10 k in
  let inside c :=
    if Z.even (Zpos m)
    then (lo * P <=? c * Q) && (c * Q <=? hi * P)
    else (lo * P <? c * Q) && (c * Q <? hi * P) in
  let c0 := v * P / Q in
  let c1 := if v * P mod Q =? 0 then c0 else c0 + 1 in
  match inside c0, inside c1 with
  | true, true =>
      match 2 * v * P ?= (c0 + c1) * Q with
      | Lt => Some c0
      | Gt => Some c1
      | Eq => Some (if Z.even c0 then c0 else c1)
      end
  | true, false => Some c0
  | false, true => Some c1
  | false, false => None
  end.

Fixpoint shortest_decimal (fuel : nat) (m : positive) (e k : Z) : Z * Z :=
  match fuel with
  | O => (round_half_even (4 * Zpos m * pow2 (e - 2) * pow10 (- k))
                          (pow2 (2 - e) * pow10 k), k)
  | S fuel' =>
      match decimal_candidate m e k with
      | Some c => (c, k)
      | None => shortest_decimal fuel' m e (k - 1)
      end
  end.

Fixpoint strip_zeros_rev (s : string) : string :=
  match s with
  | String "0" rest => strip_zeros_rev rest
  | _ => s
  end.

Definition drop_trailing_zeros (s : string) : string :=
  string_rev (strip_zeros_rev (string_rev s)).

Definition exponent_text (x : Z) : string :=
  (if x <? 0 then "-" else "+") ++ zero_pad 2 (Z.abs x).

(** Digits [d] with the decimal point after the first [decpt] of them, in
    the layout [repr] uses. *)
Definition repr_layout (d : string) (decpt : Z) : string :=
  let n := Z.of_nat (String.length d) in
  if (decpt <=? -4) || (16 <? decpt) then
    String.substring 0 1 d
    ++ (if 1 <? n then "." ++ String.substring 1 (String.length d - 1) d
        else "")
    ++ "e" ++ exponent_text (decpt - 1)
  else if decpt <=? 0 then
    "0." ++ str_repeat (Z.to_nat (- decpt)) "0" ++ d
  else if n <=? decpt then
    d ++ str_repeat (Z.to_nat (decpt - n)) "0" ++ ".0"
  else
    String.substring 0 (Z.to_nat decpt) d ++ "."
    ++ String.substring (Z.to_nat decpt) (String.length d - Z.to_nat decpt) d.

(** [repr(x)], which is also [str(x)] *)
Definition repr_float (x : float) : string :=
  match Prim2SF x with
  | S754_nan => "nan"
  | S754_infinity s => sign_text s ++ "inf"
  | S754_zero s => sign_text s ++ "0.0"
  | S754_finite s m e =>
      let '(c, k) := shortest_decimal 16 m e (decimal_exponent m e) in
      let all := str_of_Z c in
      sign_text s
      ++ repr_layout (drop_trailing_zeros all) (k + Z.of_nat (String.length all))
  end.

(** *** [float(s)] for a string *)

Definition is_digit (a : ascii) : bool := byte_in 48 57 a.

Definition lower (a : ascii) : ascii :=
  if byte_in 65 90 a then ascii_of_N (N_of_ascii a + 32) else a.

Fixpoint lower_string (s : string) : string :=
  match s with
  | EmptyString => EmptyString
  | String a rest => String (lower a) (lower_string rest)
  end.

(** An underscore is accepted only between two digits; the result is the
    text without underscores. [prev] is the character before [s]. *)
Fixpoint remove_underscores (prev : option ascii) (s : string) : option string :=
  let prev_digit := match prev with Some a => is_digit a | None => false end in
  let prev_under := match prev with Some a => Ascii.eqb a "_" | None => false end in
  match s with
  | EmptyString => if prev_under then None else Some EmptyString
  | String a rest =>
      if Ascii.eqb a "_" then
        if prev_digit then remove_underscores (Some a) rest else None
      else if prev_under && negb (is_digit a) then None
      else option_map (String a) (remove_underscores (Some a) rest)
  end.

Definition read_sign (s : string) : bool * string :=
  match s with
  | String "-" rest => (true, rest)
  | String "+" rest => (false, rest)
  | _ => (false, s)
  end.

(** Leading digits of [s] appended to [acc]; how many there were; the rest. *)
Fixpoint take_digits (s : string) (acc count : Z) : Z * Z * string :=
  match s with
  | String a rest =>
      if is_digit a
      then take_digits rest (10 * acc + (Z.of_N (N_of_ascii a) - 48)) (count + 1)
      else (acc, count, s)
  | EmptyString => (acc, count, s)
  end.

(** [digits [. digits] [e [sign] digits]] or [. digits [e ...]], read as a
    mantissa [M] and an exponent [E] standing for [M * 10^E]. *)
Definition parse_decimal (s : string) : option (Z * Z) :=
  let '(ip, n1, r1) := take_digits s 0 0 in
  let '(M, nf, r2) :=
    match r1 with
    | String "." r => take_digits r ip 0
    | _ => (ip, 0, r1)
    end in
  if n1 + nf =? 0 then None
  else
    match r2 with
    | EmptyString => Some (M, - nf)
    | String c r3 =>
        if Ascii.eqb (lower c) "e" then
          let '(neg, r4) := read_sign r3 in
          let '(x, nx, r5) := take_digits r4 0 0 in
          match r5 with
          | EmptyString =>
              if nx =? 0 then None
              else Some (M, (if neg then - x else x) - nf)
          | String _ _ => None
          end
        else None
    end.

(** The float nearest to [(-1)^neg * M * 10^E] (ties to even). *)
Definition decimal_to_float (neg : bool) (M E : Z) : float :=
  match M with
  | Zpos _ =>
      SF2Prim (SFdiv prec emax
                 (S754_finite neg (Z.to_pos (M * pow10 E)) 0)
                 (S754_finite false (Z.to_pos (pow10 (- E))) 0))
  | _ => if neg then neg_zero else zero
  end.

(** The characters of a string: each lead byte with its continuation bytes. *)
Fixpoint chars_after (s : string) : string * list string :=
  match s with
  | EmptyString => (EmptyString, [])
  | String a rest =>
      let '(cont, cs) := chars_after rest in
      if byte_in 128 191 a then (String a cont, cs)
      else (EmptyString, String a cont :: cs)
  end.

Definition string_chars (s : string) : list string := snd (chars_after s).

(** The zero of every run of ten decimal digits in the Unicode database
    (version 14.0, that of CPython 3.11): ASCII, Arabic-Indic, Devanagari,
    ..., fullwidth, the five mathematical alphabets, ... *)
Definition decimal_zeros : list N :=
  [48; 1632; 1776; 1984; 2406; 2534; 2662; 2790; 2918; 3046; 3174; 3302;
   3430; 3558; 3664; 3792; 3872; 4160; 4240; 6112; 6160; 6470; 6608; 6784;
   6800; 6992; 7088; 7232; 7248; 42528; 43216; 43264; 43472; 43504; 43600;
   44016; 65296; 66720; 68912; 69734; 69872; 69942; 70096; 70384; 70736;
   70864; 71248; 71360; 71472; 71904; 72016; 72784; 73040; 73120; 92768;
   92864; 93008; 120782; 120792; 120802; 120812; 120822; 123200; 123632;
   125264; 130032]%N.

(** [Py_UNICODE_TODECIMAL]: the value of a decimal digit of any script. *)
Definition unicode_decimal (cp : N) : option N :=
  match find (fun z => (z <=? cp)%N && (cp <? z + 10)%N) decimal_zeros with
  | Some z => Some (cp - z)%N
  | None => None
  end.

Fixpoint continuation (acc : N) (s : string) : N :=
  match s with
  | EmptyString => acc
  | String a rest => continuation (acc * 64 + (N_of_ascii a - 128))%N rest
  end.

(** The code point that the UTF-8 bytes of a character encode. *)
Definition code_point (c : string) : N :=
  match c with
  | EmptyString => 0%N
  | String a rest =>
      let lead := N_of_ascii a in
      continuation
        (if lead <? 128 then lead
         else if lead <? 224 then lead - 192
         else if lead <? 240 then lead - 224
         else lead - 240)%N
        rest
  end.

(** [str.isspace()] of one character. *)
Definition is_space_char (c : string) : bool :=
  match c with
  | String a EmptyString => is_space1 a
  | String a (String b EmptyString) => is_space2 a b
  | String a (String b (String c' EmptyString)) => is_space3 a b c'
  | _ => false
  end.

(** What [float] makes of the characters of its argument before it parses
    them: an ASCII character is kept, any other white space becomes a
    space, a decimal digit of any script its ASCII digit, and anything else
    cannot be converted. *)
Fixpoint decimal_and_space_to_ascii (chars : list string) : option string :=
  match chars with
  | [] => Some EmptyString
  | c :: rest =>
      let a :=
        match c with
        | String b EmptyString =>
            if byte_in 0 127 b then Some b
            else if is_space_char c then Some " "%char else None
        | _ =>
            if is_space_char c then Some " "%char
            else option_map (fun d => ascii_of_N (48 + d)) (unicode_decimal (code_point c))
        end in
      match a, decimal_and_space_to_ascii rest with
      | Some b, Some t => Some (String b t)
      | _, _ => None
      end
  end.

(** The white space [float] strips from the text it parses: space, tab,
    line feed, vertical tab, form feed, carriage return. *)
Definition is_ascii_space (a : ascii) : bool := byte_in 9 13 a || byte_is 32 a.

Fixpoint drop_ascii_space (s : string) : string :=
  match s with
  | String a rest => if is_ascii_space a then drop_ascii_space rest else s
  | EmptyString => EmptyString
  end.

Definition strip_ascii_space (s : string) : string :=
  string_rev (drop_ascii_space (string_rev (drop_ascii_space s))).

(** [float(s)]: the characters are brought to ASCII, underscores between
    digits are dropped, surrounding white space is stripped, and the rest is
    read as an optional sign followed by [inf], [infinity], [nan] or a
    decimal number. [None] stands for the [ValueError] it raises. *)
Definition py_float (s : string) : option float :=
  match decimal_and_space_to_ascii (string_chars s) with
  | None => None
  | Some t =>
      match remove_underscores None t with
      | None => None
      | Some u =>
          let '(neg, body) := read_sign (strip_ascii_space u) in
          let word := lower_string body in
          if String.eqb word "inf" || String.eqb word "infinity"
          then Some (if neg then neg_infinity else infinity)
          else if String.eqb word "nan" then Some nan
          else
            match parse_decimal body with
            | Some (M, E) => Some (decimal_to_float neg M E)
            | None => None
            end
      end
  end.

(** The integer part of a float (towards zero) and the integer nearest to
    it (ties to even); 0 for a float that is not finite. *)
Definition float_trunc (x : float) : Z :=
  match Prim2SF x with
  | S754_finite s m e =>
      let a := if 0 <=? e then Zpos m * 2 ^ e else Zpos m / 2 ^ (- e) in
      if s then - a else a
  | _ => 0
  end.

Definition float_round (x : float) : Z :=
  match Prim2SF x with
  | S754_finite s m e =>
      let a := if 0 <=? e then Zpos m * 2 ^ e
               else round_half_even (Zpos m) (2 ^ (- e)) in
      if s then - a else a
  | _ => 0
  end.

(* ================================================================== *)
(** ** The object protocol on JSON values *)

(** What the interpreter takes from the machine it runs on: the offset of
    local time from UTC (seconds east, at a given POSIX time) and [repr] of
    a [str], whose escapes follow the Unicode database. *)
Class PyRuntime : Type := {
  utcoffset : Z -> Z;
  repr_str : string -> string
}.

Fixpoint dict_get (k : string) (d : list (string * json)) : option json :=
  match d with
  | [] => None
  | (k', v) :: rest => if String.eqb k' k then Some v else dict_get k rest
  end.

(** [bool(v)] *)
Definition py_truthy (v : json) : bool :=
  match v with
  | JNull => false
  | JBool b => b
  | JInt z => negb (z =? 0)
  | JFloat f => negb (f =? 0)%float
  | JStr s => negb (String.eqb s "")
  | JList l => match l with [] => false | _ :: _ => true end
  | JDict d => match d with [] => false | _ :: _ => true end
  end.

(** [v == s] for a string literal [s] *)
Definition py_eq_str (v : json) (s : string) : bool :=
  match v with
  | JStr t => String.eqb t s
  | _ => false
  end.

Section ObjectProtocol.

Context {rt : PyRuntime}.

(** [sys.get_int_max_str_digits()], as the interpreter starts. *)
Definition int_max_str_digits : Z := 4300.

(** The number of decimal digits of an int. *)
Definition digits (z : Z) : Z := Z.of_nat (String.length (str_of_Z (Z.abs z))).

(** [str(z)] and [repr(z)] of an int: CPython (3.11, and 3.10 from 3.10.7)
    refuses to convert an int of more than 4300 digits. *)
Definition int_str (z : Z) : result string :=
  if digits z <=? int_max_str_digits then Ok (str_of_Z z)
  else
    Raise (PyExc ValueError
             ("Exceeds the limit (4300 digits) for integer string conversion; "
              ++ "use sys.set_int_max_str_digits() to increase the limit")).

(** [repr(v)] *)
Fixpoint py_repr (v : json) : result string :=
  match v with
  | JNull => Ok "None"
  | JBool b => Ok (if b then "True" else "False")
  | JInt z => int_str z
  | JFloat f => Ok (repr_float f)
  | JStr s => Ok (repr_str s)
  | JList l =>
      let* items :=
        (fix each (l : list json) : result (list string) :=
           match l with
           | [] => Ok []
           | x :: rest =>
               let* shown := py_repr x in
               let* others := each rest in
               Ok (shown :: others)
           end) l in
      Ok ("[" ++ String.concat ", " items ++ "]")
  | JDict d =>
      let* items :=
        (fix each (d : list (string * json)) : result (list string) :=
           match d with
           | [] => Ok []
           | (k, x) :: rest =>
               let* shown := py_repr x in
               let* others := each rest in
               Ok ((repr_str k ++ ": " ++ shown) :: others)
           end) d in
      Ok ("{" ++ String.concat ", " items ++ "}")
  end.

(** [str(v)], which is what an f-string field without a format spec shows *)
Definition py_str (v : json) : result string :=
  match v with
  | JStr s => Ok s
  | _ => py_repr v
  end.

(** [v.get(k, default)] *)
Definition py_get (v : json) (k : string) (default : json) : result json :=
  match v with
  | JDict d => Ok (match dict_get k d with Some x => x | None => default end)
  | _ => no_attribute v "get"
  end.

(** [f"{v.get(k, default)}"] *)
Definition shown_field (v : json) (k : string) (default : json) : result string :=
  let* x := py_get v k default in
  py_str x.

(** [k in v] for a string [k] *)
Definition py_in (k : string) (v : json) : result bool :=
  match v with
  | JDict d => Ok (match dict_get k d with Some _ => true | None => false end)
  | JList l => Ok (existsb (fun x => py_eq_str x k) l)
  | JStr s => Ok (str_contains k s)
  | _ => type_error ("argument of type '" ++ type_name v ++ "' is not iterable")
  end.

Definition not_subscriptable {A : Type} (v : json) : result A :=
  type_error ("'" ++ type_name v ++ "' object is not subscriptable").

(** [v[k]] for a string [k] *)
Definition py_item (v : json) (k : string) : result json :=
  match v with
  | JDict d =>
      match dict_get k d with
      | Some x => Ok x
      | None => Raise (PyExc KeyError (repr_str k))
      end
  | JList _ => type_error "list indices must be integers or slices, not str"
  | JStr _ => type_error "string indices must be integers, not 'str'"
  | _ => not_subscriptable v
  end.

(** [v[0]] *)
Definition py_item0 (v : json) : result json :=
  match v with
  | JList l =>
      match l with
      | x :: _ => Ok x
      | [] => Raise (PyExc IndexError "list index out of range")
      end
  | JStr s =>
      match first_char s with
      | Some c => Ok (JStr c)
      | None => Raise (PyExc IndexError "string index out of range")
      end
  | JDict _ => Raise (PyExc KeyError "0")
  | _ => not_subscriptable v
  end.

(** [v[:8]], as the sequence a [for] loop then walks *)
Definition py_slice8 (v : json) : result (list json) :=
  match v with
  | JList l => Ok (firstn 8 l)
  | JStr s => Ok (map JStr (firstn 8 (string_chars s)))
  | JDict _ => type_error "unhashable type: 'slice'"
  | _ => not_subscriptable v
  end.

(** An int (a bool is one) or a float, as arithmetic and number formatting
    see a value. *)
Definition as_number (v : json) : option (Z + float) :=
  match v with
  | JBool b => Some (inl (if b then 1 else 0))
  | JInt z => Some (inl z)
  | JFloat f => Some (inr f)
  | _ => None
  end.

(** [v - c] for a float [c] *)
Definition py_sub_float (v : json) (c : float) : result float :=
  match as_number v with
  | Some (inl z) => let* x := float_of_Z z in Ok (x - c)%float
  | Some (inr f) => Ok (f - c)%float
  | None =>
      type_error ("unsupported operand type(s) for -: '" ++ type_name v
                  ++ "' and 'float'")
  end.

(** [v * n] for an int [n] *)
Definition py_mul_int (v : json) (n : Z) : result json :=
  match v with
  | JBool b => Ok (JInt ((if b then 1 else 0) * n))
  | JInt z => Ok (JInt (z * n))
  | JFloat f => let* c := float_of_Z n in Ok (JFloat (f * c)%float)
  | JStr s => Ok (JStr (str_repeat (Z.to_nat n) s))
  | JList l => Ok (JList (List.concat (repeat l (Z.to_nat n))))
  | _ =>
      type_error ("unsupported operand type(s) for *: '" ++ type_name v
                  ++ "' and 'int'")
  end.

(** [format(v, '.pf')], the f-string field [{v:.pf}] *)
Definition py_format_f (p : nat) (v : json) : result string :=
  match v with
  | JStr _ =>
      Raise (PyExc ValueError "Unknown format code 'f' for object of type 'str'")
  | _ =>
      match as_number v with
      | Some (inl z) => let* x := float_of_Z z in Ok (fmt_f p x)
      | Some (inr f) => Ok (fmt_f p f)
      | None =>
          type_error ("unsupported format string passed to " ++ type_name v
                      ++ ".__format__")
      end
  end.

(** *** [datetime.fromtimestamp] and [strftime] *)

Record datetime : Type := {
  year : Z; month : Z; day : Z; hour : Z; minute : Z; second : Z
}.

(** The proleptic Gregorian date of a day number counted from 1970-01-01. *)
Definition civil_from_days (days : Z) : Z * Z * Z :=
  let z := days + 719468 in
  let era := z / 146097 in
  let doe := z - era * 146097 in
  let yoe := (doe - doe / 1460 + doe / 36524 - doe / 146096) / 365 in
  let doy := doe - (365 * yoe + yoe / 4 - yoe / 100) in
  let mp := (5 * doy + 2) / 153 in
  let d := doy - (153 * mp + 2) / 5 + 1 in
  let m := if mp <? 10 then mp + 3 else mp - 9 in
  (yoe + era * 400 + (if m <=? 2 then 1 else 0), m, d).

Definition out_of_time_t {A : Type} : result A :=
  Raise (PyExc OverflowError "timestamp out of range for platform time_t").

(** The whole seconds of a timestamp as a 64-bit [time_t]. An int is taken
    as it is when it fits. A float is split into integer and fractional
    part, the fraction rounded to microseconds (ties to even) and a carry or
    borrow moved into the seconds; the range check is made on doubles, so
    that [2^63] passes it and is then converted as x86-64 converts it, to
    [-2^63]. *)
Definition timestamp_seconds (v : json) : result Z :=
  match as_number v with
  | Some (inl z) =>
      if (z <? - 2 ^ 63) || (2 ^ 63 <=? z) then out_of_time_t else Ok z
  | Some (inr f) =>
      if is_nan f
      then Raise (PyExc ValueError "Invalid value NaN (not a number)")
      else if is_infinity f then out_of_time_t
      else
        let ip := float_trunc f in
        let* whole := float_of_Z ip in
        let us := float_round ((f - whole) * 1000000)%float in
        let seconds :=
          if 1000000 <=? us then ip + 1 else if us <? 0 then ip - 1 else ip in
        if (seconds <? - 2 ^ 63) || (2 ^ 63 <? seconds) then out_of_time_t
        else Ok (if seconds =? 2 ^ 63 then - 2 ^ 63 else seconds)
  | None =>
      type_error ("'" ++ type_name v
                  ++ "' object cannot be interpreted as an integer")
  end.

(** A C [int] wraps around. *)
Definition wrap_int (z : Z) : Z := (z + 2 ^ 31) mod 2 ^ 32 - 2 ^ 31.

(** [localtime_r] (glibc, no leap seconds): the calendar fields of local
    time, or [EOVERFLOW] when the year minus 1900 does not fit an [int]. The
    year is then computed as [tm_year + 1900] on [int]. *)
Definition localtime (t : Z) : result datetime :=
  let local := t + utcoffset t in
  let '(y, m, d) := civil_from_days (local / 86400) in
  let rem := local mod 86400 in
  if (- 2 ^ 31 <=? y - 1900) && (y - 1900 <? 2 ^ 31)
  then Ok {| year := wrap_int y; month := m; day := d; hour := rem / 3600;
             minute := rem mod 3600 / 60; second := rem mod 60 |}
  else Raise (PyExc OSError "[Errno 75] Value too large for defined data type").

(** Local time with a year that a [datetime] can hold, 1 to 9999. *)
Definition local_time (t : Z) : result datetime :=
  let* tm := localtime t in
  if (1 <=? year tm) && (year tm <=? 9999) then Ok tm
  else Raise (PyExc ValueError
                ("year " ++ str_of_Z (year tm) ++ " is out of range")).

Definition max_fold_seconds : Z := 24 * 3600.

(** [datetime.fromtimestamp(v)]: local time, without a time zone. To find
    out whether the time is the second of two equal local times (a fold)
    the local time one day earlier is computed too, and when the offset
    from UTC has gone down within this day also the local time before the
    change; each of them must have a year from 1 to 9999. *)
Definition fromtimestamp (v : json) : result datetime :=
  let* t := timestamp_seconds v in
  let* tm := local_time t in
  let* probe := local_time (t - max_fold_seconds) in
  let transition := utcoffset t - utcoffset (t - max_fold_seconds) in
  let* before := (if transition <? 0 then local_time (t + transition) else Ok probe) in
  Ok tm.

(** The directives the program uses; [%Y] is not padded (as in glibc). *)
Definition directive (c : ascii) (t : datetime) : string :=
  if Ascii.eqb c "Y" then str_of_Z (year t)
  else if Ascii.eqb c "m" then zero_pad 2 (month t)
  else if Ascii.eqb c "d" then zero_pad 2 (day t)
  else if Ascii.eqb c "H" then zero_pad 2 (hour t)
  else if Ascii.eqb c "M" then zero_pad 2 (minute t)
  else if Ascii.eqb c "S" then zero_pad 2 (second t)
  else String "%" (String c EmptyString).

(** [t.strftime(fmt)] *)
Fixpoint strftime (fmt : string) (t : datetime) : string :=
  match fmt with
  | EmptyString => EmptyString
  | String a rest =>
      if Ascii.eqb a "%" then
        match rest with
        | String c rest' => directive c t ++ strftime rest' t
        | EmptyString => String a EmptyString
        end
      else String a (strftime rest t)
  end.

End ObjectProtocol.

(* ================================================================== *)
(** ** The world: HTTP client and clock *)

(** [client.get(url, params=params, timeout=timeout)] *)
Record request : Type := {
  req_url : string;
  req_params : list (string * json);
  req_timeout : float
}.

(** How one GET ends: a response (status code, [response.text], and what
    [response.json()] gives: the value [json.loads] returns, or what it
    raises), [httpx.TimeoutException], another [httpx.RequestError] with its
    [str], or any other exception. *)
Inductive outcome : Type :=
| Response (status_code : Z) (text : string) (body : result json)
| TimeoutException
| RequestError (msg : string)
| ClientRaised (e : exn).

(** The upstream as the client shows it: the outcome of the [n]-th GET
    issued (counted from 0), given the request. *)
Definition AsyncClient : Type := nat -> request -> outcome.

(** What a call leaves behind: the requests sent and the seconds slept, in
    order. Log records are not kept. *)
Record world : Type := {
  sent : list request;
  slept : list Z
}.

Definition M (A : Type) : Type := world -> result A * world.

Definition ret {A : Type} (a : A) : M A := fun w => (Ok a, w).

Definition raise {A : Type} (e : exn) : M A := fun w => (Raise e, w).

Definition lift {A : Type} (r : result A) : M A := fun w => (r, w).

Definition bind {A B : Type} (m : M A) (k : A -> M B) : M B :=
  fun w =>
    match m w with
    | (Ok a, w') => k a w'
    | (Raise e, w') => (Raise e, w')
    end.

Notation "x <- m ;; k" := (bind m (fun x => k))
  (at level 61, m at next level, right associativity).

(** [try: m except ... as e: handler e] *)
Definition try_except {A : Type} (m : M A) (handler : exn -> M A) : M A :=
  fun w =>
    match m w with
    | (Ok a, w') => (Ok a, w')
    | (Raise e, w') => handler e w'
    end.

Definition client_get (client : AsyncClient) (r : request) : M outcome :=
  fun w =>
    (Ok (client (List.length (sent w)) r),
     {| sent := sent w ++ [r]; slept := slept w |}%list).

(** [await asyncio.sleep(seconds)] *)
Definition sleep (seconds : Z) : M unit :=
  fun w => (Ok tt, {| sent := sent w; slept := (slept w ++ [seconds])%list |}).

(* ================================================================== *)
(** ** main.py *)

Definition OPENWEATHER_BASE_URL : string :=
  "https://api.openweathermap.org/data/2.5".

Definition OPENWEATHER_GEO_URL : string :=
  "https://api.openweathermap.org/geo/1.0".

Definition RATE_LIMIT_WARNING : string :=
  "Note: OpenWeatherMap free tier allows 1,000 calls/day. Please use responsibly.".

(** The messages by which the program tells its failures apart. *)
Definition invalid_api_key : exn :=
  WeatherAPIError
    "Invalid API key. Please check your OPENWEATHER_API_KEY environment variable.".

Definition location_not_found : exn :=
  WeatherAPIError "Location not found. Please check the city name or coordinates.".

Definition rate_limit_exceeded : exn :=
  WeatherAPIError
    "Rate limit exceeded. Please try again later or upgrade your API plan.".

Definition request_timed_out : exn :=
  WeatherAPIError "Request timed out after multiple retries.".

Definition http_error (status_code : Z) (text : string) : exn :=
  WeatherAPIError ("HTTP error " ++ str_of_Z status_code ++ ": " ++ text).

Definition network_error (msg : string) : exn :=
  WeatherAPIError ("Network error: " ++ msg).

(** [response.raise_for_status()] passes exactly the 2xx codes. *)
Definition is_success (status_code : Z) : bool :=
  (200 <=? status_code) && (status_code <=? 299).

(** The loop [for attempt in range(max_retries)] from [attempt] on, with
    [remaining] iterations to go. *)
Fixpoint fetch_attempts (client : AsyncClient) (req : request)
    (max_retries : Z) (remaining : nat) (attempt : Z) : M json :=
  match remaining with
  | O => raise (WeatherAPIError "Failed to fetch data after multiple retries")
  | S remaining' =>
      o <- client_get client req ;;
      match o with
      | Response status_code text body =>
          if is_success status_code then lift body
          else if status_code =? 401 then raise invalid_api_key
          else if status_code =? 404 then raise location_not_found
          else if status_code =? 429 then
            if attempt <? max_retries - 1 then
              _ <- sleep (2 ^ attempt) ;;
              fetch_attempts client req max_retries remaining' (attempt + 1)
            else raise rate_limit_exceeded
          else raise (http_error status_code text)
      | TimeoutException =>
          if attempt <? max_retries - 1 then
            _ <- sleep 1 ;;
            fetch_attempts client req max_retries remaining' (attempt + 1)
          else raise request_timed_out
      | RequestError msg => raise (network_error msg)
      | ClientRaised e => raise e
      end
  end.

Definition fetch_with_retry (client : AsyncClient) (url : string)
    (params : list (string * json)) (max_retries : Z) : M json :=
  fetch_attempts client
    {| req_url := url; req_params := params; req_timeout := 10 |}
    max_retries (Z.to_nat max_retries) 0.

Section Main.

Context {rt : PyRuntime}.

(** [os.getenv("OPENWEATHER_API_KEY")], read once at import *)
Variable OPENWEATHER_API_KEY : option string.

Definition api_key_json : json :=
  match OPENWEATHER_API_KEY with
  | Some k => JStr k
  | None => JNull
  end.

Definition format_temperature (kelvin unit : json) : result string :=
  if py_eq_str unit "fahrenheit" then
    let* c := py_sub_float kelvin 273.15 in
    Ok (fmt_f 1 (c * 9 / 5 + 32)%float ++ "°F")
  else if py_eq_str unit "kelvin" then
    let* k := py_format_f 1 kelvin in
    Ok (k ++ "K")
  else
    let* c := py_sub_float kelvin 273.15 in
    Ok (fmt_f 1 c ++ "°C").

(** [d[key][0] if d.get(key) else {}] *)
Definition first_or_empty (d : json) (key : string) : result json :=
  let* present := py_get d key JNull in
  if py_truthy present
  then let* items := py_item d key in py_item0 items
  else Ok (JDict []).

(** [response += f"{label}{d[key].get('1h', 0)} mm\n"] when [d.get(key)] *)
Definition add_precipitation (d : json) (key label response : string)
  : result string :=
  let* present := py_get d key JNull in
  if py_truthy present then
    let* amounts := py_item d key in
    let* amount := shown_field amounts "1h" (JInt 0) in
    Ok (response ++ label ++ amount ++ " mm" ++ nl)
  else Ok response.

Definition format_weather_response (data unit : json) : result string :=
  let* missing :=
    (if negb (py_truthy data) then Ok true
     else let* present := py_in "main" data in Ok (negb present)) in
  if missing then Ok "No weather data available."
  else
    let* main := py_item data "main" in
    let* weather := first_or_empty data "weather" in
    let* wind := py_get data "wind" (JDict []) in
    let* clouds := py_get data "clouds" (JDict []) in
    let* t := py_get main "temp" (JInt 0) in
    let* temp := format_temperature t unit in
    let* t := py_get main "feels_like" (JInt 0) in
    let* feels_like := format_temperature t unit in
    let* t := py_get main "temp_min" (JInt 0) in
    let* temp_min := format_temperature t unit in
    let* t := py_get main "temp_max" (JInt 0) in
    let* temp_max := format_temperature t unit in
    let* name := shown_field data "name" (JStr "Unknown location") in
    let* dt := py_get data "dt" (JInt 0) in
    let* time := fromtimestamp dt in
    let* condition := shown_field weather "main" (JStr "Unknown") in
    let* description := shown_field weather "description" (JStr "No description") in
    let* humidity := shown_field main "humidity" (JInt 0) in
    let* pressure := shown_field main "pressure" (JInt 0) in
    let* speed := shown_field wind "speed" (JInt 0) in
    let* deg := shown_field wind "deg" (JInt 0) in
    let* cloudiness := shown_field clouds "all" (JInt 0) in
    let response :=
      nl ++ "🌍 Weather for " ++ name ++ nl
      ++ "📅 Time: " ++ strftime "%Y-%m-%d %H:%M:%S" time ++ nl
      ++ nl
      ++ "🌡️ Temperature: " ++ temp ++ nl
      ++ "   Feels like: " ++ feels_like ++ nl
      ++ "   Min: " ++ temp_min ++ " | Max: " ++ temp_max ++ nl
      ++ nl
      ++ "☁️ Condition: " ++ condition ++ " - " ++ description ++ nl
      ++ "💧 Humidity: " ++ humidity ++ "%" ++ nl
      ++ "🎈 Pressure: " ++ pressure ++ " hPa" ++ nl
      ++ "💨 Wind: " ++ speed ++ " m/s, direction " ++ deg ++ "°" ++ nl
      ++ "☁️ Cloudiness: " ++ cloudiness ++ "%" ++ nl in
    let* response := add_precipitation data "rain" "🌧️ Rain (1h): " response in
    let* response := add_precipitation data "snow" "❄️ Snow (1h): " response in
    Ok (py_strip (response ++ nl ++ RATE_LIMIT_WARNING)).

(** The body of [for forecast in forecasts], from [response] to the
    response with the five lines of [forecast] added. *)
Definition add_forecast (unit : json) (response : string) (forecast : json)
  : result string :=
  let* stamp := py_get forecast "dt" (JInt 0) in
  let* dt := fromtimestamp stamp in
  let* main := py_get forecast "main" (JDict []) in
  let* weather := first_or_empty forecast "weather" in
  let* wind := py_get forecast "wind" (JDict []) in
  let* t := py_get main "temp" (JInt 0) in
  let* temp := format_temperature t unit in
  let* t := py_get main "feels_like" (JInt 0) in
  let* feels_like := format_temperature t unit in
  let response := response ++ "📅 " ++ strftime "%Y-%m-%d %H:%M" dt ++ nl in
  let response :=
    response ++ "   🌡️ " ++ temp ++ " (feels like " ++ feels_like ++ ")" ++ nl in
  let* condition := shown_field weather "main" (JStr "Unknown") in
  let* description := shown_field weather "description" (JStr "No description") in
  let response :=
    response ++ "   ☁️ " ++ condition ++ " - " ++ description ++ nl in
  let* humidity := shown_field main "humidity" (JInt 0) in
  let* speed := shown_field wind "speed" (JInt 0) in
  let response :=
    response ++ "   💧 Humidity: " ++ humidity ++ "% | 💨 Wind: "
    ++ speed ++ " m/s" ++ nl in
  let* pop := py_get forecast "pop" (JInt 0) in
  let* percent := py_mul_int pop 100 in
  let* shown := py_format_f 0 percent in
  Ok (response ++ "   🌧️ Rain probability: " ++ shown ++ "%" ++ nl ++ nl).

Fixpoint add_forecasts (unit : json) (response : string) (forecasts : list json)
  : result string :=
  match forecasts with
  | [] => Ok response
  | forecast :: rest =>
      let* response := add_forecast unit response forecast in
      add_forecasts unit response rest
  end.

Definition format_forecast_response (data unit : json) : result string :=
  let* missing :=
    (if negb (py_truthy data) then Ok true
     else let* present := py_in "list" data in Ok (negb present)) in
  if missing then Ok "No forecast data available."
  else
    let* city := py_get data "city" (JDict []) in
    let* entries := py_get data "list" (JList []) in
    let* forecasts := py_slice8 entries in
    let* name := shown_field city "name" (JStr "Unknown location") in
    let response := "🌍 5-Day Forecast for " ++ name ++ nl in
    let* coord := py_get city "coord" (JDict []) in
    let* lat := shown_field coord "lat" (JInt 0) in
    let* coord := py_get city "coord" (JDict []) in
    let* lon := shown_field coord "lon" (JInt 0) in
    let response :=
      response ++ "📍 Coordinates: " ++ lat ++ ", " ++ lon
      ++ nl ++ nl in
    let* response := add_forecasts unit response forecasts in
    Ok (py_strip (response ++ RATE_LIMIT_WARNING)).

Definition aqi_labels : list (Z * string) :=
  [(1, "Good"); (2, "Fair"); (3, "Moderate"); (4, "Poor"); (5, "Very Poor")].

(** The int a value is equal to, as a key of a dict with int keys: an int,
    a bool, or a float with an integral value; a list or dict cannot be
    hashed. *)
Definition int_key (v : json) : result (option Z) :=
  match v with
  | JBool b => Ok (Some (if b then 1 else 0))
  | JInt z => Ok (Some z)
  | JFloat f =>
      match float_of_Z (float_trunc f) with
      | Ok x => Ok (if (x =? f)%float then Some (float_trunc f) else None)
      | Raise _ => Ok None
      end
  | JNull | JStr _ => Ok None
  | JList _ | JDict _ => type_error ("unhashable type: '" ++ type_name v ++ "'")
  end.

Fixpoint labels_get (labels : list (Z * string)) (key : Z) : option string :=
  match labels with
  | [] => None
  | (k, label) :: rest => if k =? key then Some label else labels_get rest key
  end.

(** [aqi_labels.get(aqi_level, 'Unknown')] *)
Definition aqi_label (aqi_level : json) : result string :=
  let* key := int_key aqi_level in
  Ok (match key with
      | Some z =>
          match labels_get aqi_labels z with
          | Some label => label
          | None => "Unknown"
          end
      | None => "Unknown"
      end).

(** [f"{components.get(key, 0):.2f}"] *)
Definition component (components : json) (key : string) : result string :=
  let* amount := py_get components key (JInt 0) in
  py_format_f 2 amount.

Definition format_air_quality_response (data : json) : result string :=
  let* missing :=
    (if negb (py_truthy data) then Ok true
     else
       let* present := py_in "list" data in
       if negb present then Ok true
       else let* entries := py_item data "list" in Ok (negb (py_truthy entries))) in
  if missing then Ok "No air quality data available."
  else
    let* entries := py_item data "list" in
    let* aqi_data := py_item0 entries in
    let* main := py_get aqi_data "main" (JDict []) in
    let* components := py_get aqi_data "components" (JDict []) in
    let* aqi_level := py_get main "aqi" (JInt 0) in
    let* level := py_str aqi_level in
    let* label := aqi_label aqi_level in
    let* stamp := py_get aqi_data "dt" (JInt 0) in
    let* time := fromtimestamp stamp in
    let* co := component components "co" in
    let* no := component components "no" in
    let* no2 := component components "no2" in
    let* o3 := component components "o3" in
    let* so2 := component components "so2" in
    let* pm2_5 := component components "pm2_5" in
    let* pm10 := component components "pm10" in
    let* nh3 := component components "nh3" in
    let response :=
      nl ++ "🌫️ Air Quality Index (AQI): " ++ level ++ " - " ++ label ++ nl
      ++ "📅 Time: " ++ strftime "%Y-%m-%d %H:%M:%S" time ++ nl
      ++ nl
      ++ "Components (μg/m³):" ++ nl
      ++ "  CO (Carbon monoxide): " ++ co ++ nl
      ++ "  NO (Nitrogen monoxide): " ++ no ++ nl
      ++ "  NO₂ (Nitrogen dioxide): " ++ no2 ++ nl
      ++ "  O₃ (Ozone): " ++ o3 ++ nl
      ++ "  SO₂ (Sulphur dioxide): " ++ so2 ++ nl
      ++ "  PM2.5 (Fine particles): " ++ pm2_5 ++ nl
      ++ "  PM10 (Coarse particles): " ++ pm10 ++ nl
      ++ "  NH₃ (Ammonia): " ++ nh3 ++ nl
      ++ nl
      ++ RATE_LIMIT_WARNING ++ nl in
    Ok (py_strip response).

(** [parts[i]] on the list of parts *)
Definition part (parts : list string) (i : nat) : result string :=
  match nth_error parts i with
  | Some p => Ok p
  | None => Raise (PyExc IndexError "list index out of range")
  end.

(** [float(s)] *)
Definition float_of_str (s : string) : result float :=
  match py_float s with
  | Some x => Ok x
  | None =>
      Raise (PyExc ValueError
               ("could not convert string to float: " ++ repr_str s))
  end.

(** The [try] block of the coordinate check: the pair it returns, or [None]
    when the range test fails and control leaves the block. *)
Definition parse_coordinates (location : string)
  : result (option (float * float)) :=
  let parts := split_on "," location in
  let* p0 := part parts 0 in
  let* lat := float_of_str (py_strip p0) in
  let* p1 := part parts 1 in
  let* lon := float_of_str (py_strip p1) in
  if ((-90 <=? lat) && (lat <=? 90) && (-180 <=? lon) && (lon <=? 180))%float
  then Ok (Some (lat, lon))
  else Ok None.

(** [if "," in location: try: ... except (ValueError, IndexError): pass] *)
Definition coordinates_given (location : string)
  : result (option (float * float)) :=
  if str_contains "," location then
    match parse_coordinates location with
    | Ok found => Ok found
    | Raise e => if is_value_or_index_error e then Ok None else Raise e
    end
  else Ok None.

Definition not_found (location : string) : exn :=
  WeatherAPIError ("Location '" ++ location ++ "' not found.").

(** The geocoding half of [get_coordinates]. *)
Definition geocode (location : string) (client : AsyncClient)
  : M (json * json) :=
  let params :=
    [("q", JStr location); ("limit", JInt 1); ("appid", api_key_json)] in
  let url := OPENWEATHER_GEO_URL ++ "/direct" in
  try_except
    (data <- fetch_with_retry client url params 3 ;;
     if negb (py_truthy data) then raise (not_found location)
     else
       first <- lift (py_item0 data) ;;
       lat <- lift (py_item first "lat") ;;
       first <- lift (py_item0 data) ;;
       lon <- lift (py_item first "lon") ;;
       ret (lat, lon))
    (fun e =>
       if is_key_or_index_error e
       then raise (WeatherAPIError
                     ("Failed to parse geocoding response: " ++ str_of_exn e))
       else raise e).

Definition get_coordinates (location : string) (client : AsyncClient)
  : M (json * json) :=
  given <- lift (coordinates_given location) ;;
  match given with
  | Some (lat, lon) => ret (JFloat lat, JFloat lon)
  | None => geocode location client
  end.

Record TextContent : Type := {
  type : string;
  text : string
}.

Definition api_key_missing_text : string :=
  "Error: OPENWEATHER_API_KEY environment variable is not set. "
  ++ "Please configure your API key in the .env file.".

Definition location_required_text : string :=
  "Error: Location parameter is required.".

(** [not OPENWEATHER_API_KEY] *)
Definition api_key_unset : bool :=
  match OPENWEATHER_API_KEY with
  | Some k => String.eqb k ""
  | None => true
  end.

(** [v.strip()] on whatever value [v] is *)
Definition strip_method (v : json) : result string :=
  match v with
  | JStr s => Ok (py_strip s)
  | _ => no_attribute v "strip"
  end.

(** [fetch_with_retry] on an endpoint of the weather API with the resolved
    coordinates and the key as parameters. *)
Definition fetch_endpoint (client : AsyncClient) (endpoint : string)
    (lat lon : json) : M json :=
  fetch_with_retry client (OPENWEATHER_BASE_URL ++ endpoint)
    [("lat", lat); ("lon", lon); ("appid", api_key_json)] 3.

(** The [try] block of [call_tool]. *)
Definition call_tool_body (name location : string) (units : json)
    (client : AsyncClient) : M (list TextContent) :=
  coordinates <- get_coordinates location client ;;
  let '(lat, lon) := coordinates in
  if String.eqb name "get_current_weather" then
    data <- fetch_endpoint client "/weather" lat lon ;;
    response_text <- lift (format_weather_response data units) ;;
    ret [{| type := "text"; text := response_text |}]
  else if String.eqb name "get_weather_forecast" then
    data <- fetch_endpoint client "/forecast" lat lon ;;
    response_text <- lift (format_forecast_response data units) ;;
    ret [{| type := "text"; text := response_text |}]
  else if String.eqb name "get_air_quality" then
    data <- fetch_endpoint client "/air_pollution" lat lon ;;
    response_text <- lift (format_air_quality_response data) ;;
    ret [{| type := "text"; text := response_text |}]
  else
    ret [{| type := "text"; text := "Error: Unknown tool '" ++ name ++ "'" |}].

(** [except WeatherAPIError as e] and [except Exception as e] *)
Definition error_text (e : exn) : string :=
  match e with
  | WeatherAPIError msg => "Error: " ++ msg
  | PyExc _ msg => "Unexpected error: " ++ msg
  end.

(** [client] stands for the [httpx.AsyncClient()] the call opens. *)
Definition call_tool (name : string) (arguments : json) (client : AsyncClient)
  : M (list TextContent) :=
  if api_key_unset then ret [{| type := "text"; text := api_key_missing_text |}]
  else
    given <- lift (py_get arguments "location" (JStr "")) ;;
    location <- lift (strip_method given) ;;
    if String.eqb location "" then
      ret [{| type := "text"; text := location_required_text |}]
    else
      units <- lift (py_get arguments "units" (JStr "celsius")) ;;
      try_except (call_tool_body name location units client)
        (fun e => ret [{| type := "text"; text := error_text e |}]).

End Main.

(* ================================================================== *)
(** ** A concrete machine

    Local time is UTC, and [repr] of a string is CPython's for text whose
    characters outside ASCII are all printable. *)

Definition hex_digit (n : N) : ascii :=
  ascii_of_N (if (n <? 10)%N then 48 + n else 87 + n).

Definition double_quote : ascii := ascii_of_N 34.

Fixpoint escape (quote : ascii) (s : string) : string :=
  match s with
  | EmptyString => EmptyString
  | String a rest =>
      (if Ascii.eqb a quote || Ascii.eqb a "\"
       then String "\" (String a EmptyString)
       else if byte_is 9 a then "\t"
       else if byte_is 10 a then "\n"
       else if byte_is 13 a then "\r"
       else if byte_in 0 31 a || byte_is 127 a
       then "\x" ++ String (hex_digit (N_of_ascii a / 16))
                      (String (hex_digit (N_of_ascii a mod 16)) EmptyString)
       else String a EmptyString)
      ++ escape quote rest
  end.

Definition plain_repr (s : string) : string :=
  let quote :=
    if str_contains "'" s
       && negb (str_contains (String double_quote EmptyString) s)
    then double_quote else "'"%char in
  String quote (escape quote s ++ String quote EmptyString).

Definition utc_machine : PyRuntime :=
  {| utcoffset := fun _ => 0; repr_str := plain_repr |}.

(* ================================================================== *)
(** ** Statements about text *)

(** [needle] occurs in [hay]. *)
Definition contains_text (needle hay : string) : Prop :=
  exists before after, hay = before ++ needle ++ after.

(** The seconds slept in all. *)
Definition total_slept (w : world) : Z := fold_right Z.add 0 (slept w).

(** A first byte that opens no whitespace character, and a last byte that
    closes none. *)
Definition solid_start (a : ascii) : bool :=
  negb (is_space1 a || byte_is 194 a || byte_in 225 227 a).

Definition solid_end (a : ascii) : bool :=
  negb (is_space1 a) && byte_in 0 127 a.

(** A first outcome that ends the call at once, with the error the
    program raises for it: 401, 404, any other status outside 2xx but 429,
    and a network error that is not a timeout. *)
Inductive permanent_failure : outcome -> exn -> Prop :=
| failure_401 text body :
    permanent_failure (Response 401 text body) invalid_api_key
| failure_404 text body :
    permanent_failure (Response 404 text body) location_not_found
| failure_status status_code text body :
    is_success status_code = false ->
    status_code <> 401 -> status_code <> 404 -> status_code <> 429 ->
    permanent_failure (Response status_code text body)
                      (http_error status_code text)
| failure_network msg :
    permanent_failure (RequestError msg) (network_error msg).

(** The request [fetch_with_retry] sends on every attempt. *)
Definition get_request (url : string) (params : list (string * json)) : request :=
  {| req_url := url; req_params := params; req_timeout := 10 |}.

(** The two outcomes that are retried. *)
Definition is_transient (o : outcome) : bool :=
  match o with
  | Response status_code _ _ => status_code =? 429
  | TimeoutException => true
  | _ => false
  end.

(** Nothing sent, nothing slept. *)
Definition fresh_world : world := {| sent := []; slept := [] |}.

(** An upstream that answers 429 to the first [failures] requests and 200
    with [data] afterwards. *)
Definition rate_limited_then (failures : nat) (data : json) : AsyncClient :=
  fun n _ =>
    if (n <? failures)%nat then Response 429 "Too Many Requests" (Ok JNull)
    else Response 200 "" (Ok data).

(** An upstream that gives every request the same outcome. *)
Definition always (o : outcome) : AsyncClient := fun _ _ => o.

(** [-90 <= lat <= 90 and -180 <= lon <= 180] *)
Definition in_range (lat lon : float) : bool :=
  ((-90 <=? lat) && (lat <=? 90) && (-180 <=? lon) && (lon <=? 180))%float.

(** [location] reads as the coordinates [lat], [lon]: its first two
    comma-separated parts parse as these floats and are in range. *)
Definition coordinate_text (location : string) (lat lon : float) : Prop :=
  exists p0 p1 rest,
    split_on "," location = p0 :: p1 :: rest
    /\ py_float (py_strip p0) = Some lat
    /\ py_float (py_strip p1) = Some lon
    /\ in_range lat lon = true.

(** The request [get_coordinates] sends to the geocoder. *)
Definition geocoding_params (key : option string) (location : string)
  : list (string * json) :=
  [("q", JStr location); ("limit", JInt 1); ("appid", api_key_json key)].

(** [d[k] = v] *)
Fixpoint dict_set (k : string) (v : json) (d : list (string * json))
  : list (string * json) :=
  match d with
  | [] => [(k, v)]
  | (k', x) :: rest =>
      if String.eqb k' k then (k, v) :: rest else (k', x) :: dict_set k v rest
  end.

(** Payloads of the repository's tests: current weather with only a
    temperature, and the forecast for Paris with one entry. *)
Definition mild_day : json :=
  JDict [("name", JStr "London"); ("dt", JInt 1612345678);
         ("main", JDict [("temp", JFloat 293.15)])].

Definition paris_forecast : json :=
  JDict
    [("city", JDict [("name", JStr "Paris");
                     ("coord", JDict [("lat", JFloat 48.8566);
                                      ("lon", JFloat 2.3522)])]);
     ("list",
      JList
        [JDict [("dt", JInt 1612345678);
                ("main", JDict [("temp", JFloat 283.15);
                                ("feels_like", JFloat 281.15);
                                ("humidity", JInt 70)]);
                ("weather", JList [JDict [("main", JStr "Clear");
                                          ("description", JStr "clear sky")]]);
                ("wind", JDict [("speed", JFloat 4.0)]);
                ("pop", JFloat 0.1)]])].

(** *** Payloads with absent fields

    A payload is well formed when it is a mapping in which every field the
    formatter reads is either absent or of the provider's type: numbers
    that a float can hold, values that [str] shows (no list or mapping, and
    ints of at most 4300 digits), POSIX times in whole seconds from 1970 to
    9999, mappings for the nested objects, and a list of mappings for the
    conditions. *)

Definition is_ok {A : Type} (r : result A) : bool :=
  match r with
  | Ok _ => true
  | Raise _ => false
  end.

(** The field [k] of [d] is absent or satisfies [P]. *)
Definition optional (d : list (string * json)) (k : string) (P : json -> bool)
  : bool :=
  match dict_get k d with
  | Some v => P v
  | None => true
  end.

Definition dict_of (P : list (string * json) -> bool) (v : json) : bool :=
  match v with
  | JDict d => P d
  | _ => false
  end.

Definition is_number (v : json) : bool :=
  match as_number v with
  | Some (inl z) => is_ok (float_of_Z z)
  | Some (inr _) => true
  | None => false
  end.

(** A number whose hundredfold a float can hold. *)
Definition is_fraction (v : json) : bool :=
  match as_number v with
  | Some (inl z) => is_ok (float_of_Z (z * 100))
  | Some (inr _) => true
  | None => false
  end.

(** None, a bool, a float, a string, or an int of at most 4300 digits. *)
Definition is_shown (v : json) : bool :=
  match v with
  | JInt z => digits z <=? int_max_str_digits
  | JList _ | JDict _ => false
  | _ => true
  end.

(** An int from 0 (1970-01-01 00:00:00 UTC) to 253402214399
    (9999-12-30 23:59:59 UTC). *)
Definition is_timestamp (v : json) : bool :=
  match v with
  | JInt t => (0 <=? t) && (t <=? 253402214399)
  | _ => false
  end.

(** A list that is empty or starts with a mapping. *)
Definition is_condition_list (v : json) : bool :=
  match v with
  | JList [] => true
  | JList (JDict c :: _) =>
      optional c "main" is_shown && optional c "description" is_shown
  | _ => false
  end.

(** The amounts of rain or snow. *)
Definition is_amounts : json -> bool :=
  dict_of (fun a => optional a "1h" is_shown).

Definition wf_weather : json -> bool :=
  dict_of (fun d =>
    optional d "main"
      (dict_of (fun m =>
         optional m "temp" is_number && optional m "feels_like" is_number
         && optional m "temp_min" is_number && optional m "temp_max" is_number
         && optional m "humidity" is_shown && optional m "pressure" is_shown))
    && optional d "weather" is_condition_list
    && optional d "wind"
         (dict_of (fun w => optional w "speed" is_shown && optional w "deg" is_shown))
    && optional d "clouds" (dict_of (fun c => optional c "all" is_shown))
    && optional d "name" is_shown
    && optional d "dt" is_timestamp
    && optional d "rain" is_amounts
    && optional d "snow" is_amounts).

Definition wf_forecast_entry : json -> bool :=
  dict_of (fun e =>
    optional e "dt" is_timestamp
    && optional e "main"
         (dict_of (fun m =>
            optional m "temp" is_number && optional m "feels_like" is_number
            && optional m "humidity" is_shown))
    && optional e "weather" is_condition_list
    && optional e "wind" (dict_of (fun w => optional w "speed" is_shown))
    && optional e "pop" is_fraction).

Definition wf_forecast : json -> bool :=
  dict_of (fun d =>
    optional d "city"
      (dict_of (fun c =>
         optional c "name" is_shown
         && optional c "coord"
              (dict_of (fun p =>
                 optional p "lat" is_shown && optional p "lon" is_shown))))
    && optional d "list"
         (fun v =>
            match v with
            | JList entries => forallb wf_forecast_entry (firstn 8 entries)
            | _ => false
            end)).

Definition component_keys : list string :=
  ["co"; "no"; "no2"; "o3"; "so2"; "pm2_5"; "pm10"; "nh3"].

Definition wf_air_entry : json -> bool :=
  dict_of (fun e =>
    optional e "main" (dict_of (fun m => optional m "aqi" is_shown))
    && optional e "components"
         (dict_of (fun c => forallb (fun k => optional c k is_number) component_keys))
    && optional e "dt" is_timestamp).

Definition wf_air : json -> bool :=
  dict_of (fun d =>
    optional d "list"
      (fun v =>
         match v with
         | JList [] => true
         | JList (first :: _) => wf_air_entry first
         | _ => false
         end)).

(** *** The reports, as the specification describes them

    Each line shows a field of the payload, or the default that stands for
    it when the field is absent. *)

(** The field [k] of a mapping, or [default] when it is absent. *)
Definition field (d : list (string * json)) (k : string) (default : json) : json :=
  match dict_get k d with
  | Some v => v
  | None => default
  end.

(** The mapping under [k]; empty when the field is absent. *)
Definition submap (d : list (string * json)) (k : string) : list (string * json) :=
  match dict_get k d with
  | Some (JDict m) => m
  | _ => []
  end.

(** The first of the conditions under [weather]; empty when there is none. *)
Definition first_condition (d : list (string * json)) : list (string * json) :=
  match dict_get "weather" d with
  | Some (JList (JDict c :: _)) => c
  | _ => []
  end.

(** The text of a result, empty when there is none. *)
Definition report_or_empty (r : result string) : string :=
  match r with
  | Ok report => report
  | Raise _ => ""
  end.

(** A value as [str] shows it; a temperature in a unit; a time in a format;
    a number with [p] decimals; a fraction as a percentage; the label of an
    AQI level. *)
Definition str_text {rt : PyRuntime} (v : json) : string :=
  report_or_empty (py_str v).

Definition temperature_text (unit v : json) : string :=
  report_or_empty (format_temperature v unit).

Definition time_text {rt : PyRuntime} (fmt : string) (v : json) : string :=
  match fromtimestamp v with
  | Ok t => strftime fmt t
  | Raise _ => ""
  end.

Definition decimals (p : nat) (v : json) : string := report_or_empty (py_format_f p v).

Definition percent_text (v : json) : string :=
  report_or_empty (let* percent := py_mul_int v 100 in py_format_f 0 percent).

Definition label_text (v : json) : string := report_or_empty (aqi_label v).

(** The line for rain or snow: present when the field is a non-empty
    mapping. *)
Definition precipitation_line {rt : PyRuntime} (d : list (string * json))
    (key label : string) : string :=
  match dict_get key d with
  | Some (JDict (item :: rest)) =>
      label ++ str_text (field (item :: rest) "1h" (JInt 0)) ++ " mm" ++ nl
  | _ => ""
  end.

(** What follows the headline of the current-weather report, up to the
    notice. *)
Definition weather_lines {rt : PyRuntime} (d : list (string * json)) (unit : json)
  : string :=
  let main := submap d "main" in
  let weather := first_condition d in
  let wind := submap d "wind" in
  let clouds := submap d "clouds" in
  str_text (field d "name" (JStr "Unknown location")) ++ nl
  ++ "📅 Time: " ++ time_text "%Y-%m-%d %H:%M:%S" (field d "dt" (JInt 0)) ++ nl
  ++ nl
  ++ "🌡️ Temperature: " ++ temperature_text unit (field main "temp" (JInt 0)) ++ nl
  ++ "   Feels like: " ++ temperature_text unit (field main "feels_like" (JInt 0))
  ++ nl
  ++ "   Min: " ++ temperature_text unit (field main "temp_min" (JInt 0))
  ++ " | Max: " ++ temperature_text unit (field main "temp_max" (JInt 0)) ++ nl
  ++ nl
  ++ "☁️ Condition: " ++ str_text (field weather "main" (JStr "Unknown")) ++ " - "
  ++ str_text (field weather "description" (JStr "No description")) ++ nl
  ++ "💧 Humidity: " ++ str_text (field main "humidity" (JInt 0)) ++ "%" ++ nl
  ++ "🎈 Pressure: " ++ str_text (field main "pressure" (JInt 0)) ++ " hPa" ++ nl
  ++ "💨 Wind: " ++ str_text (field wind "speed" (JInt 0)) ++ " m/s, direction "
  ++ str_text (field wind "deg" (JInt 0)) ++ "°" ++ nl
  ++ "☁️ Cloudiness: " ++ str_text (field clouds "all" (JInt 0)) ++ "%" ++ nl
  ++ precipitation_line d "rain" "🌧️ Rain (1h): "
  ++ precipitation_line d "snow" "❄️ Snow (1h): "
  ++ nl.

Definition weather_report {rt : PyRuntime} (d : list (string * json)) (unit : json)
  : string :=
  "🌍 Weather for " ++ weather_lines d unit ++ RATE_LIMIT_WARNING.

(** The five lines of one forecast entry and the blank line after them. *)
Definition forecast_block {rt : PyRuntime} (unit : json) (entry : json) : string :=
  let e := match entry with JDict e => e | _ => [] end in
  let main := submap e "main" in
  let weather := first_condition e in
  let wind := submap e "wind" in
  "📅 " ++ time_text "%Y-%m-%d %H:%M" (field e "dt" (JInt 0)) ++ nl
  ++ "   🌡️ " ++ temperature_text unit (field main "temp" (JInt 0))
  ++ " (feels like " ++ temperature_text unit (field main "feels_like" (JInt 0))
  ++ ")" ++ nl
  ++ "   ☁️ " ++ str_text (field weather "main" (JStr "Unknown")) ++ " - "
  ++ str_text (field weather "description" (JStr "No description")) ++ nl
  ++ "   💧 Humidity: " ++ str_text (field main "humidity" (JInt 0))
  ++ "% | 💨 Wind: " ++ str_text (field wind "speed" (JInt 0)) ++ " m/s" ++ nl
  ++ "   🌧️ Rain probability: " ++ percent_text (field e "pop" (JInt 0)) ++ "%"
  ++ nl ++ nl.

(** What follows the headline of the forecast report, up to the notice:
    the place, and the blocks of the first eight entries. *)
Definition forecast_lines {rt : PyRuntime} (d : list (string * json)) (unit : json)
  : string :=
  let city := submap d "city" in
  let coord := submap city "coord" in
  let entries := match dict_get "list" d with Some (JList l) => l | _ => [] end in
  str_text (field city "name" (JStr "Unknown location")) ++ nl
  ++ "📍 Coordinates: " ++ str_text (field coord "lat" (JInt 0)) ++ ", "
  ++ str_text (field coord "lon" (JInt 0)) ++ nl ++ nl
  ++ String.concat "" (map (forecast_block unit) (firstn 8 entries)).

Definition forecast_report {rt : PyRuntime} (d : list (string * json)) (unit : json)
  : string :=
  "🌍 5-Day Forecast for " ++ forecast_lines d unit ++ RATE_LIMIT_WARNING.

(** The lines of the air-quality report after its headline. *)
Definition air_details {rt : PyRuntime} (entry : json) : string :=
  let e := match entry with JDict e => e | _ => [] end in
  let components := submap e "components" in
  "📅 Time: " ++ time_text "%Y-%m-%d %H:%M:%S" (field e "dt" (JInt 0)) ++ nl
  ++ nl
  ++ "Components (μg/m³):" ++ nl
  ++ "  CO (Carbon monoxide): " ++ decimals 2 (field components "co" (JInt 0)) ++ nl
  ++ "  NO (Nitrogen monoxide): " ++ decimals 2 (field components "no" (JInt 0)) ++ nl
  ++ "  NO₂ (Nitrogen dioxide): " ++ decimals 2 (field components "no2" (JInt 0)) ++ nl
  ++ "  O₃ (Ozone): " ++ decimals 2 (field components "o3" (JInt 0)) ++ nl
  ++ "  SO₂ (Sulphur dioxide): " ++ decimals 2 (field components "so2" (JInt 0)) ++ nl
  ++ "  PM2.5 (Fine particles): " ++ decimals 2 (field components "pm2_5" (JInt 0))
  ++ nl
  ++ "  PM10 (Coarse particles): " ++ decimals 2 (field components "pm10" (JInt 0))
  ++ nl
  ++ "  NH₃ (Ammonia): " ++ decimals 2 (field components "nh3" (JInt 0)) ++ nl
  ++ nl.

(** The AQI level of an entry: [main.aqi], or 0. *)
Definition aqi_of (entry : json) : json :=
  let e := match entry with JDict e => e | _ => [] end in
  field (submap e "main") "aqi" (JInt 0).

Definition air_report {rt : PyRuntime} (entry : json) : string :=
  "🌫️ Air Quality Index (AQI): "
  ++ (str_text (aqi_of entry) ++ " - " ++ label_text (aqi_of entry) ++ nl
      ++ air_details entry)
  ++ RATE_LIMIT_WARNING.

(** The air-quality payload of the repository's test. *)
Definition air_sample : json :=
  JDict
    [("list",
      JList
        [JDict [("dt", JInt 1612345678);
                ("main", JDict [("aqi", JInt 2)]);
                ("components",
                 JDict [("co", JFloat 201.94); ("no", JFloat 0.01);
                        ("no2", JFloat 0.78); ("o3", JFloat 68.66);
                        ("so2", JFloat 0.64); ("pm2_5", JFloat 0.5);
                        ("pm10", JFloat 0.54); ("nh3", JFloat 0.12)])]])].

(** The label of an AQI index as the specification gives it:
    1 Good, 2 Fair, 3 Moderate, 4 Poor, 5 Very Poor, and Unknown for any
    other value. *)
Definition spec_label (z : Z) : string :=
  if z =? 1 then "Good"
  else if z =? 2 then "Fair"
  else if z =? 3 then "Moderate"
  else if z =? 4 then "Poor"
  else if z =? 5 then "Very Poor"
  else "Unknown".

(** [main.get("aqi", 0)] with [main = aqi_data.get("main", {})] *)
Definition aqi_level_of (aqi_data : json) : result json :=
  let* main := py_get aqi_data "main" (JDict []) in
  py_get main "aqi" (JInt 0).

Definition starts_solid (s : string) : bool :=
  match s with
  | String a _ => solid_start a
  | EmptyString => false
  end.

(** The location [call_tool] works with when the [location] argument is a
    string or is absent: the stripped text, or the stripped default. *)
Definition location_argument (arguments : list (string * json)) : option string :=
  match dict_get "location" arguments with
  | Some (JStr s) => Some (py_strip s)
  | Some _ => None
  | None => Some (py_strip "")
  end.

(** [arguments.get("units", "celsius")] *)
Definition units_argument (arguments : list (string * json)) : json :=
  match dict_get "units" arguments with
  | Some u => u
  | None => JStr "celsius"
  end.

Definition known_tool (name : string) : bool :=
  String.eqb name "get_current_weather"
  || String.eqb name "get_weather_forecast"
  || String.eqb name "get_air_quality".

(** One text result. *)
Definition text_result (message : string) : list TextContent :=
  [{| type := "text"; text := message |}].

(** The sleep that follows a retried outcome at a given attempt: one second
    after a timeout, [2^attempt] seconds after a 429. *)
Definition nap_after (o : outcome) (attempt : Z) : Z :=
  match o with
  | TimeoutException => 1
  | _ => 2 ^ attempt
  end.

(** An outcome of the kinds the fetcher handles: a response whose body
    parses when the status is 2xx, a timeout, or another request error. *)
Definition handled (o : outcome) : bool :=
  match o with
  | Response status_code _ (Raise _) => negb (is_success status_code)
  | ClientRaised _ => false
  | _ => true
  end.

(** An upstream that times out on the first [failures] requests and answers
    200 with [data] afterwards. *)
Definition timing_out_then (failures : nat) (data : json) : AsyncClient :=
  fun n _ =>
    if (n <? failures)%nat then TimeoutException else Response 200 "" (Ok data).

(* ================================================================== *)
(** ** list_tools *)

(** [mcp.types.Tool], with the fields the program sets. *)
Module Tool.
Record t : Type := {
  name : string;
  description : string;
  inputSchema : json
}.
End Tool.

(** [list_tools()] *)
Definition list_tools : list Tool.t :=
  [ {| Tool.name := "get_current_weather";
       Tool.description :=
         "Get current weather conditions for a specific location. "
         ++ "Supports city name or geographic coordinates (latitude/longitude). "
         ++ "Returns temperature, humidity, wind speed, conditions, and more.";
       Tool.inputSchema :=
         JDict
           [("type", JStr "object");
            ("properties",
             JDict
               [("location",
                 JDict
                   [("type", JStr "string");
                    ("description",
                     JStr ("City name (e.g., 'London', 'New York,US', 'Tokyo,JP') "
                           ++ "or coordinates in format 'lat,lon' "
                           ++ "(e.g., '51.5074,-0.1278')"))]);
                ("units",
                 JDict
                   [("type", JStr "string");
                    ("description",
                     JStr "Temperature unit: 'celsius', 'fahrenheit', or 'kelvin'");
                    ("enum",
                     JList [JStr "celsius"; JStr "fahrenheit"; JStr "kelvin"]);
                    ("default", JStr "celsius")])]);
            ("required", JList [JStr "location"])] |};
    {| Tool.name := "get_weather_forecast";
       Tool.description :=
         "Get 5-day weather forecast with 3-hour intervals for a specific location. "
         ++ "Provides detailed predictions including temperature, conditions, "
         ++ "wind, and precipitation probability.";
       Tool.inputSchema :=
         JDict
           [("type", JStr "object");
            ("properties",
             JDict
               [("location",
                 JDict
                   [("type", JStr "string");
                    ("description",
                     JStr ("City name (e.g., 'Paris', 'Berlin,DE') "
                           ++ "or coordinates in format 'lat,lon'"))]);
                ("units",
                 JDict
                   [("type", JStr "string");
                    ("description",
                     JStr "Temperature unit: 'celsius', 'fahrenheit', or 'kelvin'");
                    ("enum",
                     JList [JStr "celsius"; JStr "fahrenheit"; JStr "kelvin"]);
                    ("default", JStr "celsius")])]);
            ("required", JList [JStr "location"])] |};
    {| Tool.name := "get_air_quality";
       Tool.description :=
         "Get current air quality index (AQI) and pollutant concentrations "
         ++ "for a specific location. "
         ++ "Provides AQI level (1-5) and detailed measurements of "
         ++ "CO, NO, NO2, O3, SO2, PM2.5, PM10, and NH3.";
       Tool.inputSchema :=
         JDict
           [("type", JStr "object");
            ("properties",
             JDict
               [("location",
                 JDict
                   [("type", JStr "string");
                    ("description",
                     JStr "City name or coordinates in format 'lat,lon'")])]);
            ("required", JList [JStr "location"])] |} ].

(** ** Statements about the tools *)

(** The schema a tool declares for one of its arguments. *)
Definition schema_property (t : Tool.t) (argument : string) : option json :=
  match Tool.inputSchema t with
  | JDict schema =>
      match dict_get "properties" schema with
      | Some (JDict properties) => dict_get argument properties
      | _ => None
      end
  | _ => None
  end.

(** One entry of the schema of an argument. *)
Definition schema_entry (t : Tool.t) (argument entry : string) : option json :=
  match schema_property t argument with
  | Some (JDict p) => dict_get entry p
  | _ => None
  end.

(** The arguments a tool declares as required. *)
Definition schema_required (t : Tool.t) : option json :=
  match Tool.inputSchema t with
  | JDict schema => dict_get "required" schema
  | _ => None
  end.

(** The endpoint of the weather API a tool reads. *)
Definition tool_endpoint (tool : string) : option string :=
  if String.eqb tool "get_current_weather" then Some "/weather"
  else if String.eqb tool "get_weather_forecast" then Some "/forecast"
  else if String.eqb tool "get_air_quality" then Some "/air_pollution"
  else None.

(** The formatter a tool applies to what its endpoint returned. *)
Definition tool_report {rt : PyRuntime} (tool : string) (data units : json)
  : result string :=
  if String.eqb tool "get_current_weather" then format_weather_response data units
  else if String.eqb tool "get_weather_forecast"
       then format_forecast_response data units
       else format_air_quality_response data.

(** The query [call_tool] sends for resolved coordinates. *)
Definition coordinate_params (key : option string) (lat lon : json)
  : list (string * json) :=
  [("lat", lat); ("lon", lon); ("appid", api_key_json key)].

(** A request to one of the two OpenWeatherMap services, carrying the
    configured key. *)
Definition openweather_request (key : option string) (r : request) : Prop :=
  (starts_with OPENWEATHER_BASE_URL (req_url r) = true
   \/ starts_with OPENWEATHER_GEO_URL (req_url r) = true)
  /\ dict_get "appid" (req_params r) = Some (api_key_json key)
  /\ req_timeout r = 10%float.

(** [w'] is [w] after at most [requests] more requests, all of them
    satisfying [P], and at most [seconds] more seconds of sleep. *)
Definition within (P : request -> Prop) (requests : nat) (seconds : Z)
    (w w' : world) : Prop :=
  exists reqs naps,
    w' = {| sent := (sent w ++ reqs)%list; slept := (slept w ++ naps)%list |}
    /\ (List.length reqs <= requests)%nat
    /\ Forall P reqs
    /\ Forall (fun nap => 1 <= nap) naps
    /\ fold_right Z.add 0 naps <= seconds.

(** The field of the payload a tool's formatter asks for first. *)
Definition tool_key (tool : string) : string :=
  if String.eqb tool "get_current_weather" then "main" else "list".

(** The text a tool's formatter gives for a payload without data. *)
Definition tool_no_data (tool : string) : string :=
  if String.eqb tool "get_current_weather" then "No weather data available."
  else if String.eqb tool "get_weather_forecast" then "No forecast data available."
  else "No air quality data available.".

(** How a tool's report opens. *)
Definition tool_headline (tool : string) : string :=
  if String.eqb tool "get_current_weather" then "🌍 Weather for "
  else if String.eqb tool "get_weather_forecast" then "🌍 5-Day Forecast for "
  else "🌫️ Air Quality Index (AQI): ".

(** A payload that is falsy, or a mapping without [key]. *)
Definition lacks (key : string) (data : json) : Prop :=
  py_truthy data = false
  \/ exists d, data = JDict d /\ dict_get key d = None.

(** The two precipitation lines of the current-weather report, by the field
    that brings each. *)
Definition precipitation_lines : list (string * string) :=
  [("rain", "🌧️ Rain (1h): "); ("snow", "❄️ Snow (1h): ")].

(** The payload of the repository's test with rain, with only a temperature
    under [main]. *)
Definition rainy_day : list (string * json) :=
  [("name", JStr "Seattle"); ("dt", JInt 1612345678);
   ("main", JDict [("temp", JFloat 285.15)]);
   ("rain", JDict [("1h", JFloat 2.5)])].

(** The temperature [format_temperature] shows for a reading in kelvin, and
    the suffix it adds, by unit. *)
Definition shown_temperature (kelvin : float) (unit : json) : float :=
  if py_eq_str unit "fahrenheit" then ((kelvin - 273.15) * 9 / 5 + 32)%float
  else if py_eq_str unit "kelvin" then kelvin
  else (kelvin - 273.15)%float.

Definition unit_suffix (unit : json) : string :=
  if py_eq_str unit "fahrenheit" then "°F"
  else if py_eq_str unit "kelvin" then "K"
  else "°C".

(** The year, counted within its era of 400 years, that [civil_from_days]
    gives the day [doe] of the era. *)
Definition year_of_era (doe : Z) : Z :=
  let yoe := (doe - doe / 1460 + doe / 36524 - doe / 146096) / 365 in
  let doy := doe - (365 * yoe + yoe / 4 - yoe / 100) in
  let mp := (5 * doy + 2) / 153 in
  let m := if mp <? 10 then mp + 3 else mp - 9 in
  yoe + (if m <=? 2 then 1 else 0).

(** Payloads on which the claims about the formatters fail: an AQI that is
    the float 2.0; a temperature that is a string; a forecast entry that is
    no mapping. *)
Definition float_index_sample : json :=
  JDict [("list", JList [JDict [("dt", JInt 1612345678);
                                ("main", JDict [("aqi", JFloat 2)])]])].

Definition warm_day : json :=
  JDict [("main", JDict [("temp", JStr "warm")])].

Definition scalar_forecast : json :=
  JDict [("list", JList [JInt 5])].

(* ================================================================== *)
(** * Properties *)

(** ** Strings *)

Lemma append_nil_r (s : string) : s ++ "" = s.
Proof. induction s as [|a s IH]; simpl; [reflexivity | now rewrite IH]. Qed.

Lemma append_assoc (s t u : string) : (s ++ t) ++ u = s ++ (t ++ u).
Proof. induction s as [|a s IH]; simpl; [reflexivity | now rewrite IH]. Qed.

Lemma string_rev_onto_spec (s acc : string) :
  string_rev_onto s acc = string_rev s ++ acc.
Proof.
  unfold string_rev. revert acc.
  induction s as [|a s IH]; intro acc; simpl; [reflexivity|].
  rewrite IH, (IH (String a "")), append_assoc. reflexivity.
Qed.

Lemma string_rev_cons (a : ascii) (s : string) :
  string_rev (String a s) = string_rev s ++ String a "".
Proof. unfold string_rev at 1. simpl. apply string_rev_onto_spec. Qed.

Lemma string_rev_app (s t : string) :
  string_rev (s ++ t) = string_rev t ++ string_rev s.
Proof.
  induction s as [|a s IH]; simpl.
  - now rewrite append_nil_r.
  - now rewrite !string_rev_cons, IH, append_assoc.
Qed.

Lemma string_rev_involutive (s : string) : string_rev (string_rev s) = s.
Proof.
  induction s as [|a s IH]; [reflexivity|].
  rewrite string_rev_cons, string_rev_app, IH. reflexivity.
Qed.

Lemma byte_is_in (n : N) (a : ascii) (lo hi : N) :
  byte_is n a = true -> (lo <= n)%N -> (n <= hi)%N -> byte_in lo hi a = true.
Proof.
  unfold byte_is, byte_in. intros H Hlo Hhi.
  apply N.eqb_eq in H. rewrite H.
  apply andb_true_intro; split; now apply N.leb_le.
Qed.

Lemma byte_in_disjoint (lo hi lo' hi' : N) (a : ascii) :
  byte_in lo hi a = true -> (hi < lo')%N -> byte_in lo' hi' a = false.
Proof.
  unfold byte_in. intros H Hlt.
  apply andb_prop in H as [_ H2]. apply N.leb_le in H2.
  apply andb_false_intro1. apply N.leb_gt. lia.
Qed.

Lemma byte_is_outside (lo hi n : N) (a : ascii) :
  byte_in lo hi a = true -> (hi < n)%N -> byte_is n a = false.
Proof.
  unfold byte_in, byte_is. intros H Hlt.
  apply andb_prop in H as [_ H2]. apply N.leb_le in H2.
  apply N.eqb_neq. lia.
Qed.

Lemma drop_space_solid_start (a : ascii) (s : string) :
  solid_start a = true -> drop_space false (String a s) = String a s.
Proof.
  unfold solid_start. intro H.
  apply negb_true_iff in H. apply orb_false_elim in H as [H H3].
  apply orb_false_elim in H as [H1 H2].
  simpl. rewrite H1.
  destruct s as [|b r2]; [reflexivity|].
  unfold is_space2. rewrite H2. simpl.
  destruct r2 as [|c r3]; [reflexivity|].
  assert (H225 : byte_is 225 a = false).
  { destruct (byte_is 225 a) eqn:E; [|reflexivity].
    now rewrite (byte_is_in 225 a 225 227 E) in H3 by lia. }
  assert (H226 : byte_is 226 a = false).
  { destruct (byte_is 226 a) eqn:E; [|reflexivity].
    now rewrite (byte_is_in 226 a 225 227 E) in H3 by lia. }
  assert (H227 : byte_is 227 a = false).
  { destruct (byte_is 227 a) eqn:E; [|reflexivity].
    now rewrite (byte_is_in 227 a 225 227 E) in H3 by lia. }
  unfold is_space3. rewrite H225, H226, H227. reflexivity.
Qed.

Lemma drop_space_solid_end (a : ascii) (s : string) :
  solid_end a = true -> drop_space true (String a s) = String a s.
Proof.
  unfold solid_end. intro H. apply andb_prop in H as [H1 H2].
  apply negb_true_iff in H1.
  simpl. rewrite H1.
  destruct s as [|b r2]; [reflexivity|].
  unfold is_space2.
  rewrite (byte_is_outside 0 127 133 a H2), (byte_is_outside 0 127 160 a H2) by lia.
  rewrite andb_false_r.
  destruct r2 as [|c r3]; [reflexivity|].
  unfold is_space3.
  rewrite (byte_is_outside 0 127 128 a H2), (byte_is_outside 0 127 159 a H2),
    (byte_is_outside 0 127 175 a H2) by lia.
  rewrite (byte_in_disjoint 0 127 128 138 a H2), (byte_in_disjoint 0 127 168 169 a H2)
    by lia.
  now rewrite !andb_false_r.
Qed.

(** Stripping a text that is framed by single newlines and starts and ends
    with solid bytes removes exactly the two newlines. *)
Lemma py_strip_framed (a z : ascii) (middle : string) :
  solid_start a = true -> solid_end z = true ->
  py_strip (nl ++ String a (middle ++ String z nl)) = String a (middle ++ String z "").
Proof.
  intros Ha Hz. unfold py_strip.
  change (nl ++ String a (middle ++ String z nl))
    with (String "010" (String a (middle ++ String z nl))).
  assert (E : drop_space false (String "010" (String a (middle ++ String z nl)))
              = String a (middle ++ String z nl)).
  { change (drop_space false (String a (middle ++ String z nl))
            = String a (middle ++ String z nl)).
    now apply drop_space_solid_start. }
  rewrite E.
  change (String a (middle ++ String z nl)) with (String a middle ++ String z nl).
  rewrite string_rev_app.
  change (string_rev (String z nl)) with (String "010" (String z "")).
  change (drop_space true (String "010" (String z "") ++ string_rev (String a middle)))
    with (drop_space true (String z (string_rev (String a middle)))).
  rewrite drop_space_solid_end by assumption.
  change (String z (string_rev (String a middle)))
    with (String z "" ++ string_rev (String a middle)).
  rewrite string_rev_app, string_rev_involutive. reflexivity.
Qed.

(** The same for a text with no newline in front. *)
Lemma py_strip_solid (a z : ascii) (middle : string) :
  solid_start a = true -> solid_end z = true ->
  py_strip (String a (middle ++ String z "")) = String a (middle ++ String z "").
Proof.
  intros Ha Hz. unfold py_strip.
  rewrite drop_space_solid_start by assumption.
  change (String a (middle ++ String z "")) with (String a middle ++ String z "").
  rewrite string_rev_app.
  change (string_rev (String z "") ++ string_rev (String a middle))
    with (String z (string_rev (String a middle))).
  rewrite drop_space_solid_end by assumption.
  change (String z (string_rev (String a middle)))
    with (String z "" ++ string_rev (String a middle)).
  rewrite string_rev_app, string_rev_involutive. reflexivity.
Qed.

(* ================================================================== *)
(** ** Results *)

Lemma Ok_inj {A : Type} (a b : A) : Ok a = Ok b -> a = b.
Proof. intro H. now injection H. Qed.

Lemma rbind_ext {A B : Type} (r : result A) (k k' : A -> result B) :
  (forall a, k a = k' a) -> rbind r k = rbind r k'.
Proof. intro H. destruct r as [a|e]; simpl; [apply H | reflexivity]. Qed.

(* ================================================================== *)
(** ** Number formatting *)

(** [round_half_even a b] is within one half of [a / b]. *)
Lemma round_half_even_nearest (a b : Z) :
  0 < b -> Z.abs (2 * (b * round_half_even a b - a)) <= b.
Proof.
  intro Hb. unfold round_half_even.
  pose proof (Z.div_mod a b ltac:(lia)) as Hdiv.
  pose proof (Z.mod_pos_bound a b Hb) as Hmod.
  set (q := a / b) in *. set (r := a mod b) in *.
  assert (E0 : b * q - a = - r) by lia.
  assert (E1 : b * (q + 1) - a = b - r) by lia.
  destruct (Z.compare_spec (2 * r) b) as [He|Hl|Hg].
  - destruct (Z.even q); [rewrite E0 | rewrite E1]; lia.
  - rewrite E0. lia.
  - rewrite E1. lia.
Qed.

(** With a non-negative exponent the scaled value is an integer and is kept;
    otherwise it is rounded to the nearest integer. *)
Lemma scaled_round_nearest (m : positive) (e : Z) (p : nat) :
  (0 <= e -> scaled_round m e p = Zpos m * 2 ^ e * 10 ^ Z.of_nat p)
  /\ (e < 0 ->
      Z.abs (2 * (2 ^ (- e) * scaled_round m e p - Zpos m * 10 ^ Z.of_nat p))
      <= 2 ^ (- e)).
Proof.
  unfold scaled_round. split; intro He.
  - apply Z.leb_le in He. now rewrite He.
  - assert (E : (0 <=? e) = false) by (apply Z.leb_gt; lia).
    rewrite E. apply round_half_even_nearest.
    apply Z.pow_pos_nonneg; lia.
Qed.

(** A finite float is shown by [fmt_f p] as its sign and the nearest
    multiple of [10^-p], with exactly [p] digits after the point. *)
Lemma fmt_f_finite (p : nat) (x : float) (s : bool) (m : positive) (e : Z) :
  Prim2SF x = S754_finite s m e ->
  fmt_f p x
  = sign_text s ++ str_of_Z (scaled_round m e p / 10 ^ Z.of_nat p)
    ++ match p with
       | O => ""
       | S _ => "." ++ zero_pad p (scaled_round m e p mod 10 ^ Z.of_nat p)
       end.
Proof. intro H. unfold fmt_f, fixed_digits. now rewrite H. Qed.

(** With no decimals [fmt_f] shows the nearest integer and no point. *)
Lemma fmt_f_0_finite (x : float) (s : bool) (m : positive) (e : Z) :
  Prim2SF x = S754_finite s m e ->
  fmt_f 0 x = sign_text s ++ str_of_Z (scaled_round m e 0).
Proof.
  intro H. rewrite (fmt_f_finite 0 x s m e H).
  change (10 ^ Z.of_nat 0) with 1. now rewrite Z.div_1_r, append_nil_r.
Qed.

(* ================================================================== *)
(** ** format_temperature *)


Lemma format_temperature_fahrenheit (k : float) :
  format_temperature (JFloat k) (JStr "fahrenheit")
  = Ok (fmt_f 1 ((k - 273.15) * 9 / 5 + 32)%float ++ "°F").
Proof. reflexivity. Qed.

Lemma format_temperature_kelvin (k : float) :
  format_temperature (JFloat k) (JStr "kelvin") = Ok (fmt_f 1 k ++ "K").
Proof. reflexivity. Qed.

Lemma format_temperature_freezing_celsius :
  format_temperature (JFloat 273.15) (JStr "celsius") = Ok "0.0°C".
Proof. vm_compute. reflexivity. Qed.

Lemma format_temperature_freezing_fahrenheit :
  format_temperature (JFloat 273.15) (JStr "fahrenheit") = Ok "32.0°F".
Proof. vm_compute. reflexivity. Qed.

(** The float written [273.15] lies below 273.15: it is
    4805305618032230 / 2^44, and 100 times it falls short of 27315. *)
Lemma float_273_15_below :
  Prim2SF 273.15 = S754_finite false 4805305618032230 (-44)
  /\ 4805305618032230 * 100 < 27315 * 2 ^ 44.
Proof. split; [vm_compute; reflexivity | vm_compute; reflexivity]. Qed.

(** C6. [format_temperature(273.15, "kelvin")] is ["273.1K"], not the
    ["273.2K"] that the claim and the repository's test
    [test_kelvin_to_kelvin] state: the one-decimal rendering rounds the
    exact binary value of the float, which lies below 273.15. *)
Theorem format_temperature_273_15_kelvin :
  format_temperature (JFloat 273.15) (JStr "kelvin") = Ok "273.1K"
  /\ format_temperature (JFloat 273.15) (JStr "kelvin") <> Ok "273.2K".
Proof.
  assert (E : format_temperature (JFloat 273.15) (JStr "kelvin") = Ok "273.1K")
    by (vm_compute; reflexivity).
  split; [exact E|]. rewrite E. discriminate.
Qed.

Lemma py_eq_str_false (v : json) (s : string) :
  v <> JStr s -> py_eq_str v s = false.
Proof.
  intro H. destruct v; simpl; try reflexivity.
  apply String.eqb_neq. intro E. apply H. now rewrite E.
Qed.

(** Any unit but ["fahrenheit"] and ["kelvin"] takes the [else] branch. *)
Lemma format_temperature_other_unit (kelvin unit : json) :
  unit <> JStr "fahrenheit" -> unit <> JStr "kelvin" ->
  format_temperature kelvin unit = format_temperature kelvin (JStr "celsius").
Proof.
  intros Hf Hk. unfold format_temperature.
  now rewrite (py_eq_str_false _ _ Hf), (py_eq_str_false _ _ Hk).
Qed.

(* ================================================================== *)
(** ** fetch_with_retry *)

Lemma sum_app (naps more : list Z) :
  fold_right Z.add 0 (naps ++ more)%list
  = fold_right Z.add 0 naps + fold_right Z.add 0 more.
Proof. induction naps as [|x naps IH]; simpl; [lia|]. rewrite IH. lia. Qed.

Section Fetch.

Variable client : AsyncClient.
Variable req : request.
Variable max_retries : Z.

(** A 429 with attempts left: sleep [2^attempt] and go round again. *)
Lemma fetch_attempts_429_again (remaining : nat) (attempt : Z) (w : world)
    (text : string) (body : result json) :
  client (List.length (sent w)) req = Response 429 text body ->
  attempt < max_retries - 1 ->
  fetch_attempts client req max_retries (S remaining) attempt w
  = fetch_attempts client req max_retries remaining (attempt + 1)
      {| sent := (sent w ++ [req])%list; slept := (slept w ++ [2 ^ attempt])%list |}.
Proof.
  intros H Hlt. simpl. unfold bind at 1, client_get. rewrite H. simpl.
  apply Z.ltb_lt in Hlt. rewrite Hlt. reflexivity.
Qed.

(** A 429 on the last attempt: the rate-limit error. *)
Lemma fetch_attempts_429_last (remaining : nat) (attempt : Z) (w : world)
    (text : string) (body : result json) :
  client (List.length (sent w)) req = Response 429 text body ->
  max_retries - 1 <= attempt ->
  fetch_attempts client req max_retries (S remaining) attempt w
  = (Raise rate_limit_exceeded,
     {| sent := (sent w ++ [req])%list; slept := slept w |}).
Proof.
  intros H Hge. simpl. unfold bind at 1, client_get. rewrite H. simpl.
  assert (E : (attempt <? max_retries - 1) = false) by (apply Z.ltb_ge; lia).
  rewrite E. reflexivity.
Qed.

(** A timeout with attempts left: sleep one second and go round again. *)
Lemma fetch_attempts_timeout_again (remaining : nat) (attempt : Z) (w : world) :
  client (List.length (sent w)) req = TimeoutException ->
  attempt < max_retries - 1 ->
  fetch_attempts client req max_retries (S remaining) attempt w
  = fetch_attempts client req max_retries remaining (attempt + 1)
      {| sent := (sent w ++ [req])%list; slept := (slept w ++ [1])%list |}.
Proof.
  intros H Hlt. simpl. unfold bind at 1, client_get. rewrite H. simpl.
  apply Z.ltb_lt in Hlt. rewrite Hlt. reflexivity.
Qed.

(** A 2xx response: the parsed body, or what parsing raised. *)
Lemma fetch_attempts_success (remaining : nat) (attempt : Z) (w : world)
    (status_code : Z) (text : string) (body : result json) :
  client (List.length (sent w)) req = Response status_code text body ->
  is_success status_code = true ->
  fetch_attempts client req max_retries (S remaining) attempt w
  = (body, {| sent := (sent w ++ [req])%list; slept := slept w |}).
Proof.
  intros H Hs. simpl. unfold bind at 1, client_get. rewrite H. simpl.
  rewrite Hs. reflexivity.
Qed.

(** A permanent failure: its error, after one request and no sleep. *)
Lemma fetch_attempts_permanent (remaining : nat) (attempt : Z) (w : world)
    (e : exn) :
  permanent_failure (client (List.length (sent w)) req) e ->
  fetch_attempts client req max_retries (S remaining) attempt w
  = (Raise e, {| sent := (sent w ++ [req])%list; slept := slept w |}).
Proof.
  intro H. simpl. unfold bind at 1, client_get.
  inversion H as [text body E | text body E
                 | status_code text body Hs H401 H404 H429 E | msg E];
    simpl; try reflexivity.
  rewrite Hs.
  apply Z.eqb_neq in H401. apply Z.eqb_neq in H404. apply Z.eqb_neq in H429.
  rewrite H401, H404, H429. reflexivity.
Qed.

(** When every remaining attempt meets a 429, the loop sleeps 1, 2, 4, ...
    between them and ends with the rate-limit error. *)
Lemma fetch_attempts_always_429 (remaining : nat) :
  forall (attempt : Z) (w : world),
    (0 < remaining)%nat ->
    attempt + Z.of_nat remaining = max_retries ->
    0 <= attempt ->
    (forall i, (i < remaining)%nat ->
       exists text body,
         client (List.length (sent w) + i)%nat req = Response 429 text body) ->
    fetch_attempts client req max_retries remaining attempt w
    = (Raise rate_limit_exceeded,
       {| sent := (sent w ++ repeat req remaining)%list;
          slept := (slept w
                    ++ map (fun i => 2 ^ (attempt + Z.of_nat i))
                         (seq 0 (remaining - 1)))%list |}).
Proof.
  induction remaining as [|k IH]; intros attempt w Hpos Hsum Hatt Hall; [lia|].
  destruct (Hall 0%nat ltac:(lia)) as [text [body H0]].
  rewrite Nat.add_0_r in H0.
  destruct k as [|k].
  - rewrite (fetch_attempts_429_last 0 attempt w text body H0) by lia.
    simpl. now rewrite app_nil_r.
  - rewrite (fetch_attempts_429_again (S k) attempt w text body H0) by lia.
    rewrite IH; simpl; try lia.
    + rewrite <- !app_assoc. simpl. rewrite Nat.sub_0_r.
      rewrite <- seq_shift, map_map.
      rewrite Z.add_0_r.
      do 3 f_equal. f_equal.
      apply map_ext. intro i. f_equal. lia.
    + intros i Hi. rewrite length_app. simpl.
      destruct (Hall (S i) ltac:(lia)) as [t [b Hb]].
      exists t, b. rewrite <- Hb. f_equal. lia.
Qed.

End Fetch.

(** X1. The call with [max_retries >= 1] attempts, all of which meet a 429,
    fails with the rate-limit error after [max_retries] requests, having
    slept 1, 2, 4, ... seconds between consecutive attempts and not after
    the last one. *)
Lemma fetch_with_retry_exhausted (client : AsyncClient) (url : string)
    (params : list (string * json)) (max_retries : Z) (w : world) :
  0 < max_retries ->
  (forall i, (i < Z.to_nat max_retries)%nat ->
     exists text body,
       client (List.length (sent w) + i)%nat (get_request url params)
       = Response 429 text body) ->
  fetch_with_retry client url params max_retries w
  = (Raise rate_limit_exceeded,
     {| sent := (sent w ++ repeat (get_request url params) (Z.to_nat max_retries))%list;
        slept := (slept w
                  ++ map (fun i => 2 ^ (0 + Z.of_nat i))
                       (seq 0 (Z.to_nat max_retries - 1)))%list |}).
Proof.
  intros Hpos Hall. unfold fetch_with_retry.
  apply (fetch_attempts_always_429 client (get_request url params));
    try assumption; lia.
Qed.

(** C1. With [max_retries = 3]: after a 429 on the first two attempts, a 200
    on the third makes the call return the parsed body, having slept 1 and
    then 2 seconds (3 in all) and sent three requests; a third 429 makes it
    fail with the rate-limit error. *)
Theorem fetch_with_retry_backoff_on_429 (client : AsyncClient) (url : string)
    (params : list (string * json)) (w : world) (t1 t2 : string)
    (b1 b2 : result json) :
  client (List.length (sent w)) (get_request url params) = Response 429 t1 b1 ->
  client (S (List.length (sent w))) (get_request url params) = Response 429 t2 b2 ->
  (forall t3 data,
     client (S (S (List.length (sent w)))) (get_request url params)
     = Response 200 t3 (Ok data) ->
     exists w',
       fetch_with_retry client url params 3 w = (Ok data, w')
       /\ slept w' = (slept w ++ [1; 2])%list
       /\ total_slept w' = total_slept w + 3
       /\ List.length (sent w') = (List.length (sent w) + 3)%nat)
  /\ (forall t3 b3,
        client (S (S (List.length (sent w)))) (get_request url params)
        = Response 429 t3 b3 ->
        exists w',
          fetch_with_retry client url params 3 w = (Raise rate_limit_exceeded, w')
          /\ List.length (sent w') = (List.length (sent w) + 3)%nat).
Proof.
  intros H1 H2.
  set (req := get_request url params) in *.
  set (w1 := {| sent := (sent w ++ [req])%list; slept := (slept w ++ [2 ^ 0])%list |}).
  set (w2 := {| sent := (sent w1 ++ [req])%list;
                slept := (slept w1 ++ [2 ^ (0 + 1)])%list |}).
  assert (L1 : List.length (sent w1) = S (List.length (sent w))).
  { unfold w1. simpl. rewrite length_app. simpl. lia. }
  assert (L2 : List.length (sent w2) = S (S (List.length (sent w)))).
  { change (sent w2) with (sent w1 ++ [req])%list.
    rewrite length_app, L1. simpl. lia. }
  assert (Start : fetch_with_retry client url params 3 w
                  = fetch_attempts client req 3 1 (0 + 1 + 1) w2).
  { change (fetch_with_retry client url params 3 w)
      with (fetch_attempts client req 3 3 0 w).
    rewrite (fetch_attempts_429_again client req 3 2 0 w t1 b1 H1) by lia.
    fold w1.
    rewrite (fetch_attempts_429_again client req 3 1 (0 + 1) w1 t2 b2) by (rewrite ?L1; auto; lia).
    reflexivity. }
  split.
  - intros t3 data H3.
    exists {| sent := (sent w2 ++ [req])%list; slept := slept w2 |}.
    split; [|split; [|split]].
    + rewrite Start.
      apply (fetch_attempts_success client req 3 0 (0 + 1 + 1) w2 200 t3 (Ok data));
        [now rewrite L2 | reflexivity].
    + unfold w2, w1. simpl. now rewrite <- app_assoc.
    + unfold total_slept, w2, w1. cbn [slept].
      rewrite !sum_app. simpl. lia.
    + cbn [sent]. rewrite length_app, L2. simpl. lia.
  - intros t3 b3 H3.
    exists {| sent := (sent w2 ++ [req])%list; slept := slept w2 |}.
    split.
    + rewrite Start.
      apply (fetch_attempts_429_last client req 3 0 (0 + 1 + 1) w2 t3 b3);
        [now rewrite L2 | lia].
    + cbn [sent]. rewrite length_app, L2. simpl. lia.
Qed.

Lemma fetch_with_retry_backoff_on_429_witness :
  fst (fetch_with_retry (rate_limited_then 2 (JDict [])) "u" [] 3 fresh_world)
  = Ok (JDict [])
  /\ slept (snd (fetch_with_retry (rate_limited_then 2 (JDict [])) "u" [] 3
                   fresh_world)) = [1; 2]
  /\ fst (fetch_with_retry (rate_limited_then 3 (JDict [])) "u" [] 3 fresh_world)
     = Raise rate_limit_exceeded.
Proof.
  destruct (fetch_with_retry_backoff_on_429 (rate_limited_then 2 (JDict [])) "u" []
              fresh_world "Too Many Requests" "Too Many Requests" (Ok JNull)
              (Ok JNull) eq_refl eq_refl) as [Hok _].
  destruct (Hok "" (JDict []) eq_refl) as [w' [E [Hs _]]].
  destruct (fetch_with_retry_backoff_on_429 (rate_limited_then 3 (JDict [])) "u" []
              fresh_world "Too Many Requests" "Too Many Requests" (Ok JNull)
              (Ok JNull) eq_refl eq_refl) as [_ Hfail].
  destruct (Hfail "Too Many Requests" (Ok JNull) eq_refl) as [w'' [E' _]].
  rewrite E, E'. simpl. repeat split. exact Hs.
Defined.



(** Whatever the first outcome, if it is not a 429 and not a timeout the
    call ends after that one request, without sleeping. *)
Lemma fetch_with_retry_single_attempt (client : AsyncClient) (url : string)
    (params : list (string * json)) (max_retries : Z) (w : world) :
  0 < max_retries ->
  is_transient (client (List.length (sent w)) (get_request url params)) = false ->
  exists r,
    fetch_with_retry client url params max_retries w
    = (r, {| sent := (sent w ++ [get_request url params])%list; slept := slept w |}).
Proof.
  intros Hpos H. unfold fetch_with_retry.
  destruct (Z.to_nat max_retries) as [|k] eqn:E; [lia|].
  simpl. unfold bind at 1, client_get. fold (get_request url params).
  destruct (client (List.length (sent w)) (get_request url params))
    as [status_code text body| |msg|e]; simpl in *.
  - rewrite H.
    destruct (is_success status_code); [eexists; reflexivity|].
    destruct (status_code =? 401); [eexists; reflexivity|].
    destruct (status_code =? 404); eexists; reflexivity.
  - discriminate.
  - eexists; reflexivity.
  - eexists; reflexivity.
Qed.

(* ================================================================== *)
(** ** get_coordinates *)

Section Resolver.

Context {rt : PyRuntime}.
Variable OPENWEATHER_API_KEY : option string.

(** A string that reads as coordinates contains a comma. *)
Lemma split_on_two_parts (location : string) (p0 p1 : string) (rest : list string) :
  split_on "," location = p0 :: p1 :: rest -> str_contains "," location = true.
Proof.
  revert p0 p1 rest.
  induction location as [|a s IH]; intros p0 p1 rest H; simpl in H.
  - discriminate.
  - simpl. destruct (Ascii.eqb a ",") eqn:E.
    + apply Ascii.eqb_eq in E. subst a. reflexivity.
    + destruct (split_on "," s) as [|q [|q' qs]] eqn:Es; try discriminate.
      rewrite (IH q q' qs eq_refl). apply orb_true_r.
Qed.

(** The coordinate check never raises: [ValueError] and [IndexError] are
    all that its [try] block can raise, and both are caught. *)
Lemma coordinates_given_total (location : string) :
  exists found, coordinates_given location = Ok found.
Proof.
  unfold coordinates_given.
  destruct (str_contains "," location); [|now exists None].
  unfold parse_coordinates.
  destruct (split_on "," location) as [|p0 [|p1 rest]]; simpl;
    unfold float_of_str.
  - now exists None.
  - destruct (py_float (py_strip p0)); simpl; now exists None.
  - destruct (py_float (py_strip p0)) as [lat|]; simpl; [|now exists None].
    destruct (py_float (py_strip p1)) as [lon|]; simpl; [|now exists None].
    destruct ((-90 <=? lat) && (lat <=? 90) && (-180 <=? lon) && (lon <=? 180))%float;
      eexists; reflexivity.
Qed.

Lemma coordinates_given_some (location : string) (lat lon : float) :
  coordinate_text location lat lon ->
  coordinates_given location = Ok (Some (lat, lon)).
Proof.
  intros [p0 [p1 [rest [Hs [H0 [H1 Hr]]]]]].
  unfold coordinates_given.
  rewrite (split_on_two_parts location p0 p1 rest Hs).
  unfold parse_coordinates. rewrite Hs. simpl.
  unfold float_of_str. rewrite H0. simpl. rewrite H1. simpl.
  unfold in_range in Hr. rewrite Hr. reflexivity.
Qed.

Lemma coordinates_given_none (location : string) :
  (forall lat lon, ~ coordinate_text location lat lon) ->
  coordinates_given location = Ok None.
Proof.
  intro H. unfold coordinates_given.
  destruct (str_contains "," location); [|reflexivity].
  unfold parse_coordinates.
  destruct (split_on "," location) as [|p0 [|p1 rest]] eqn:Es; simpl;
    unfold float_of_str.
  - reflexivity.
  - destruct (py_float (py_strip p0)); reflexivity.
  - destruct (py_float (py_strip p0)) as [lat|] eqn:E0; simpl; [|reflexivity].
    destruct (py_float (py_strip p1)) as [lon|] eqn:E1; simpl; [|reflexivity].
    destruct ((-90 <=? lat) && (lat <=? 90) && (-180 <=? lon) && (lon <=? 180))%float
      eqn:Er; [|reflexivity].
    exfalso. apply (H lat lon). now exists p0, p1, rest.
Qed.

(** An empty geocoding result is reported as the location not being found. *)
Lemma geocode_empty (location : string) (client : AsyncClient) (w w' : world) :
  fetch_with_retry client (OPENWEATHER_GEO_URL ++ "/direct")
    (geocoding_params OPENWEATHER_API_KEY location) 3 w = (Ok (JList []), w') ->
  geocode OPENWEATHER_API_KEY location client w = (Raise (not_found location), w').
Proof.
  intro H. unfold geocode, try_except, bind.
  unfold geocoding_params in H. rewrite H. reflexivity.
Qed.

Lemma not_found_text (location : string) :
  contains_text "not found" (str_of_exn (not_found location)).
Proof.
  exists ("Location '" ++ location ++ "' "), ".".
  simpl. rewrite !append_assoc. reflexivity.
Qed.

(** C4. A location that reads as coordinates in range is returned as that
    pair of floats, and the world is left as it was: no request is sent. *)
Theorem get_coordinates_parses_pair (location : string) (client : AsyncClient)
    (w : world) (lat lon : float) :
  str_contains "," location = true ->
  coordinate_text location lat lon ->
  get_coordinates OPENWEATHER_API_KEY location client w
  = (Ok (JFloat lat, JFloat lon), w).
Proof.
  intros _ H. unfold get_coordinates, bind, lift.
  now rewrite (coordinates_given_some location lat lon H).
Qed.

(** C5. A location that does not read as coordinates in range (one with a
    comma whose parts do not parse, or are out of range) passes the
    coordinate check without raising and is looked up by the geocoder; when
    the geocoder returns an empty list the call fails with
    ["Location '...' not found."]. *)
Theorem get_coordinates_falls_through (location : string) (client : AsyncClient)
    (w : world) :
  str_contains "," location = true ->
  (forall lat lon, ~ coordinate_text location lat lon) ->
  coordinates_given location = Ok None
  /\ get_coordinates OPENWEATHER_API_KEY location client w
     = geocode OPENWEATHER_API_KEY location client w
  /\ (forall w',
        fetch_with_retry client (OPENWEATHER_GEO_URL ++ "/direct")
          (geocoding_params OPENWEATHER_API_KEY location) 3 w
        = (Ok (JList []), w') ->
        get_coordinates OPENWEATHER_API_KEY location client w
        = (Raise (not_found location), w')
        /\ contains_text "not found" (str_of_exn (not_found location))).
Proof.
  intros _ H.
  pose proof (coordinates_given_none location H) as E.
  assert (G : get_coordinates OPENWEATHER_API_KEY location client w
              = geocode OPENWEATHER_API_KEY location client w).
  { unfold get_coordinates, bind, lift. now rewrite E. }
  split; [exact E|]. split; [exact G|].
  intros w' Hf. split; [|apply not_found_text].
  rewrite G. now apply geocode_empty.
Qed.

(** A name without a comma goes to the geocoder as well. *)
Lemma get_coordinates_name (location : string) (client : AsyncClient) (w : world) :
  str_contains "," location = false ->
  get_coordinates OPENWEATHER_API_KEY location client w
  = geocode OPENWEATHER_API_KEY location client w.
Proof.
  intro H. unfold get_coordinates, bind, lift, coordinates_given.
  now rewrite H.
Qed.

End Resolver.

Lemma get_coordinates_parses_pair_witness :
  get_coordinates (rt := utc_machine) None "51.5074,-0.1278"
    (always TimeoutException) fresh_world
  = (Ok (JFloat 51.5074, JFloat (-0.1278)), fresh_world).
Proof.
  apply (get_coordinates_parses_pair (rt := utc_machine) None "51.5074,-0.1278"
           (always TimeoutException) fresh_world 51.5074 (-0.1278)).
  - reflexivity.
  - exists "51.5074", "-0.1278", []. repeat split; vm_compute; reflexivity.
Defined.

Lemma invalid_coordinates_string_no_pair (lat lon : float) :
  ~ coordinate_text "invalid,coordinates,string" lat lon.
Proof.
  intros [p0 [p1 [rest [Hs [H0 _]]]]].
  vm_compute in Hs. injection Hs as E0 E1 E2. subst p0.
  vm_compute in H0. discriminate.
Qed.

Lemma get_coordinates_falls_through_witness :
  get_coordinates (rt := utc_machine) (Some "key") "invalid,coordinates,string"
    (always (Response 200 "[]" (Ok (JList [])))) fresh_world
  = (Raise (WeatherAPIError "Location 'invalid,coordinates,string' not found."),
     {| sent := [get_request (OPENWEATHER_GEO_URL ++ "/direct")
                   (geocoding_params (Some "key") "invalid,coordinates,string")];
        slept := [] |}).
Proof.
  destruct (get_coordinates_falls_through (rt := utc_machine) (Some "key")
              "invalid,coordinates,string"
              (always (Response 200 "[]" (Ok (JList [])))) fresh_world
              eq_refl invalid_coordinates_string_no_pair) as [_ [_ H]].
  destruct (H {| sent := [get_request (OPENWEATHER_GEO_URL ++ "/direct")
                            (geocoding_params (Some "key")
                               "invalid,coordinates,string")];
                 slept := [] |} eq_refl) as [E _].
  exact E.
Defined.

(* ================================================================== *)
(** ** Units *)

Lemma bind_ext {A B : Type} (m : M A) (k k' : A -> M B) (w : world) :
  (forall a w', k a w' = k' a w') -> bind m k w = bind m k' w.
Proof.
  intro H. unfold bind. destruct (m w) as [[a|e] w']; [apply H | reflexivity].
Qed.

Section Units.

Context {rt : PyRuntime}.
Variable OPENWEATHER_API_KEY : option string.
Variable unit : json.
Hypothesis not_fahrenheit : unit <> JStr "fahrenheit".
Hypothesis not_kelvin : unit <> JStr "kelvin".

Ltac same_as_celsius :=
  repeat first
    [ rewrite (format_temperature_other_unit _ unit not_fahrenheit not_kelvin)
    | reflexivity
    | apply rbind_ext; intro
    | match goal with
      | |- (if ?b then _ else _) = (if ?b then _ else _) => destruct b
      end ].

Lemma format_weather_response_other_unit (data : json) :
  format_weather_response data unit
  = format_weather_response data (JStr "celsius").
Proof. unfold format_weather_response. same_as_celsius. Qed.

Lemma add_forecast_other_unit (response : string) (forecast : json) :
  add_forecast unit response forecast
  = add_forecast (JStr "celsius") response forecast.
Proof. unfold add_forecast. same_as_celsius. Qed.

Lemma add_forecasts_other_unit (forecasts : list json) :
  forall response,
    add_forecasts unit response forecasts
    = add_forecasts (JStr "celsius") response forecasts.
Proof.
  induction forecasts as [|forecast rest IH]; intro response; simpl.
  - reflexivity.
  - rewrite add_forecast_other_unit. apply rbind_ext. intro r. apply IH.
Qed.

Lemma format_forecast_response_other_unit (data : json) :
  format_forecast_response data unit
  = format_forecast_response data (JStr "celsius").
Proof.
  unfold format_forecast_response.
  repeat first
    [ rewrite add_forecasts_other_unit
    | reflexivity
    | apply rbind_ext; intro
    | match goal with
      | |- (if ?b then _ else _) = (if ?b then _ else _) => destruct b
      end ].
Qed.

Lemma call_tool_body_other_unit (name location : string) (client : AsyncClient)
    (w : world) :
  call_tool_body OPENWEATHER_API_KEY name location unit client w
  = call_tool_body OPENWEATHER_API_KEY name location (JStr "celsius") client w.
Proof.
  unfold call_tool_body. apply bind_ext. intros [lat lon] w1.
  destruct (String.eqb name "get_current_weather").
  { apply bind_ext. intros data w2.
    now rewrite format_weather_response_other_unit. }
  destruct (String.eqb name "get_weather_forecast").
  { apply bind_ext. intros data w2.
    now rewrite format_forecast_response_other_unit. }
  reflexivity.
Qed.

End Units.

(* ================================================================== *)
(** ** format_forecast_response *)

Lemma dict_get_set_same (k : string) (v : json) (d : list (string * json)) :
  dict_get k (dict_set k v d) = Some v.
Proof.
  induction d as [|[k' x] rest IH]; simpl.
  - now rewrite String.eqb_refl.
  - destruct (String.eqb k' k) eqn:E; simpl.
    + now rewrite String.eqb_refl.
    + now rewrite E.
Qed.

Lemma dict_get_set_other (k k0 : string) (v : json) (d : list (string * json)) :
  k0 <> k -> dict_get k0 (dict_set k v d) = dict_get k0 d.
Proof.
  intro Hne. induction d as [|[k' x] rest IH]; simpl.
  - assert (E : String.eqb k k0 = false) by (apply String.eqb_neq; congruence).
    now rewrite E.
  - destruct (String.eqb k' k) eqn:E; simpl.
    + apply String.eqb_eq in E. subst k'.
      assert (E : String.eqb k k0 = false) by (apply String.eqb_neq; congruence).
      now rewrite E.
    + destruct (String.eqb k' k0); [reflexivity | exact IH].
Qed.

Section Forecast.

Context {rt : PyRuntime}.

(** The response so far is only a prefix of what an entry adds. *)
Lemma add_forecast_prefix (unit : json) (response : string) (forecast : json) :
  add_forecast unit response forecast
  = let* block := add_forecast unit "" forecast in Ok (response ++ block).
Proof.
  unfold add_forecast.
  repeat match goal with
         | |- context [rbind ?r _] => destruct r; cbn [rbind]
         end;
    try reflexivity.
  cbv zeta. f_equal. rewrite !append_assoc. reflexivity.
Qed.

(** The entries are rendered one block each, in order. *)
Lemma add_forecasts_blocks (unit : json) (forecasts : list json) :
  forall response response',
    add_forecasts unit response forecasts = Ok response' ->
    exists blocks,
      Forall2 (fun forecast block => add_forecast unit "" forecast = Ok block)
        forecasts blocks
      /\ response' = response ++ String.concat "" blocks.
Proof.
  induction forecasts as [|forecast rest IH]; intros response response' H;
    simpl in H.
  - injection H as <-. exists []. split; [constructor|].
    simpl. now rewrite append_nil_r.
  - rewrite add_forecast_prefix in H.
    destruct (add_forecast unit "" forecast) as [block|e] eqn:E; simpl in H;
      [|discriminate].
    destruct (IH _ _ H) as [blocks [HF ->]].
    exists (block :: blocks). split; [now constructor|].
    rewrite append_assoc. f_equal.
    destruct blocks as [|b bs]; simpl; [now rewrite append_nil_r | reflexivity].
Qed.

Ltac step H x E :=
  cbv zeta in H;
  match type of H with
  | rbind ?r _ = _ => destruct r as [x|] eqn:E; cbn [rbind] in H; [|discriminate]
  end.

(** What an entry adds ends with its precipitation line, which shows the
    [pop] field (0 when absent) times 100 in the format [.0f]. *)
Lemma add_forecast_pop (unit : json) (response : string) (forecast : json)
    (response' : string) :
  add_forecast unit response forecast = Ok response' ->
  exists lines pop percent shown,
    py_get forecast "pop" (JInt 0) = Ok pop
    /\ py_mul_int pop 100 = Ok percent
    /\ py_format_f 0 percent = Ok shown
    /\ response'
       = response ++ lines ++ "   🌧️ Rain probability: " ++ shown ++ "%" ++ nl ++ nl.
Proof.
  unfold add_forecast. intro H.
  step H stamp E1. step H dt E2. step H main E3. step H weather E4.
  step H wind E5. step H t E6. step H temp E7. step H t' E8.
  step H feels_like E9. step H condition E10. step H description E11.
  step H humidity E12. step H speed E13. step H pop E14. step H percent E15.
  step H shown E16.
  cbv zeta in H. apply Ok_inj in H. subst response'.
  exists ("📅 " ++ strftime "%Y-%m-%d %H:%M" dt ++ nl
          ++ "   🌡️ " ++ temp ++ " (feels like " ++ feels_like ++ ")" ++ nl
          ++ "   ☁️ " ++ condition ++ " - " ++ description ++ nl
          ++ "   💧 Humidity: " ++ humidity ++ "% | 💨 Wind: "
          ++ speed ++ " m/s" ++ nl),
    pop, percent, shown.
  repeat split; try assumption.
  rewrite !append_assoc. reflexivity.
Qed.

(** For a float [pop] the line shows [pop * 100] with no decimals. *)
Lemma pop_shown_float (f : float) :
  (let* percent := py_mul_int (JFloat f) 100 in py_format_f 0 percent)
  = Ok (fmt_f 0 (f * 100)%float).
Proof. reflexivity. Qed.

Lemma py_truthy_of_get (k : string) (d : list (string * json)) (v : json) :
  dict_get k d = Some v -> py_truthy (JDict d) = true.
Proof. destruct d; [discriminate | reflexivity]. Qed.

(** Only the first 8 entries of the list reach the output. *)
Lemma format_forecast_response_first_8 (d : list (string * json))
    (entries : list json) (unit : json) :
  dict_get "list" d = Some (JList entries) ->
  format_forecast_response (JDict d) unit
  = format_forecast_response
      (JDict (dict_set "list" (JList (firstn 8 entries)) d)) unit.
Proof.
  intro H. unfold format_forecast_response.
  rewrite (py_truthy_of_get _ _ _ H).
  rewrite (py_truthy_of_get "list" _ _ (dict_get_set_same "list" _ d)).
  unfold py_in, py_get. rewrite H, dict_get_set_same.
  rewrite !(dict_get_set_other "list" "city") by discriminate.
  cbn [rbind negb py_slice8]. rewrite firstn_firstn. reflexivity.
Qed.

(** C7, as the code has it. Of the payload's list only the first 8 entries
    are rendered, one block each in order, and the precipitation line of a
    block shows the entry's [pop] times 100 in the format [.0f]: rounded to
    the nearest integer, with no decimal place. *)
Theorem format_forecast_response_entries (d : list (string * json))
    (entries : list json) (unit : json) :
  dict_get "list" d = Some (JList entries) ->
  format_forecast_response (JDict d) unit
  = format_forecast_response
      (JDict (dict_set "list" (JList (firstn 8 entries)) d)) unit
  /\ (forall text,
        format_forecast_response (JDict d) unit = Ok text ->
        exists header blocks,
          (List.length blocks <= 8)%nat
          /\ Forall2 (fun forecast block => add_forecast unit "" forecast = Ok block)
               (firstn 8 entries) blocks
          /\ text = py_strip (header ++ String.concat "" blocks
                              ++ RATE_LIMIT_WARNING))
  /\ (forall forecast block,
        add_forecast unit "" forecast = Ok block ->
        exists lines pop percent shown,
          py_get forecast "pop" (JInt 0) = Ok pop
          /\ py_mul_int pop 100 = Ok percent
          /\ py_format_f 0 percent = Ok shown
          /\ (forall f, pop = JFloat f -> shown = fmt_f 0 (f * 100)%float)
          /\ block = lines ++ "   🌧️ Rain probability: " ++ shown ++ "%" ++ nl ++ nl).
Proof.
  intro H. split; [now apply format_forecast_response_first_8|]. split.
  - intros text Ht. unfold format_forecast_response in Ht.
    rewrite (py_truthy_of_get _ _ _ H) in Ht.
    unfold py_in in Ht. rewrite H in Ht. cbn [rbind negb] in Ht.
    step Ht city E1. step Ht got E2.
    unfold py_get in E2. rewrite H in E2. injection E2 as <-.
    cbn [rbind py_slice8] in Ht.
    step Ht name E3. step Ht coord E4. step Ht lat E5. step Ht lon E7.
    step Ht response E8.
    cbv zeta in Ht. apply Ok_inj in Ht. subst text.
    destruct (add_forecasts_blocks unit _ _ _ E8) as [blocks [HF ->]].
    exists ("🌍 5-Day Forecast for " ++ name ++ nl
            ++ "📍 Coordinates: " ++ lat ++ ", " ++ lon ++ nl ++ nl),
      blocks.
    split; [|split].
    + rewrite <- (Forall2_length HF). rewrite length_firstn. lia.
    + exact HF.
    + f_equal. rewrite !append_assoc. reflexivity.
  - intros forecast block Hb.
    destruct (add_forecast_pop unit "" forecast block Hb)
      as [lines [pop [percent [shown [E1 [E2 [E3 E4]]]]]]].
    exists lines, pop, percent, shown.
    repeat split; try assumption.
    intros f ->. pose proof (pop_shown_float f) as Hf.
    rewrite E2 in Hf. cbn [rbind] in Hf. rewrite E3 in Hf. now injection Hf.
Qed.

End Forecast.

Lemma format_forecast_response_entries_witness :
  exists text,
    format_forecast_response (rt := utc_machine) paris_forecast (JStr "celsius")
    = Ok text
    /\ str_contains "Rain probability: 10%" text = true.
Proof.
  destruct (format_forecast_response_entries (rt := utc_machine)
              [("city", JDict [("name", JStr "Paris");
                               ("coord", JDict [("lat", JFloat 48.8566);
                                                ("lon", JFloat 2.3522)])]);
               ("list",
                JList
                  [JDict [("dt", JInt 1612345678);
                          ("main", JDict [("temp", JFloat 283.15);
                                          ("feels_like", JFloat 281.15);
                                          ("humidity", JInt 70)]);
                          ("weather", JList [JDict [("main", JStr "Clear");
                                                    ("description", JStr "clear sky")]]);
                          ("wind", JDict [("speed", JFloat 4.0)]);
                          ("pop", JFloat 0.1)]])]
              _ (JStr "celsius") eq_refl) as [E _].
  fold paris_forecast in E.
  eexists. split; [rewrite E; vm_compute; reflexivity | vm_compute; reflexivity].
Defined.

(** C7, as stated, fails: for the forecast of the repository's test, whose
    entry has [pop = 0.1], one decimal place would give ["10.0"], and the
    output shows ["Rain probability: 10%"]. *)
Lemma format_forecast_response_pop_one_decimal_fails :
  exists text,
    format_forecast_response (rt := utc_machine) paris_forecast (JStr "celsius")
    = Ok text
    /\ fmt_f 1 (0.1 * 100)%float = "10.0"
    /\ str_contains "Rain probability: 10.0%" text = false
    /\ str_contains "Rain probability: 10%" text = true.
Proof.
  eexists. split; [vm_compute; reflexivity|].
  repeat split; vm_compute; reflexivity.
Qed.

(* ================================================================== *)
(** ** Lookups and the final strip *)

Lemma py_get_dict (d : list (string * json)) (k : string)
    (default : json) :
  py_get (JDict d) k default
  = Ok (match dict_get k d with Some x => x | None => default end).
Proof. reflexivity. Qed.

Lemma is_ok_true {A : Type} (r : result A) :
  is_ok r = true -> exists a, r = Ok a.
Proof. destruct r as [a|e]; [now exists a | discriminate]. Qed.

(** Stripping a report that is framed by newlines, starts with a solid byte
    and ends with the usage notice leaves the report. *)
Lemma py_strip_report (headline body : string) :
  starts_solid headline = true ->
  py_strip (nl ++ headline ++ body ++ RATE_LIMIT_WARNING ++ nl)
  = headline ++ body ++ RATE_LIMIT_WARNING.
Proof.
  destruct headline as [|a h]; [discriminate|]. intro Ha.
  assert (E : RATE_LIMIT_WARNING
              = "Note: OpenWeatherMap free tier allows 1,000 calls/day. Please use responsibly"
                ++ ".") by reflexivity.
  rewrite E.
  set (notice := "Note: OpenWeatherMap free tier allows 1,000 calls/day. Please use responsibly").
  change (String a h ++ body ++ (notice ++ ".") ++ nl)
    with (String a (h ++ body ++ (notice ++ ".") ++ nl)).
  replace (h ++ body ++ (notice ++ ".") ++ nl)
    with ((h ++ body ++ notice) ++ String "." nl).
  - rewrite (py_strip_framed a "." (h ++ body ++ notice) Ha eq_refl).
    change (String a h ++ body ++ notice ++ ".")
      with (String a (h ++ body ++ notice ++ ".")).
    f_equal. rewrite !append_assoc. reflexivity.
  - rewrite !append_assoc. reflexivity.
Qed.

(* ================================================================== *)
(** ** call_tool *)

Section Dispatcher.

Context {rt : PyRuntime}.
Variable OPENWEATHER_API_KEY : option string.

(** What the [try] block returns is one text result. *)
Lemma call_tool_body_one_text (name location : string) (units : json)
    (client : AsyncClient) (w w' : world) (r : list TextContent) :
  call_tool_body OPENWEATHER_API_KEY name location units client w = (Ok r, w') ->
  exists message, r = text_result message.
Proof.
  unfold call_tool_body, bind.
  destruct (get_coordinates OPENWEATHER_API_KEY location client w)
    as [[[lat lon]|e] w0]; [|discriminate].
  destruct (String.eqb name "get_current_weather").
  { destruct (fetch_endpoint OPENWEATHER_API_KEY client "/weather" lat lon w0)
      as [[data|e] w1]; [|discriminate].
    unfold lift. destruct (format_weather_response data units); [|discriminate].
    unfold ret. intro H. injection H as <- _. now eexists. }
  destruct (String.eqb name "get_weather_forecast").
  { destruct (fetch_endpoint OPENWEATHER_API_KEY client "/forecast" lat lon w0)
      as [[data|e] w1]; [|discriminate].
    unfold lift. destruct (format_forecast_response data units); [|discriminate].
    unfold ret. intro H. injection H as <- _. now eexists. }
  destruct (String.eqb name "get_air_quality").
  { destruct (fetch_endpoint OPENWEATHER_API_KEY client "/air_pollution" lat lon w0)
      as [[data|e] w1]; [|discriminate].
    unfold lift. destruct (format_air_quality_response data); [|discriminate].
    unfold ret. intro H. injection H as <- _. now eexists. }
  unfold ret. intro H. injection H as <- _. now eexists.
Qed.

(** After the location is resolved, a name that is none of the three tools
    is answered with the unknown-tool text. *)
Lemma call_tool_body_unknown (name location : string) (units : json)
    (client : AsyncClient) (w w' : world) (lat lon : json) :
  get_coordinates OPENWEATHER_API_KEY location client w = (Ok (lat, lon), w') ->
  known_tool name = false ->
  call_tool_body OPENWEATHER_API_KEY name location units client w
  = (Ok (text_result ("Error: Unknown tool '" ++ name ++ "'")), w').
Proof.
  intros Hg Hn. unfold known_tool in Hn.
  apply orb_false_elim in Hn as [Hn H3]. apply orb_false_elim in Hn as [H1 H2].
  unfold call_tool_body, bind. rewrite Hg, H1, H2, H3. reflexivity.
Qed.

(** C3, as the code has it. With a [location] argument that is a string or
    is absent, [call_tool] never raises and returns exactly one text. The
    key is checked first: without it the text is the configuration error,
    whatever the arguments. With it, a missing or blank location gives
    ["Error: Location parameter is required."]; otherwise the text is what
    the [try] block returned, or the text of the error it raised
    (["Error: ..."] for a [WeatherAPIError], ["Unexpected error: ..."] for
    any other exception); the name is looked at only once the location is
    resolved, and an unknown name then gives the unknown-tool text. *)
Theorem call_tool_returns_text (name : string) (arguments : list (string * json))
    (client : AsyncClient) (w : world) (location : string) :
  location_argument arguments = Some location ->
  exists message w',
    call_tool OPENWEATHER_API_KEY name (JDict arguments) client w
    = (Ok (text_result message), w')
    /\ (api_key_unset OPENWEATHER_API_KEY = true ->
        message = api_key_missing_text /\ w' = w)
    /\ (api_key_unset OPENWEATHER_API_KEY = false -> location = "" ->
        message = location_required_text /\ w' = w)
    /\ (api_key_unset OPENWEATHER_API_KEY = false -> location <> "" ->
        (forall e w1,
           call_tool_body OPENWEATHER_API_KEY name location
             (units_argument arguments) client w = (Raise e, w1) ->
           message = error_text e /\ w' = w1)
        /\ (forall r w1,
              call_tool_body OPENWEATHER_API_KEY name location
                (units_argument arguments) client w = (Ok r, w1) ->
              r = text_result message /\ w' = w1)
        /\ (forall lat lon w1,
              get_coordinates OPENWEATHER_API_KEY location client w
              = (Ok (lat, lon), w1) ->
              known_tool name = false ->
              message = "Error: Unknown tool '" ++ name ++ "'" /\ w' = w1)).
Proof.
  intro Hloc. unfold call_tool.
  destruct (api_key_unset OPENWEATHER_API_KEY) eqn:Ekey.
  { exists api_key_missing_text, w. repeat split; discriminate. }
  assert (Estrip : rbind (py_get (JDict arguments) "location" (JStr "")) strip_method
                   = Ok location).
  { rewrite py_get_dict. cbn [rbind]. unfold location_argument in Hloc.
    destruct (dict_get "location" arguments) as [v|].
    - destruct v; try discriminate. simpl. now injection Hloc as ->.
    - simpl. now injection Hloc as ->. }
  unfold bind at 1 2. unfold lift at 1 2.
  rewrite py_get_dict in *. cbn [rbind] in Estrip. rewrite Estrip.
  destruct (String.eqb location "") eqn:El.
  { apply String.eqb_eq in El.
    exists location_required_text, w. repeat split; try discriminate; congruence. }
  apply String.eqb_neq in El.
  unfold bind, lift. rewrite py_get_dict. fold (units_argument arguments).
  unfold try_except.
  destruct (call_tool_body OPENWEATHER_API_KEY name location
              (units_argument arguments) client w) as [[r|e] w1] eqn:Eb.
  - destruct (call_tool_body_one_text _ _ _ _ _ _ _ Eb) as [message ->].
    exists message, w1.
    split; [reflexivity|]. split; [discriminate|]. split; [congruence|].
    intros _ _. split; [discriminate|]. split.
    + intros r w2 H. injection H as <- <-. now split.
    + intros lat lon w2 Hg Hn.
      rewrite (call_tool_body_unknown name location _ client w w2 lat lon Hg Hn) in Eb.
      unfold text_result in Eb. inversion Eb. now split.
  - exists (error_text e), w1.
    split; [reflexivity|]. split; [discriminate|]. split; [congruence|].
    intros _ _. split; [|split].
    + intros e' w2 H. injection H as <- <-. now split.
    + discriminate.
    + intros lat lon w2 Hg Hn.
      rewrite (call_tool_body_unknown name location _ client w w2 lat lon Hg Hn) in Eb.
      discriminate.
Qed.

End Dispatcher.

Lemma call_tool_returns_text_witness :
  exists message w',
    call_tool (rt := utc_machine) (Some "key") "get_current_weather"
      (JDict [("location", JStr " 51.5074,-0.1278 ")])
      (always (Response 200 "" (Ok mild_day))) fresh_world
    = (Ok (text_result message), w').
Proof.
  destruct (call_tool_returns_text (rt := utc_machine) (Some "key")
              "get_current_weather" [("location", JStr " 51.5074,-0.1278 ")]
              (always (Response 200 "" (Ok mild_day))) fresh_world
              "51.5074,-0.1278" ltac:(vm_compute; reflexivity))
    as [message [w' [E _]]].
  now exists message, w'.
Defined.

(** C3, as stated, fails in three ways. A [location] that is not a string
    makes [call_tool] raise: [.strip()] is called on it before the [try]
    block. Without a key, a missing location gets the configuration text,
    not the location text. With an unknown tool name, a location the
    geocoder does not find gets the not-found text, not the unknown-tool
    text. *)
Lemma call_tool_claim_fails :
  call_tool (rt := utc_machine) (Some "key") "get_current_weather"
    (JDict [("location", JInt 5)]) (always TimeoutException) fresh_world
  = (Raise (PyExc AttributeError "'int' object has no attribute 'strip'"),
     fresh_world)
  /\ (call_tool (rt := utc_machine) None "get_current_weather" (JDict [])
        (always TimeoutException) fresh_world
      = (Ok (text_result api_key_missing_text), fresh_world)
      /\ api_key_missing_text <> location_required_text)
  /\ fst (call_tool (rt := utc_machine) (Some "key") "no_such_tool"
            (JDict [("location", JStr "Atlantis")])
            (always (Response 200 "[]" (Ok (JList [])))) fresh_world)
     = Ok (text_result "Error: Location 'Atlantis' not found.").
Proof.
  split; [vm_compute; reflexivity|]. split; [|vm_compute; reflexivity].
  split; [vm_compute; reflexivity | discriminate].
Qed.

(* ================================================================== *)
(** ** More on fetch_with_retry *)

Lemma sum_repeat_1 (n : nat) : fold_right Z.add 0 (repeat 1 n) = Z.of_nat n.
Proof. induction n as [|n IH]; [reflexivity|]. cbn [repeat fold_right]. lia. Qed.

Lemma pow2_succ_nat (n : nat) : 2 ^ Z.of_nat (S n) = 2 * 2 ^ Z.of_nat n.
Proof. rewrite Nat2Z.inj_succ. apply Z.pow_succ_r. lia. Qed.

Lemma pow2_pos (a : Z) : 0 <= a -> 0 < 2 ^ a.
Proof. intro H. apply Z.pow_pos_nonneg; lia. Qed.

Section FetchMore.

Variable client : AsyncClient.
Variable req : request.
Variable max_retries : Z.

(** A timeout on the last attempt: the timeout error. *)
Lemma fetch_attempts_timeout_last (remaining : nat) (attempt : Z) (w : world) :
  client (List.length (sent w)) req = TimeoutException ->
  max_retries - 1 <= attempt ->
  fetch_attempts client req max_retries (S remaining) attempt w
  = (Raise request_timed_out,
     {| sent := (sent w ++ [req])%list; slept := slept w |}).
Proof.
  intros H Hge. simpl. unfold bind at 1, client_get. rewrite H. simpl.
  assert (E : (attempt <? max_retries - 1) = false) by (apply Z.ltb_ge; lia).
  rewrite E. reflexivity.
Qed.

Lemma fetch_attempts_always_timeout (remaining : nat) :
  forall (attempt : Z) (w : world),
    (0 < remaining)%nat ->
    attempt + Z.of_nat remaining = max_retries ->
    (forall i, (i < remaining)%nat ->
       client (List.length (sent w) + i)%nat req = TimeoutException) ->
    fetch_attempts client req max_retries remaining attempt w
    = (Raise request_timed_out,
       {| sent := (sent w ++ repeat req remaining)%list;
          slept := (slept w ++ repeat 1 (remaining - 1))%list |}).
Proof.
  induction remaining as [|k IH]; intros attempt w Hpos Hsum Hall; [lia|].
  pose proof (Hall 0%nat ltac:(lia)) as H0. rewrite Nat.add_0_r in H0.
  destruct k as [|k].
  - rewrite (fetch_attempts_timeout_last 0 attempt w H0) by lia.
    simpl. now rewrite app_nil_r.
  - rewrite (fetch_attempts_timeout_again client req max_retries (S k) attempt w H0)
      by lia.
    rewrite IH; simpl; try lia.
    + rewrite <- !app_assoc. simpl. now rewrite Nat.sub_0_r.
    + intros i Hi. rewrite length_app. simpl.
      rewrite <- (Hall (S i) ltac:(lia)). f_equal. lia.
Qed.

(** After [k] retried outcomes a 2xx response ends the loop with its body. *)
Lemma fetch_attempts_recovers (k : nat) :
  forall (remaining : nat) (attempt : Z) (w : world) (status_code : Z)
         (text : string) (body : result json),
    (k < remaining)%nat ->
    attempt + Z.of_nat remaining = max_retries ->
    (forall i, (i < k)%nat ->
       is_transient (client (List.length (sent w) + i)%nat req) = true) ->
    client (List.length (sent w) + k)%nat req = Response status_code text body ->
    is_success status_code = true ->
    fetch_attempts client req max_retries remaining attempt w
    = (body,
       {| sent := (sent w ++ repeat req (S k))%list;
          slept := (slept w
                    ++ map (fun i => nap_after
                                       (client (List.length (sent w) + i)%nat req)
                                       (attempt + Z.of_nat i))
                         (seq 0 k))%list |}).
Proof.
  induction k as [|k IH];
    intros remaining attempt w status_code text body Hk Hsum Htr Hok Hs.
  - destruct remaining as [|r]; [lia|].
    rewrite Nat.add_0_r in Hok.
    rewrite (fetch_attempts_success client req max_retries r attempt w
               status_code text body Hok Hs).
    simpl. now rewrite app_nil_r.
  - destruct remaining as [|r]; [lia|].
    pose proof (Htr 0%nat ltac:(lia)) as H0. rewrite Nat.add_0_r in H0.
    assert (Next : forall nap,
               nap = nap_after (client (List.length (sent w)) req) attempt ->
               fetch_attempts client req max_retries r (attempt + 1)
                 {| sent := (sent w ++ [req])%list; slept := (slept w ++ [nap])%list |}
               = (body,
                  {| sent := (sent w ++ repeat req (S (S k)))%list;
                     slept := (slept w
                               ++ map (fun i => nap_after
                                                  (client (List.length (sent w) + i)%nat req)
                                                  (attempt + Z.of_nat i))
                                    (seq 0 (S k)))%list |})).
    { intros nap Hnap.
      rewrite (IH r (attempt + 1) _ status_code text body); simpl; try lia.
      - rewrite <- !app_assoc. simpl.
        rewrite <- seq_shift, map_map, length_app. simpl.
        rewrite Nat.add_0_r, Z.add_0_r, <- Hnap.
        do 3 f_equal. f_equal. apply map_ext. intro i.
        f_equal; [f_equal; lia | lia].
      - intros i Hi. rewrite length_app. simpl.
        rewrite <- (Htr (S i) ltac:(lia)). do 2 f_equal. lia.
      - rewrite length_app. simpl. rewrite <- Hok. f_equal. lia.
      - exact Hs. }
    destruct (client (List.length (sent w)) req)
      as [code t b| |msg|e] eqn:E; simpl in H0; try discriminate.
    + apply Z.eqb_eq in H0. subst code.
      rewrite (fetch_attempts_429_again client req max_retries r attempt w t b E)
        by lia.
      now apply Next.
    + rewrite (fetch_attempts_timeout_again client req max_retries r attempt w E)
        by lia.
      now apply Next.
Qed.

(** What a run of the loop adds to the world: [k] copies of the request and
    [k - 1] sleeps, each of at least one second, whose sum stays below the
    geometric bound. *)
Lemma fetch_attempts_footprint (remaining : nat) :
  forall (attempt : Z) (w : world),
    0 <= attempt ->
    ((0 < remaining)%nat -> attempt + Z.of_nat remaining = max_retries) ->
    exists k naps,
      snd (fetch_attempts client req max_retries remaining attempt w)
      = {| sent := (sent w ++ repeat req k)%list; slept := (slept w ++ naps)%list |}
      /\ (k <= remaining)%nat
      /\ ((0 < remaining)%nat -> (1 <= k)%nat)
      /\ List.length naps = (k - 1)%nat
      /\ Forall (fun nap => 1 <= nap) naps
      /\ fold_right Z.add 0 naps <= 2 ^ attempt * (2 ^ Z.of_nat (k - 1) - 1).
Proof.
  induction remaining as [|r IH]; intros attempt w Ha Hinv.
  - exists 0%nat, []. simpl. rewrite !app_nil_r.
    repeat split; try lia; try constructor. now destruct w.
  - assert (Once : forall w1 : world,
               w1 = {| sent := (sent w ++ [req])%list; slept := slept w |} ->
               exists k naps,
                 w1
                 = {| sent := (sent w ++ repeat req k)%list;
                      slept := (slept w ++ naps)%list |}
                 /\ (k <= S r)%nat /\ ((0 < S r)%nat -> (1 <= k)%nat)
                 /\ List.length naps = (k - 1)%nat
                 /\ Forall (fun nap => 1 <= nap) naps
                 /\ fold_right Z.add 0 naps
                    <= 2 ^ attempt * (2 ^ Z.of_nat (k - 1) - 1)).
    { intros w1 Hp. exists 1%nat, []. rewrite Hp. simpl. rewrite app_nil_r.
      repeat split; try lia; constructor. }
    assert (Again : forall nap,
               1 <= nap <= 2 ^ attempt ->
               attempt < max_retries - 1 ->
               exists k naps,
                 snd (fetch_attempts client req max_retries r (attempt + 1)
                        {| sent := (sent w ++ [req])%list;
                           slept := (slept w ++ [nap])%list |})
                 = {| sent := (sent w ++ repeat req k)%list;
                      slept := (slept w ++ naps)%list |}
                 /\ (k <= S r)%nat /\ ((0 < S r)%nat -> (1 <= k)%nat)
                 /\ List.length naps = (k - 1)%nat
                 /\ Forall (fun nap => 1 <= nap) naps
                 /\ fold_right Z.add 0 naps
                    <= 2 ^ attempt * (2 ^ Z.of_nat (k - 1) - 1)).
    { intros nap Hnap Hlt.
      pose proof (Hinv ltac:(lia)) as Hsum.
      destruct (IH (attempt + 1)
                  {| sent := (sent w ++ [req])%list; slept := (slept w ++ [nap])%list |}
                  ltac:(lia) ltac:(intros; lia))
        as [k [naps [E [Hk [Hk1 [Hlen [Hall Hbound]]]]]]].
      assert (K : (1 <= k)%nat) by (apply Hk1; lia).
      exists (S k), (nap :: naps). rewrite E. simpl.
      rewrite <- !app_assoc. simpl.
      repeat split; try lia.
      - constructor; [lia | exact Hall].
      - destruct k as [|k']; [lia|].
        simpl in Hbound. rewrite Nat.sub_0_r in Hbound.
        rewrite Nat.sub_0_r, pow2_succ_nat.
        rewrite Z.pow_add_r in Hbound by lia.
        change (2 ^ 1) with 2 in Hbound.
        pose proof (pow2_pos attempt Ha).
        pose proof (pow2_pos (Z.of_nat k') ltac:(lia)).
        nia. }
    simpl. unfold bind at 1, client_get.
    destruct (client (List.length (sent w)) req) as [code t b| |msg|e]; simpl.
    + destruct (is_success code); [exact (Once _ eq_refl)|].
      destruct (code =? 401); [exact (Once _ eq_refl)|].
      destruct (code =? 404); [exact (Once _ eq_refl)|].
      destruct (code =? 429); [|exact (Once _ eq_refl)].
      destruct (attempt <? max_retries - 1) eqn:El; [|exact (Once _ eq_refl)].
      apply Z.ltb_lt in El. unfold bind, sleep. simpl.
      apply Again; [|exact El].
      pose proof (pow2_pos attempt Ha). lia.
    + destruct (attempt <? max_retries - 1) eqn:El; [|exact (Once _ eq_refl)].
      apply Z.ltb_lt in El. unfold bind, sleep. simpl.
      apply Again; [|exact El].
      pose proof (pow2_pos attempt Ha). lia.
    + exact (Once _ eq_refl).
    + exact (Once _ eq_refl).
Qed.

(** With outcomes of the handled kinds only, the loop returns or raises a
    [WeatherAPIError]. *)
Lemma fetch_attempts_own_error (remaining : nat) :
  (forall n, handled (client n req) = true) ->
  forall (attempt : Z) (w : world) (kind : exc_kind) (msg : string),
    fst (fetch_attempts client req max_retries remaining attempt w)
    <> Raise (PyExc kind msg).
Proof.
  intro Hh. induction remaining as [|r IH]; intros attempt w kind msg.
  - simpl. discriminate.
  - simpl. unfold bind at 1, client_get.
    pose proof (Hh (List.length (sent w))) as H.
    destruct (client (List.length (sent w)) req) as [code t b| |m|e]; simpl in *.
    + destruct (is_success code) eqn:Es.
      * destruct b as [data|e]; [discriminate|]. simpl in H. discriminate.
      * destruct (code =? 401); [discriminate|].
        destruct (code =? 404); [discriminate|].
        destruct (code =? 429); [|discriminate].
        destruct (attempt <? max_retries - 1); [|discriminate].
        unfold bind, sleep. simpl. apply IH.
    + destruct (attempt <? max_retries - 1); [|discriminate].
      unfold bind, sleep. simpl. apply IH.
    + discriminate.
    + discriminate.
Qed.

End FetchMore.

Lemma rate_limited_then_429 (failures : nat) (data : json) (i : nat) (r : request) :
  (i < failures)%nat ->
  exists text body, rate_limited_then failures data i r = Response 429 text body.
Proof.
  intro H. unfold rate_limited_then.
  destruct (Nat.ltb_spec i failures); [now do 2 eexists | lia].
Qed.

Lemma fetch_with_retry_exhausted_witness :
  fetch_with_retry (rate_limited_then 5 JNull) "u" [] 5 fresh_world
  = (Raise rate_limit_exceeded,
     {| sent := repeat (get_request "u" []) 5; slept := [1; 2; 4; 8] |}).
Proof.
  apply (fetch_with_retry_exhausted (rate_limited_then 5 JNull) "u" [] 5 fresh_world).
  - lia.
  - intros i Hi. apply rate_limited_then_429. exact Hi.
Defined.

(** X2. When every one of the [max_retries >= 1] attempts times out, the call
    fails with the timeout error after [max_retries] requests, having slept
    one second between consecutive attempts: [max_retries - 1] seconds. *)
Theorem fetch_with_retry_times_out (client : AsyncClient) (url : string)
    (params : list (string * json)) (max_retries : Z) (w : world) :
  0 < max_retries ->
  (forall i, (i < Z.to_nat max_retries)%nat ->
     client (List.length (sent w) + i)%nat (get_request url params)
     = TimeoutException) ->
  fetch_with_retry client url params max_retries w
  = (Raise request_timed_out,
     {| sent := (sent w ++ repeat (get_request url params) (Z.to_nat max_retries))%list;
        slept := (slept w ++ repeat 1 (Z.to_nat max_retries - 1))%list |})
  /\ total_slept (snd (fetch_with_retry client url params max_retries w))
     = total_slept w + (max_retries - 1).
Proof.
  intros Hpos Hall.
  assert (E : fetch_with_retry client url params max_retries w
              = (Raise request_timed_out,
                 {| sent := (sent w ++ repeat (get_request url params)
                                         (Z.to_nat max_retries))%list;
                    slept := (slept w ++ repeat 1 (Z.to_nat max_retries - 1))%list |})).
  { unfold fetch_with_retry.
    apply (fetch_attempts_always_timeout client (get_request url params));
      try assumption; lia. }
  split; [exact E|]. rewrite E. unfold total_slept. cbn [snd slept].
  rewrite sum_app, sum_repeat_1. lia.
Qed.

Lemma fetch_with_retry_times_out_witness :
  fetch_with_retry (always TimeoutException) "u" [] 3 fresh_world
  = (Raise request_timed_out,
     {| sent := repeat (get_request "u" []) 3; slept := [1; 1] |}).
Proof.
  destruct (fetch_with_retry_times_out (always TimeoutException) "u" [] 3
              fresh_world ltac:(lia) (fun _ _ => eq_refl)) as [E _].
  exact E.
Defined.

(** X3. Whatever the upstream does, a call sends the same request [k] times
    with [k <= max_retries], sleeps between consecutive requests only
    ([k - 1] sleeps of at least one second each), and sleeps no more than
    [2^(k-1) - 1] seconds in all: at most 3 requests and 3 seconds for the
    default of 3 attempts. *)
Theorem fetch_with_retry_footprint (client : AsyncClient) (url : string)
    (params : list (string * json)) (max_retries : Z) (w : world) :
  exists k naps,
    snd (fetch_with_retry client url params max_retries w)
    = {| sent := (sent w ++ repeat (get_request url params) k)%list;
         slept := (slept w ++ naps)%list |}
    /\ (k <= Z.to_nat max_retries)%nat
    /\ List.length naps = (k - 1)%nat
    /\ Forall (fun nap => 1 <= nap) naps
    /\ fold_right Z.add 0 naps <= 2 ^ Z.of_nat (k - 1) - 1
    /\ (max_retries = 3 -> fold_right Z.add 0 naps <= 3).
Proof.
  unfold fetch_with_retry.
  destruct (fetch_attempts_footprint client (get_request url params) max_retries
              (Z.to_nat max_retries) 0 w ltac:(lia) ltac:(lia))
    as [k [naps [E [Hk [_ [Hlen [Hall Hbound]]]]]]].
  exists k, naps. change (2 ^ 0) with 1 in Hbound.
  repeat split; try assumption; try lia.
  intros ->. change (Z.to_nat 3) with 3%nat in Hk.
  assert (C : (k = 0 \/ k = 1 \/ k = 2 \/ k = 3)%nat) by lia.
  destruct C as [-> | [-> | [-> | ->]]]; simpl in Hbound; lia.
Qed.

(** X4. With [max_retries <= 0] nothing is requested: the call fails at
    once with ["Failed to fetch data after multiple retries"]. *)
Theorem fetch_with_retry_no_attempts (client : AsyncClient) (url : string)
    (params : list (string * json)) (max_retries : Z) (w : world) :
  max_retries <= 0 ->
  fetch_with_retry client url params max_retries w
  = (Raise (WeatherAPIError "Failed to fetch data after multiple retries"), w).
Proof.
  intro H. unfold fetch_with_retry.
  assert (E : Z.to_nat max_retries = 0%nat) by lia.
  rewrite E. reflexivity.
Qed.

Lemma fetch_with_retry_no_attempts_witness :
  fetch_with_retry (always (Response 200 "" (Ok JNull))) "u" [] 0 fresh_world
  = (Raise (WeatherAPIError "Failed to fetch data after multiple retries"),
     fresh_world).
Proof.
  apply (fetch_with_retry_no_attempts (always (Response 200 "" (Ok JNull))) "u" []
           0 fresh_world).
  lia.
Defined.

(** X5. If the first [k < max_retries] attempts meet a 429 or a timeout, in
    any mix, and the next one a 2xx response, the call returns what the
    body parses to after [k + 1] requests, having slept after each failed
    attempt [i]: one second after a timeout, [2^i] seconds after a 429. *)
Theorem fetch_with_retry_recovers (client : AsyncClient) (url : string)
    (params : list (string * json)) (max_retries : Z) (w : world) (k : nat)
    (status_code : Z) (text : string) (body : result json) :
  Z.of_nat k < max_retries ->
  (forall i, (i < k)%nat ->
     is_transient (client (List.length (sent w) + i)%nat (get_request url params))
     = true) ->
  client (List.length (sent w) + k)%nat (get_request url params)
  = Response status_code text body ->
  is_success status_code = true ->
  fetch_with_retry client url params max_retries w
  = (body,
     {| sent := (sent w ++ repeat (get_request url params) (S k))%list;
        slept := (slept w
                  ++ map (fun i =>
                            nap_after
                              (client (List.length (sent w) + i)%nat
                                 (get_request url params))
                              (Z.of_nat i))
                       (seq 0 k))%list |}).
Proof.
  intros Hk Htr Hok Hs. unfold fetch_with_retry.
  apply (fetch_attempts_recovers client (get_request url params) max_retries k
           (Z.to_nat max_retries) 0 w status_code text body);
    try assumption; lia.
Qed.

Lemma fetch_with_retry_recovers_witness :
  fetch_with_retry (timing_out_then 2 (JDict [])) "u" [] 3 fresh_world
  = (Ok (JDict []),
     {| sent := repeat (get_request "u" []) 3; slept := [1; 1] |}).
Proof.
  apply (fetch_with_retry_recovers (timing_out_then 2 (JDict [])) "u" [] 3
           fresh_world 2 200 "" (Ok (JDict []))).
  - lia.
  - intros i Hi. unfold timing_out_then. simpl.
    destruct (Nat.ltb_spec i 2); [reflexivity | lia].
  - reflexivity.
  - reflexivity.
Defined.

(** X6. If the upstream only produces what the fetcher handles (responses
    whose 2xx bodies parse, timeouts, request errors), a call returns the
    body or raises a [WeatherAPIError]: no other exception leaves it. *)
Theorem fetch_with_retry_own_error (client : AsyncClient) (url : string)
    (params : list (string * json)) (max_retries : Z) (w : world) :
  (forall n, handled (client n (get_request url params)) = true) ->
  (exists data, fst (fetch_with_retry client url params max_retries w) = Ok data)
  \/ (exists msg,
        fst (fetch_with_retry client url params max_retries w)
        = Raise (WeatherAPIError msg)).
Proof.
  intro H.
  change (fetch_with_retry client url params max_retries w)
    with (fetch_attempts client (get_request url params) max_retries
            (Z.to_nat max_retries) 0 w).
  pose proof (fetch_attempts_own_error client (get_request url params) max_retries
                (Z.to_nat max_retries) H 0 w) as Hn.
  destruct (fst (fetch_attempts client (get_request url params) max_retries
                   (Z.to_nat max_retries) 0 w)) as [data|[msg|kind msg]].
  - left. now exists data.
  - right. now exists msg.
  - exfalso. now apply (Hn kind msg).
Qed.

Lemma fetch_with_retry_own_error_witness :
  (exists data,
     fst (fetch_with_retry (always (RequestError "connection refused")) "u" [] 3
            fresh_world) = Ok data)
  \/ (exists msg,
        fst (fetch_with_retry (always (RequestError "connection refused")) "u" [] 3
               fresh_world) = Raise (WeatherAPIError msg)).
Proof.
  exact (fetch_with_retry_own_error (always (RequestError "connection refused"))
           "u" [] 3 fresh_world (fun _ => eq_refl)).
Defined.

(* ================================================================== *)
(** ** More on get_coordinates *)

Lemma split_on_comma_app (a rest : string) :
  str_contains "," a = false ->
  split_on "," (a ++ String "," rest) = a :: split_on "," rest.
Proof.
  induction a as [|c a IH]; intro H.
  - reflexivity.
  - cbn [str_contains starts_with] in H. apply orb_false_elim in H as [H1 H2].
    cbn [split_on append]. fold (append a (String "," rest)).
    destruct (Ascii.eqb c ",") eqn:Ec.
    + apply Ascii.eqb_eq in Ec. subst c. discriminate H1.
    + now rewrite (IH H2).
Qed.

Lemma split_on_head (c : ascii) (s : string) :
  exists p ps, split_on c s = p :: ps.
Proof.
  destruct s as [|a s]; simpl; [now do 2 eexists|].
  destruct (Ascii.eqb a c); [now do 2 eexists|].
  destruct (split_on c s); now do 2 eexists.
Qed.

Section ResolverMore.

Context {rt : PyRuntime}.
Variable OPENWEATHER_API_KEY : option string.

(** What the coordinate check returns did read as coordinates. *)
Lemma coordinates_given_found (location : string) (lat lon : float) :
  coordinates_given location = Ok (Some (lat, lon)) ->
  coordinate_text location lat lon.
Proof.
  unfold coordinates_given.
  destruct (str_contains "," location); [|discriminate].
  unfold parse_coordinates.
  destruct (split_on "," location) as [|p0 [|p1 rest]] eqn:Es; simpl;
    unfold float_of_str.
  - discriminate.
  - destruct (py_float (py_strip p0)); discriminate.
  - destruct (py_float (py_strip p0)) as [x|] eqn:E0; simpl; [|discriminate].
    destruct (py_float (py_strip p1)) as [y|] eqn:E1; simpl; [|discriminate].
    destruct ((-90 <=? x) && (x <=? 90) && (-180 <=? y) && (y <=? 180))%float
      eqn:Er; [|discriminate].
    intro H. injection H as <- <-. now exists p0, p1, rest.
Qed.

(** The geocoder's first result, when it has both fields, is the answer. *)
Lemma geocode_found (location : string) (client : AsyncClient) (w w' : world)
    (first : list (string * json)) (rest : list json) (lat lon : json) :
  fetch_with_retry client (OPENWEATHER_GEO_URL ++ "/direct")
    (geocoding_params OPENWEATHER_API_KEY location) 3 w
  = (Ok (JList (JDict first :: rest)), w') ->
  dict_get "lat" first = Some lat ->
  dict_get "lon" first = Some lon ->
  geocode OPENWEATHER_API_KEY location client w = (Ok (lat, lon), w').
Proof.
  intros H Hlat Hlon. unfold geocode, try_except, bind.
  unfold geocoding_params in H. rewrite H. simpl.
  unfold lift, py_item. now rewrite Hlat, Hlon.
Qed.

(** The world after the geocoding lookup is the world after its fetch. *)
Lemma geocode_world (location : string) (client : AsyncClient) (w : world) :
  snd (geocode OPENWEATHER_API_KEY location client w)
  = snd (fetch_with_retry client (OPENWEATHER_GEO_URL ++ "/direct")
           (geocoding_params OPENWEATHER_API_KEY location) 3 w).
Proof.
  unfold geocode, try_except, bind, geocoding_params.
  destruct (fetch_with_retry client (OPENWEATHER_GEO_URL ++ "/direct")
              [("q", JStr location); ("limit", JInt 1);
               ("appid", api_key_json OPENWEATHER_API_KEY)] 3 w)
    as [[data|e] w1]; simpl.
  - destruct (py_truthy data); simpl.
    + unfold lift. destruct (py_item0 data) as [first|e]; simpl.
      * destruct (py_item first "lat") as [lat|e]; simpl.
        -- destruct (py_item first "lon") as [lon|e]; simpl; [reflexivity|].
           destruct (is_key_or_index_error e); reflexivity.
        -- destruct (is_key_or_index_error e); reflexivity.
      * destruct (is_key_or_index_error e); reflexivity.
    + reflexivity.
  - destruct (is_key_or_index_error e); reflexivity.
Qed.

(** X7. A location that does not read as coordinates is resolved by the
    geocoder: when the lookup returns a list whose first result has [lat]
    and [lon], these two values are returned as they are. *)
Theorem get_coordinates_geocoded (location : string) (client : AsyncClient)
    (w w' : world) (first : list (string * json)) (rest : list json)
    (lat lon : json) :
  (forall x y, ~ coordinate_text location x y) ->
  fetch_with_retry client (OPENWEATHER_GEO_URL ++ "/direct")
    (geocoding_params OPENWEATHER_API_KEY location) 3 w
  = (Ok (JList (JDict first :: rest)), w') ->
  dict_get "lat" first = Some lat ->
  dict_get "lon" first = Some lon ->
  get_coordinates OPENWEATHER_API_KEY location client w = (Ok (lat, lon), w').
Proof.
  intros Hno H Hlat Hlon. unfold get_coordinates, bind, lift.
  rewrite (coordinates_given_none location Hno).
  now apply (geocode_found location client w w' first rest).
Qed.

(** X8. A geocoding result that lacks an expected field is reported as a
    [WeatherAPIError]: a first result without [lat], or with [lat] but
    without [lon], names the missing key; a non-empty mapping in place of
    the list names the index 0. *)
Theorem get_coordinates_malformed_response (location : string)
    (client : AsyncClient) (w w' : world) :
  (forall x y, ~ coordinate_text location x y) ->
  (forall first rest,
     fetch_with_retry client (OPENWEATHER_GEO_URL ++ "/direct")
       (geocoding_params OPENWEATHER_API_KEY location) 3 w
     = (Ok (JList (JDict first :: rest)), w') ->
     (dict_get "lat" first = None ->
      get_coordinates OPENWEATHER_API_KEY location client w
      = (Raise (WeatherAPIError
                  ("Failed to parse geocoding response: " ++ repr_str "lat")), w'))
     /\ (forall lat,
           dict_get "lat" first = Some lat -> dict_get "lon" first = None ->
           get_coordinates OPENWEATHER_API_KEY location client w
           = (Raise (WeatherAPIError
                       ("Failed to parse geocoding response: " ++ repr_str "lon")),
              w')))
  /\ (forall item items,
        fetch_with_retry client (OPENWEATHER_GEO_URL ++ "/direct")
          (geocoding_params OPENWEATHER_API_KEY location) 3 w
        = (Ok (JDict (item :: items)), w') ->
        get_coordinates OPENWEATHER_API_KEY location client w
        = (Raise (WeatherAPIError "Failed to parse geocoding response: 0"), w')).
Proof.
  intro Hno.
  assert (G : get_coordinates OPENWEATHER_API_KEY location client w
              = geocode OPENWEATHER_API_KEY location client w).
  { unfold get_coordinates, bind, lift.
    now rewrite (coordinates_given_none location Hno). }
  rewrite G. unfold geocode, try_except, bind, geocoding_params. split.
  - intros first rest H. unfold geocoding_params in H. rewrite H. simpl.
    unfold lift, py_item. split.
    + intros ->. reflexivity.
    + intros lat -> ->. reflexivity.
  - intros item items H. unfold geocoding_params in H. rewrite H. reflexivity.
Qed.

(** X9. Coordinates obtained without a request are floats within range:
    whenever [get_coordinates] returns and has sent nothing, the pair is
    [(lat, lon)] with [-90 <= lat <= 90] and [-180 <= lon <= 180] and the
    world is unchanged. *)
Theorem get_coordinates_offline_in_range (location : string)
    (client : AsyncClient) (w w' : world) (lat lon : json) :
  get_coordinates OPENWEATHER_API_KEY location client w = (Ok (lat, lon), w') ->
  sent w' = sent w ->
  exists x y,
    lat = JFloat x /\ lon = JFloat y /\ in_range x y = true /\ w' = w.
Proof.
  unfold get_coordinates, bind, lift. intros H Hs.
  destruct (coordinates_given location) as [[[x y]|]|e] eqn:E; [| |discriminate].
  - unfold ret in H. injection H as <- <- <-.
    destruct (coordinates_given_found location x y E) as [p0 [p1 [ps [_ [_ [_ Hr]]]]]].
    now exists x, y.
  - exfalso.
    pose proof (geocode_world location client w) as Hw. rewrite H in Hw.
    cbn [snd] in Hw.
    change (fetch_with_retry client (OPENWEATHER_GEO_URL ++ "/direct")
              (geocoding_params OPENWEATHER_API_KEY location) 3 w)
      with (fetch_attempts client
              (get_request (OPENWEATHER_GEO_URL ++ "/direct")
                 (geocoding_params OPENWEATHER_API_KEY location)) 3 3 0 w) in Hw.
    destruct (fetch_attempts_footprint client
                (get_request (OPENWEATHER_GEO_URL ++ "/direct")
                   (geocoding_params OPENWEATHER_API_KEY location)) 3 3 0 w
                ltac:(lia) ltac:(lia))
      as [k [naps [Ef [_ [Hk _]]]]].
    rewrite <- Hw in Ef. rewrite Ef in Hs. cbn [sent] in Hs.
    apply (f_equal (@List.length request)) in Hs.
    rewrite length_app, repeat_length in Hs.
    specialize (Hk ltac:(lia)). lia.
Qed.

(** X10. Only the first two comma-separated parts are read: when they parse
    to coordinates in range, whatever follows a second comma is ignored and
    the pair is returned without a request. *)
Theorem get_coordinates_ignores_extra_parts (a b tail : string)
    (client : AsyncClient) (w : world) (lat lon : float) :
  str_contains "," a = false ->
  str_contains "," b = false ->
  py_float (py_strip a) = Some lat ->
  py_float (py_strip b) = Some lon ->
  in_range lat lon = true ->
  get_coordinates OPENWEATHER_API_KEY (a ++ "," ++ b ++ "," ++ tail) client w
  = (Ok (JFloat lat, JFloat lon), w).
Proof.
  intros Ha Hb Hlat Hlon Hr. unfold get_coordinates, bind, lift.
  assert (C : coordinate_text (a ++ "," ++ b ++ "," ++ tail) lat lon).
  { change (a ++ "," ++ b ++ "," ++ tail)
      with (a ++ String "," (b ++ String "," tail)).
    exists a, b, (split_on "," tail).
    rewrite (split_on_comma_app a _ Ha), (split_on_comma_app b _ Hb).
    now repeat split. }
  now rewrite (coordinates_given_some _ lat lon C).
Qed.

End ResolverMore.

Lemma name_without_comma_no_pair (x y : float) : ~ coordinate_text "London" x y.
Proof. intros [p0 [p1 [rest [Hs _]]]]. discriminate Hs. Qed.

Lemma get_coordinates_geocoded_witness :
  get_coordinates (rt := utc_machine) (Some "key") "London"
    (always (Response 200 ""
               (Ok (JList [JDict [("lat", JFloat 51.5); ("lon", JFloat (-0.125))]]))))
    fresh_world
  = (Ok (JFloat 51.5, JFloat (-0.125)),
     {| sent := [get_request (OPENWEATHER_GEO_URL ++ "/direct")
                   (geocoding_params (Some "key") "London")];
        slept := [] |}).
Proof.
  exact (get_coordinates_geocoded (rt := utc_machine) (Some "key") "London"
           (always (Response 200 ""
                      (Ok (JList [JDict [("lat", JFloat 51.5);
                                         ("lon", JFloat (-0.125))]]))))
           fresh_world _ [("lat", JFloat 51.5); ("lon", JFloat (-0.125))] []
           (JFloat 51.5) (JFloat (-0.125))
           name_without_comma_no_pair eq_refl eq_refl eq_refl).
Defined.

Lemma get_coordinates_malformed_response_witness :
  get_coordinates (rt := utc_machine) (Some "key") "London"
    (always (Response 200 "" (Ok (JList [JDict [("name", JStr "London")]]))))
    fresh_world
  = (Raise (WeatherAPIError "Failed to parse geocoding response: 'lat'"),
     {| sent := [get_request (OPENWEATHER_GEO_URL ++ "/direct")
                   (geocoding_params (Some "key") "London")];
        slept := [] |}).
Proof.
  destruct (get_coordinates_malformed_response (rt := utc_machine) (Some "key")
              "London"
              (always (Response 200 ""
                         (Ok (JList [JDict [("name", JStr "London")]]))))
              fresh_world
              {| sent := [get_request (OPENWEATHER_GEO_URL ++ "/direct")
                            (geocoding_params (Some "key") "London")];
                 slept := [] |}
              name_without_comma_no_pair) as [H _].
  destruct (H [("name", JStr "London")] [] eq_refl) as [E _].
  exact (E eq_refl).
Defined.

Lemma get_coordinates_offline_in_range_witness :
  exists x y,
    JFloat 89.9 = JFloat x /\ JFloat (-179.9) = JFloat y
    /\ in_range x y = true /\ fresh_world = fresh_world.
Proof.
  exact (get_coordinates_offline_in_range (rt := utc_machine) (Some "key")
           "89.9,-179.9" (always TimeoutException) fresh_world fresh_world
           (JFloat 89.9) (JFloat (-179.9)) eq_refl eq_refl).
Defined.

Lemma get_coordinates_ignores_extra_parts_witness :
  get_coordinates (rt := utc_machine) (Some "key") "51.5, -0.125,London"
    (always TimeoutException) fresh_world
  = (Ok (JFloat 51.5, JFloat (-0.125)), fresh_world).
Proof.
  exact (get_coordinates_ignores_extra_parts (rt := utc_machine) (Some "key")
           "51.5" " -0.125" "London" (always TimeoutException) fresh_world
           51.5 (-0.125) eq_refl eq_refl eq_refl eq_refl eq_refl).
Defined.

(* ================================================================== *)
(** ** More on call_tool *)

Lemma within_refl (P : request -> Prop) (w : world) : within P 0 0 w w.
Proof.
  exists [], []. rewrite !app_nil_r. destruct w.
  repeat split; simpl; try constructor; lia.
Qed.

Lemma within_trans (P : request -> Prop) (n m : nat) (s t : Z) (w w1 w2 : world) :
  within P n s w w1 -> within P m t w1 w2 -> within P (n + m) (s + t) w w2.
Proof.
  intros [r1 [n1 [-> [L1 [F1 [G1 S1]]]]]] [r2 [n2 [-> [L2 [F2 [G2 S2]]]]]].
  exists (r1 ++ r2)%list, (n1 ++ n2)%list. cbn [sent slept].
  rewrite <- !app_assoc, length_app, sum_app.
  repeat split; try lia; now apply Forall_app.
Qed.

Lemma within_weaken (P : request -> Prop) (n m : nat) (s t : Z) (w w' : world) :
  (n <= m)%nat -> s <= t -> within P n s w w' -> within P m t w w'.
Proof.
  intros Hn Hs [r [ns [-> [L [F [G S]]]]]]. exists r, ns.
  repeat split; try assumption; lia.
Qed.

(** One call of the fetcher with the default of three attempts. *)
Lemma fetch_with_retry_within (P : request -> Prop) (client : AsyncClient)
    (url : string) (params : list (string * json)) (w : world) :
  P (get_request url params) ->
  within P 3 3 w (snd (fetch_with_retry client url params 3 w)).
Proof.
  intro HP.
  destruct (fetch_attempts_footprint client (get_request url params) 3 3 0 w
              ltac:(lia) ltac:(lia))
    as [k [naps [E [Hk [_ [Hlen [Hall Hbound]]]]]]].
  change (fetch_with_retry client url params 3 w)
    with (fetch_attempts client (get_request url params) 3 3 0 w).
  exists (repeat (get_request url params) k), naps.
  rewrite repeat_length. repeat split; try assumption.
  - apply Forall_forall. intros r Hr. now rewrite (repeat_spec _ _ _ Hr).
  - change (2 ^ 0) with 1 in Hbound.
    assert (C : (k = 0 \/ k = 1 \/ k = 2 \/ k = 3)%nat) by lia.
    destruct C as [-> | [-> | [-> | ->]]]; simpl in Hbound; lia.
Qed.

Section DispatcherMore.

Context {rt : PyRuntime}.
Variable OPENWEATHER_API_KEY : option string.

Lemma geocoding_request_openweather (location : string) :
  openweather_request OPENWEATHER_API_KEY
    (get_request (OPENWEATHER_GEO_URL ++ "/direct")
       (geocoding_params OPENWEATHER_API_KEY location)).
Proof. repeat split. now right. Qed.

Lemma coordinate_request_openweather (endpoint : string) (lat lon : json) :
  openweather_request OPENWEATHER_API_KEY
    (get_request (OPENWEATHER_BASE_URL ++ endpoint)
       (coordinate_params OPENWEATHER_API_KEY lat lon)).
Proof. repeat split. now left. Qed.

Lemma get_coordinates_within (location : string) (client : AsyncClient)
    (w : world) :
  within (openweather_request OPENWEATHER_API_KEY) 3 3 w
    (snd (get_coordinates OPENWEATHER_API_KEY location client w)).
Proof.
  unfold get_coordinates, bind, lift.
  destruct (coordinates_given location) as [[[lat lon]|]|e]; cbn [snd].
  - apply (within_weaken _ 0 3 0 3); [lia | lia | apply within_refl].
  - rewrite geocode_world. apply fetch_with_retry_within.
    apply geocoding_request_openweather.
  - apply (within_weaken _ 0 3 0 3); [lia | lia | apply within_refl].
Qed.

Lemma fetch_endpoint_within (client : AsyncClient) (endpoint : string)
    (lat lon : json) (w : world) :
  within (openweather_request OPENWEATHER_API_KEY) 3 3 w
    (snd (fetch_endpoint OPENWEATHER_API_KEY client endpoint lat lon w)).
Proof.
  unfold fetch_endpoint. apply fetch_with_retry_within.
  apply coordinate_request_openweather.
Qed.

(** What follows a fetch in a branch of [call_tool] leaves the world as the
    fetch left it. *)
Lemma report_world (m : M json) (report : json -> result string) (w : world) :
  snd ((data <- m ;;
        response_text <- lift (report data) ;;
        ret [{| type := "text"; text := response_text |}]) w)
  = snd (m w).
Proof.
  unfold bind, lift, ret. destruct (m w) as [[data|e] w1]; [|reflexivity].
  now destruct (report data).
Qed.

Lemma call_tool_body_within (tool location : string) (units : json)
    (client : AsyncClient) (w : world) :
  within (openweather_request OPENWEATHER_API_KEY) 6 6 w
    (snd (call_tool_body OPENWEATHER_API_KEY tool location units client w)).
Proof.
  pose proof (get_coordinates_within location client w) as Hg.
  unfold call_tool_body. unfold bind at 1.
  destruct (get_coordinates OPENWEATHER_API_KEY location client w)
    as [[[lat lon]|e] w1]; cbn [snd] in Hg |- *.
  2: { apply (within_weaken _ 3 6 3 6); [lia | lia | exact Hg]. }
  destruct (String.eqb tool "get_current_weather").
  { rewrite report_world.
    apply (within_trans _ 3 3 3 3 w w1); [exact Hg | apply fetch_endpoint_within]. }
  destruct (String.eqb tool "get_weather_forecast").
  { rewrite report_world.
    apply (within_trans _ 3 3 3 3 w w1); [exact Hg | apply fetch_endpoint_within]. }
  destruct (String.eqb tool "get_air_quality").
  { rewrite report_world.
    apply (within_trans _ 3 3 3 3 w w1); [exact Hg | apply fetch_endpoint_within]. }
  apply (within_weaken _ 3 6 3 6); [lia | lia | exact Hg].
Qed.

(** With a key and a location, [call_tool] is its [try] block under the two
    handlers. *)
Lemma call_tool_enters_try (tool : string) (arguments : list (string * json))
    (client : AsyncClient) (w : world) (location : string) :
  api_key_unset OPENWEATHER_API_KEY = false ->
  location_argument arguments = Some location ->
  location <> "" ->
  call_tool OPENWEATHER_API_KEY tool (JDict arguments) client w
  = try_except
      (call_tool_body OPENWEATHER_API_KEY tool location (units_argument arguments)
         client)
      (fun e => ret (text_result (error_text e))) w.
Proof.
  intros Hkey Hloc Hne. unfold call_tool. rewrite Hkey.
  assert (Estrip : rbind (py_get (JDict arguments) "location" (JStr "")) strip_method
                   = Ok location).
  { rewrite py_get_dict. cbn [rbind]. unfold location_argument in Hloc.
    destruct (dict_get "location" arguments) as [v|].
    - destruct v; try discriminate. simpl. now injection Hloc as ->.
    - simpl. now injection Hloc as ->. }
  unfold bind at 1 2. unfold lift at 1 2.
  rewrite py_get_dict in *. cbn [rbind] in Estrip. rewrite Estrip.
  apply String.eqb_neq in Hne. rewrite Hne.
  unfold bind, lift. rewrite py_get_dict. reflexivity.
Qed.

Lemma get_coordinates_given (location : string) (lat lon : float)
    (client : AsyncClient) (w : world) :
  coordinate_text location lat lon ->
  get_coordinates OPENWEATHER_API_KEY location client w
  = (Ok (JFloat lat, JFloat lon), w).
Proof.
  intro C. unfold get_coordinates, bind, lift.
  now rewrite (coordinates_given_some _ lat lon C).
Qed.

(** The [try] block for one of the three tools, once the location is
    resolved: the fetch of the tool's endpoint, then the tool's report. *)
Lemma call_tool_body_known (tool location endpoint : string) (units : json)
    (client : AsyncClient) (w w1 : world) (lat lon : json) :
  get_coordinates OPENWEATHER_API_KEY location client w = (Ok (lat, lon), w1) ->
  tool_endpoint tool = Some endpoint ->
  call_tool_body OPENWEATHER_API_KEY tool location units client w
  = (data <- fetch_endpoint OPENWEATHER_API_KEY client endpoint lat lon ;;
     response_text <- lift (tool_report tool data units) ;;
     ret [{| type := "text"; text := response_text |}]) w1.
Proof.
  intros Hg He. unfold call_tool_body. unfold bind at 1. rewrite Hg.
  unfold tool_endpoint, tool_report in *.
  destruct (String.eqb tool "get_current_weather");
    [injection He as <-; reflexivity|].
  destruct (String.eqb tool "get_weather_forecast");
    [injection He as <-; reflexivity|].
  destruct (String.eqb tool "get_air_quality");
    [injection He as <-; reflexivity | discriminate].
Qed.

(** X11. Each tool reads its own endpoint and applies its own formatter:
    with a key and a location that reads as coordinates, a 2xx answer to
    the one request for [/weather], [/forecast] or [/air_pollution], sent
    with [lat], [lon] and [appid], is given to the tool's formatter; the
    reply is the report, or the text of the error the formatter raised. *)
Theorem call_tool_routes (tool : string) (arguments : list (string * json))
    (client : AsyncClient) (w : world) (location endpoint : string)
    (lat lon : float) (status_code : Z) (reason : string) (data : json) :
  api_key_unset OPENWEATHER_API_KEY = false ->
  location_argument arguments = Some location ->
  coordinate_text location lat lon ->
  tool_endpoint tool = Some endpoint ->
  client (List.length (sent w))
    (get_request (OPENWEATHER_BASE_URL ++ endpoint)
       (coordinate_params OPENWEATHER_API_KEY (JFloat lat) (JFloat lon)))
  = Response status_code reason (Ok data) ->
  is_success status_code = true ->
  call_tool OPENWEATHER_API_KEY tool (JDict arguments) client w
  = (Ok (text_result
           match tool_report tool data (units_argument arguments) with
           | Ok report => report
           | Raise e => error_text e
           end),
     {| sent := (sent w
                 ++ [get_request (OPENWEATHER_BASE_URL ++ endpoint)
                       (coordinate_params OPENWEATHER_API_KEY
                          (JFloat lat) (JFloat lon))])%list;
        slept := slept w |}).
Proof.
  intros Hkey Hloc C He Hc Hs.
  assert (Hne : location <> "").
  { intros ->. destruct C as [p0 [p1 [rest [Hsplit _]]]]. discriminate Hsplit. }
  rewrite (call_tool_enters_try tool arguments client w location Hkey Hloc Hne).
  unfold try_except.
  rewrite (call_tool_body_known tool location endpoint _ client w w
             (JFloat lat) (JFloat lon)
             (get_coordinates_given location lat lon client w C) He).
  unfold bind at 1. unfold fetch_endpoint.
  change (fetch_with_retry client (OPENWEATHER_BASE_URL ++ endpoint)
            [("lat", JFloat lat); ("lon", JFloat lon);
             ("appid", api_key_json OPENWEATHER_API_KEY)] 3 w)
    with (fetch_attempts client
            (get_request (OPENWEATHER_BASE_URL ++ endpoint)
               (coordinate_params OPENWEATHER_API_KEY (JFloat lat) (JFloat lon)))
            3 3 0 w).
  rewrite (fetch_attempts_success client _ 3 2 0 w status_code reason (Ok data)
             Hc Hs).
  unfold bind, lift, ret.
  now destruct (tool_report tool data (units_argument arguments)).
Qed.

(** X12. A failure that is not retried is reported in the reply: with a key
    and a location that reads as coordinates, a 401, a 404, another status
    outside 2xx and 429, or a network error as the outcome of the first
    request makes [call_tool] return ["Error: "] followed by the
    fetcher's message, after this one request and no sleep. *)
Theorem call_tool_reports_failure (tool : string)
    (arguments : list (string * json)) (client : AsyncClient) (w : world)
    (location endpoint : string) (lat lon : float) (e : exn) :
  api_key_unset OPENWEATHER_API_KEY = false ->
  location_argument arguments = Some location ->
  coordinate_text location lat lon ->
  tool_endpoint tool = Some endpoint ->
  permanent_failure
    (client (List.length (sent w))
       (get_request (OPENWEATHER_BASE_URL ++ endpoint)
          (coordinate_params OPENWEATHER_API_KEY (JFloat lat) (JFloat lon))))
    e ->
  exists msg,
    e = WeatherAPIError msg
    /\ call_tool OPENWEATHER_API_KEY tool (JDict arguments) client w
       = (Ok (text_result ("Error: " ++ msg)),
          {| sent := (sent w
                      ++ [get_request (OPENWEATHER_BASE_URL ++ endpoint)
                            (coordinate_params OPENWEATHER_API_KEY
                               (JFloat lat) (JFloat lon))])%list;
             slept := slept w |}).
Proof.
  intros Hkey Hloc C He Hf.
  assert (Hne : location <> "").
  { intros ->. destruct C as [p0 [p1 [rest [Hsplit _]]]]. discriminate Hsplit. }
  assert (Hmsg : exists msg, e = WeatherAPIError msg).
  { inversion Hf; now eexists. }
  destruct Hmsg as [msg ->]. exists msg. split; [reflexivity|].
  rewrite (call_tool_enters_try tool arguments client w location Hkey Hloc Hne).
  unfold try_except.
  rewrite (call_tool_body_known tool location endpoint _ client w w
             (JFloat lat) (JFloat lon)
             (get_coordinates_given location lat lon client w C) He).
  unfold bind at 1. unfold fetch_endpoint.
  change (fetch_with_retry client (OPENWEATHER_BASE_URL ++ endpoint)
            [("lat", JFloat lat); ("lon", JFloat lon);
             ("appid", api_key_json OPENWEATHER_API_KEY)] 3 w)
    with (fetch_attempts client
            (get_request (OPENWEATHER_BASE_URL ++ endpoint)
               (coordinate_params OPENWEATHER_API_KEY (JFloat lat) (JFloat lon)))
            3 3 0 w).
  rewrite (fetch_attempts_permanent client _ 3 2 0 w _ Hf).
  reflexivity.
Qed.

(** X13. One call of a tool sends at most six requests and sleeps at most
    six seconds, whatever the upstream answers and whatever the arguments
    are: every request goes to one of the two OpenWeatherMap services with
    the configured key as [appid] and a timeout of ten seconds, and every
    sleep lasts at least one second. *)
Theorem call_tool_footprint (tool : string) (arguments : json)
    (client : AsyncClient) (w : world) :
  exists reqs naps,
    snd (call_tool OPENWEATHER_API_KEY tool arguments client w)
    = {| sent := (sent w ++ reqs)%list; slept := (slept w ++ naps)%list |}
    /\ (List.length reqs <= 6)%nat
    /\ Forall (openweather_request OPENWEATHER_API_KEY) reqs
    /\ Forall (fun nap => 1 <= nap) naps
    /\ fold_right Z.add 0 naps <= 6.
Proof.
  change (within (openweather_request OPENWEATHER_API_KEY) 6 6 w
            (snd (call_tool OPENWEATHER_API_KEY tool arguments client w))).
  assert (Still : within (openweather_request OPENWEATHER_API_KEY) 6 6 w w).
  { apply (within_weaken _ 0 6 0 6); [lia | lia | apply within_refl]. }
  unfold call_tool.
  destruct (api_key_unset OPENWEATHER_API_KEY); [exact Still|].
  unfold bind at 1. unfold lift at 1.
  destruct (py_get arguments "location" (JStr "")) as [given|e]; [|exact Still].
  unfold bind at 1. unfold lift at 1.
  destruct (strip_method given) as [location|e]; [|exact Still].
  destruct (String.eqb location ""); [exact Still|].
  unfold bind at 1. unfold lift at 1.
  destruct (py_get arguments "units" (JStr "celsius")) as [units|e]; [|exact Still].
  pose proof (call_tool_body_within tool location units client w) as Hb.
  unfold try_except.
  destruct (call_tool_body OPENWEATHER_API_KEY tool location units client w)
    as [[r|e] w1]; exact Hb.
Qed.

Lemma call_tool_body_air_quality_units (location : string) (units units' : json)
    (client : AsyncClient) :
  call_tool_body OPENWEATHER_API_KEY "get_air_quality" location units client
  = call_tool_body OPENWEATHER_API_KEY "get_air_quality" location units' client.
Proof. reflexivity. Qed.

(** X14. The air-quality tool does not read [units]: setting the argument
    to any value changes neither the reply nor the requests. *)
Theorem call_tool_air_quality_ignores_units (arguments : list (string * json))
    (units : json) (client : AsyncClient) (w : world) :
  call_tool OPENWEATHER_API_KEY "get_air_quality"
    (JDict (dict_set "units" units arguments)) client w
  = call_tool OPENWEATHER_API_KEY "get_air_quality" (JDict arguments) client w.
Proof.
  unfold call_tool.
  destruct (api_key_unset OPENWEATHER_API_KEY); [reflexivity|].
  rewrite !py_get_dict.
  rewrite (dict_get_set_other "units" "location" units arguments)
    by discriminate.
  unfold bind, lift.
  destruct (strip_method
              match dict_get "location" arguments with
              | Some x => x
              | None => JStr ""
              end) as [location|e]; [|reflexivity].
  destruct (String.eqb location ""); [reflexivity|].
  now rewrite (call_tool_body_air_quality_units location
                 match dict_get "units" (dict_set "units" units arguments) with
                 | Some x => x
                 | None => JStr "celsius"
                 end
                 match dict_get "units" arguments with
                 | Some x => x
                 | None => JStr "celsius"
                 end client).
Qed.

End DispatcherMore.

Lemma greenwich_coordinates : coordinate_text "51.5,-0.125" 51.5 (-0.125).
Proof. exists "51.5", "-0.125", []. repeat split; vm_compute; reflexivity. Qed.

Lemma call_tool_routes_witness :
  call_tool (rt := utc_machine) (Some "key") "get_air_quality"
    (JDict [("location", JStr " 51.5,-0.125 ")])
    (always (Response 200 "" (Ok air_sample))) fresh_world
  = (Ok (text_result
           match tool_report (rt := utc_machine) "get_air_quality" air_sample
                   (units_argument [("location", JStr " 51.5,-0.125 ")]) with
           | Ok report => report
           | Raise e => error_text e
           end),
     {| sent := [get_request (OPENWEATHER_BASE_URL ++ "/air_pollution")
                   (coordinate_params (Some "key") (JFloat 51.5) (JFloat (-0.125)))];
        slept := [] |}).
Proof.
  exact (call_tool_routes (rt := utc_machine) (Some "key") "get_air_quality"
           [("location", JStr " 51.5,-0.125 ")]
           (always (Response 200 "" (Ok air_sample))) fresh_world
           "51.5,-0.125" "/air_pollution" 51.5 (-0.125) 200 "" air_sample
           eq_refl eq_refl greenwich_coordinates eq_refl eq_refl eq_refl).
Defined.

Lemma call_tool_reports_failure_witness :
  exists msg,
    invalid_api_key = WeatherAPIError msg
    /\ call_tool (rt := utc_machine) (Some "key") "get_weather_forecast"
         (JDict [("location", JStr "51.5,-0.125")])
         (always (Response 401 "Unauthorized" (Ok JNull))) fresh_world
       = (Ok (text_result ("Error: " ++ msg)),
          {| sent := [get_request (OPENWEATHER_BASE_URL ++ "/forecast")
                        (coordinate_params (Some "key")
                           (JFloat 51.5) (JFloat (-0.125)))];
             slept := [] |}).
Proof.
  exact (call_tool_reports_failure (rt := utc_machine) (Some "key")
           "get_weather_forecast" [("location", JStr "51.5,-0.125")]
           (always (Response 401 "Unauthorized" (Ok JNull))) fresh_world
           "51.5,-0.125" "/forecast" 51.5 (-0.125) invalid_api_key
           eq_refl eq_refl greenwich_coordinates eq_refl
           (failure_401 "Unauthorized" (Ok JNull))).
Defined.

(* ================================================================== *)
(** ** More on the formatters *)

Lemma py_strip_notice (headline body : string) :
  starts_solid headline = true ->
  py_strip (headline ++ body ++ RATE_LIMIT_WARNING)
  = headline ++ body ++ RATE_LIMIT_WARNING.
Proof.
  destruct headline as [|a h]; [discriminate|]. intro Ha.
  assert (E : RATE_LIMIT_WARNING
              = "Note: OpenWeatherMap free tier allows 1,000 calls/day. Please use responsibly"
                ++ ".") by reflexivity.
  rewrite E.
  set (notice := "Note: OpenWeatherMap free tier allows 1,000 calls/day. Please use responsibly").
  change (String a h ++ body ++ notice ++ ".")
    with (String a (h ++ body ++ notice ++ ".")).
  replace (h ++ body ++ notice ++ ".")
    with ((h ++ body ++ notice) ++ String "." "")
    by (rewrite !append_assoc; reflexivity).
  now apply py_strip_solid.
Qed.

Lemma py_strip_leading_newline (s : string) : py_strip (nl ++ s) = py_strip s.
Proof. reflexivity. Qed.

Section Reports.

Context {rt : PyRuntime}.

Ltac step H x E :=
  cbv zeta in H;
  match type of H with
  | rbind ?r _ = _ => destruct r as [x|] eqn:E; cbn [rbind] in H; [|discriminate]
  end.

Lemma known_tool_cases (tool : string) :
  known_tool tool = true ->
  tool = "get_current_weather" \/ tool = "get_weather_forecast"
  \/ tool = "get_air_quality".
Proof.
  unfold known_tool. intro H.
  apply orb_prop in H as [H | H]; [apply orb_prop in H as [H | H]|];
    apply String.eqb_eq in H; auto.
Qed.

(** X15. Without data each formatter says so: a falsy payload (None, an
    empty mapping or list, 0, an empty string), or a mapping without the
    field the tool asks for first ([main] for the current weather, [list]
    for the forecast and the air quality), gives the tool's
    ["No ... data available."], whatever else the payload holds. *)
Theorem tool_report_no_data (tool : string) (data units : json) :
  known_tool tool = true ->
  lacks (tool_key tool) data ->
  tool_report tool data units = Ok (tool_no_data tool).
Proof.
  intros Hk Hl.
  assert (M : forall key,
             lacks key data ->
             (if negb (py_truthy data) then Ok true
              else let* present := py_in key data in Ok (negb present))
             = Ok true).
  { intros key [Hf | [d [-> Hd]]].
    - now rewrite Hf.
    - destruct d as [|item d']; [reflexivity|].
      cbn [py_truthy negb py_in]. now rewrite Hd. }
  destruct (known_tool_cases tool Hk) as [-> | [-> | ->]].
  - change (format_weather_response data units = Ok "No weather data available.").
    unfold format_weather_response. now rewrite (M "main" Hl).
  - change (format_forecast_response data units = Ok "No forecast data available.").
    unfold format_forecast_response. now rewrite (M "list" Hl).
  - change (format_air_quality_response data = Ok "No air quality data available.").
    unfold format_air_quality_response. change (lacks "list" data) in Hl.
    destruct Hl as [Hf | [d [-> Hd]]].
    + now rewrite Hf.
    + destruct d as [|item d']; [reflexivity|].
      cbn [py_truthy negb py_in]. now rewrite Hd.
Qed.

Lemma add_precipitation_prefix (data : json) (key label response : string) :
  add_precipitation data key label response
  = let* line := add_precipitation data key label "" in Ok (response ++ line).
Proof.
  unfold add_precipitation.
  destruct (py_get data key JNull) as [present|e]; cbn [rbind]; [|reflexivity].
  destruct (py_truthy present); cbn [rbind].
  - destruct (py_item data key) as [amounts|e]; cbn [rbind]; [|reflexivity].
    destruct (shown_field amounts "1h" (JInt 0)); reflexivity.
  - now rewrite append_nil_r.
Qed.

(** The current-weather report: headline, the fixed lines, then the lines
    the two precipitation fields add, a blank line and the notice. *)
Lemma format_weather_response_shape (data unit : json) (text : string) :
  format_weather_response data unit = Ok text ->
  ((py_truthy data = false \/ py_in "main" data = Ok false)
   /\ text = "No weather data available.")
  \/ exists main t temp opening lines rain snow,
       py_item data "main" = Ok main
       /\ py_get main "temp" (JInt 0) = Ok t
       /\ format_temperature t unit = Ok temp
       /\ add_precipitation data "rain" "🌧️ Rain (1h): " "" = Ok rain
       /\ add_precipitation data "snow" "❄️ Snow (1h): " "" = Ok snow
       /\ text = "🌍 Weather for " ++ opening
                 ++ "🌡️ Temperature: " ++ temp ++ nl ++ lines
                 ++ rain ++ snow ++ nl ++ RATE_LIMIT_WARNING.
Proof.
  intro H. unfold format_weather_response in H.
  step H missing Em. destruct missing.
  { left. apply Ok_inj in H. split; [|now symmetry].
    destruct (py_truthy data); [right | now left].
    cbn [negb] in Em. destruct (py_in "main" data) as [[|]|e]; now try discriminate. }
  right.
  step H main Emain. step H weather Eweather. step H wind Ewind.
  step H clouds Eclouds. step H t1 Et1. step H temp Etemp.
  step H t2 Et2. step H feels_like Efeels. step H t3 Et3.
  step H temp_min Emin. step H t4 Et4. step H temp_max Emax.
  step H name Ename. step H dt Edt. step H time Etime.
  step H condition Econd. step H description Edesc.
  step H humidity Ehum. step H pressure Epres. step H speed Espeed.
  step H deg Edeg. step H cloudiness Ecloud.
  step H r1 Er1. step H r2 Er2.
  rewrite add_precipitation_prefix in Er1, Er2.
  destruct (add_precipitation data "rain" "🌧️ Rain (1h): " "") as [rain|e];
    cbn [rbind] in Er1; [|discriminate].
  destruct (add_precipitation data "snow" "❄️ Snow (1h): " "") as [snow|e];
    cbn [rbind] in Er2; [|discriminate].
  apply Ok_inj in Er1. apply Ok_inj in Er2. apply Ok_inj in H.
  subst r2 r1 text.
  match goal with
  | |- context ["🌡️ Temperature: " ++ temp ++ nl ++ ?X] => set (lines := X)
  end.
  exists main, t1, temp,
    (name ++ nl ++ "📅 Time: " ++ strftime "%Y-%m-%d %H:%M:%S" time ++ nl ++ nl),
    lines, rain, snow.
  repeat (split; [first [assumption | reflexivity]|]).
  transitivity
    (py_strip (nl ++ "🌍 Weather for "
               ++ ((name ++ nl ++ "📅 Time: " ++ strftime "%Y-%m-%d %H:%M:%S" time
                    ++ nl ++ nl)
                   ++ "🌡️ Temperature: " ++ temp ++ nl ++ lines
                   ++ rain ++ snow ++ nl)
               ++ RATE_LIMIT_WARNING)).
  - f_equal. rewrite !append_assoc. reflexivity.
  - rewrite py_strip_leading_newline, py_strip_notice by reflexivity.
    rewrite !append_assoc. reflexivity.
Qed.

(** The forecast report: the two header lines, a blank line, the blocks of
    the entries and the notice. *)
Lemma format_forecast_response_shape (data unit : json) (text : string) :
  format_forecast_response data unit = Ok text ->
  ((py_truthy data = false \/ py_in "list" data = Ok false)
   /\ text = "No forecast data available.")
  \/ exists entries forecasts name lat lon blocks,
       py_get data "list" (JList []) = Ok entries
       /\ py_slice8 entries = Ok forecasts
       /\ Forall2 (fun forecast block => add_forecast unit "" forecast = Ok block)
            forecasts blocks
       /\ text = "🌍 5-Day Forecast for " ++ name ++ nl
                 ++ "📍 Coordinates: " ++ lat ++ ", " ++ lon ++ nl ++ nl
                 ++ String.concat "" blocks ++ RATE_LIMIT_WARNING.
Proof.
  intro H. unfold format_forecast_response in H.
  step H missing Em. destruct missing.
  { left. apply Ok_inj in H. split; [|now symmetry].
    destruct (py_truthy data); [right | now left].
    cbn [negb] in Em. destruct (py_in "list" data) as [[|]|e]; now try discriminate. }
  right.
  step H city Ecity. step H entries Eentries. step H forecasts Eforecasts.
  step H name Ename. step H coord Ecoord. step H lat Elat. step H lon Elon.
  step H response Eresponse.
  destruct (add_forecasts_blocks unit forecasts _ _ Eresponse) as [blocks [HF ->]].
  apply Ok_inj in H. subst text.
  exists entries, forecasts, name, lat, lon, blocks.
  split; [reflexivity|]. split; [exact Eforecasts|]. split; [exact HF|].
  transitivity
    (py_strip ("🌍 5-Day Forecast for "
               ++ (name ++ nl
                   ++ "📍 Coordinates: " ++ lat ++ ", " ++ lon
                   ++ nl ++ nl ++ String.concat "" blocks)
               ++ RATE_LIMIT_WARNING)).
  - f_equal. rewrite !append_assoc. reflexivity.
  - rewrite py_strip_notice by reflexivity. rewrite !append_assoc. reflexivity.
Qed.

(** The air-quality report: the headline with the index and its label, the
    details and the notice. *)
Lemma format_air_quality_response_shape (data : json) (text : string) :
  format_air_quality_response data = Ok text ->
  text = "No air quality data available."
  \/ exists body,
       text = "🌫️ Air Quality Index (AQI): " ++ body ++ RATE_LIMIT_WARNING.
Proof.
  intro H. unfold format_air_quality_response in H.
  step H missing Em. destruct missing.
  { left. now apply Ok_inj in H. }
  right.
  step H entries Eentries. step H aqi_data Eaqi. step H main Emain.
  step H components Ecomp. step H aqi_level Elevel. step H level Eshown.
  step H label Elabel. step H stamp Estamp. step H time Etime.
  step H co Eco. step H no Eno. step H no2 Eno2. step H o3 Eo3.
  step H so2 Eso2. step H pm2_5 Epm2_5. step H pm10 Epm10. step H nh3 Enh3.
  cbv zeta in H. apply Ok_inj in H. subst text.
  exists (level ++ " - " ++ label ++ nl
          ++ "📅 Time: " ++ strftime "%Y-%m-%d %H:%M:%S" time ++ nl
          ++ nl
          ++ "Components (μg/m³):" ++ nl
          ++ "  CO (Carbon monoxide): " ++ co ++ nl
          ++ "  NO (Nitrogen monoxide): " ++ no ++ nl
          ++ "  NO₂ (Nitrogen dioxide): " ++ no2 ++ nl
          ++ "  O₃ (Ozone): " ++ o3 ++ nl
          ++ "  SO₂ (Sulphur dioxide): " ++ so2 ++ nl
          ++ "  PM2.5 (Fine particles): " ++ pm2_5 ++ nl
          ++ "  PM10 (Coarse particles): " ++ pm10 ++ nl
          ++ "  NH₃ (Ammonia): " ++ nh3 ++ nl
          ++ nl).
  match goal with
  | |- _ = _ ++ ?body ++ _ => set (b := body)
  end.
  transitivity
    (py_strip (nl ++ "🌫️ Air Quality Index (AQI): " ++ b
               ++ RATE_LIMIT_WARNING ++ nl)).
  - f_equal. unfold b. rewrite !append_assoc. reflexivity.
  - now rewrite py_strip_report.
Qed.

(** X16. Every report a formatter returns is framed: it is the tool's
    ["No ... data available."], or it opens with the tool's headline and
    closes with the notice about the free tier, with no blank space before
    or after. *)
Theorem tool_report_framed (tool : string) (data units : json) (text : string) :
  known_tool tool = true ->
  tool_report tool data units = Ok text ->
  text = tool_no_data tool
  \/ exists body, text = tool_headline tool ++ body ++ RATE_LIMIT_WARNING.
Proof.
  intros Hk H.
  destruct (known_tool_cases tool Hk) as [-> | [-> | ->]].
  - change (format_weather_response data units = Ok text) in H.
    destruct (format_weather_response_shape data units text H)
      as [[_ ->]
         | [main [t [temp [opening [lines [rain [snow [_ [_ [_ [_ [_ ->]]]]]]]]]]]]];
      [now left|].
    right.
    exists (opening ++ "🌡️ Temperature: " ++ temp ++ nl ++ lines
            ++ rain ++ snow ++ nl).
    change (tool_headline "get_current_weather") with "🌍 Weather for ".
    rewrite !append_assoc. reflexivity.
  - change (format_forecast_response data units = Ok text) in H.
    destruct (format_forecast_response_shape data units text H)
      as [[_ ->] | [entries [forecasts [name [lat [lon [blocks [_ [_ [_ ->]]]]]]]]]];
      [now left|].
    right.
    exists (name ++ nl ++ "📍 Coordinates: " ++ lat ++ ", " ++ lon ++ nl ++ nl
            ++ String.concat "" blocks).
    change (tool_headline "get_weather_forecast") with "🌍 5-Day Forecast for ".
    rewrite !append_assoc. reflexivity.
  - change (format_air_quality_response data = Ok text) in H.
    destruct (format_air_quality_response_shape data text H) as [-> | [body ->]];
      [now left | right; now exists body].
Qed.

Lemma add_precipitation_line (d amounts : list (string * json))
    (key label : string) :
  dict_get key d = Some (JDict amounts) ->
  amounts <> [] ->
  add_precipitation (JDict d) key label ""
  = let* amount :=
      py_str match dict_get "1h" amounts with Some a => a | None => JInt 0 end in
    Ok (label ++ amount ++ " mm" ++ nl).
Proof.
  intros Hd Hne. unfold add_precipitation. rewrite py_get_dict, Hd.
  destruct amounts as [|item rest]; [congruence|].
  cbn [rbind py_truthy py_item]. rewrite Hd. cbn [rbind].
  unfold shown_field. rewrite py_get_dict. reflexivity.
Qed.

(** X17. Rain and snow are reported when present: in a current-weather
    payload with [main], a [rain] (or [snow]) field that is a non-empty
    mapping adds the line ["Rain (1h): <amount> mm"] (or
    ["Snow (1h): ..."]) to the report, where the amount is the field's
    [1h] entry, or 0 when it has none, as [str] shows it. *)
Theorem format_weather_response_precipitation (d amounts : list (string * json))
    (main unit : json) (key label text : string) :
  In (key, label) precipitation_lines ->
  dict_get "main" d = Some main ->
  dict_get key d = Some (JDict amounts) ->
  amounts <> [] ->
  format_weather_response (JDict d) unit = Ok text ->
  exists amount,
    py_str match dict_get "1h" amounts with Some a => a | None => JInt 0 end
    = Ok amount
    /\ contains_text (label ++ amount ++ " mm" ++ nl) text.
Proof.
  intros Hin Hmain Hkey Hne H.
  destruct (format_weather_response_shape (JDict d) unit text H)
    as [[[Hf | Hi] _]
       | [m [t [temp [opening [lines [rain [snow [_ [_ [_ [Er [Es ->]]]]]]]]]]]]].
  - destruct d; discriminate.
  - cbn [py_in] in Hi. rewrite Hmain in Hi. discriminate.
  - destruct Hin as [E | [E | []]]; injection E as <- <-.
    + rewrite (add_precipitation_line d amounts _ _ Hkey Hne) in Er.
      destruct (py_str match dict_get "1h" amounts with
                       | Some a => a
                       | None => JInt 0
                       end) as [amount|e]; cbn [rbind] in Er; [|discriminate].
      apply Ok_inj in Er. subst rain. exists amount. split; [reflexivity|].
      exists ("🌍 Weather for " ++ opening ++ "🌡️ Temperature: " ++ temp ++ nl
              ++ lines),
        (snow ++ nl ++ RATE_LIMIT_WARNING).
      rewrite !append_assoc. reflexivity.
    + rewrite (add_precipitation_line d amounts _ _ Hkey Hne) in Es.
      destruct (py_str match dict_get "1h" amounts with
                       | Some a => a
                       | None => JInt 0
                       end) as [amount|e]; cbn [rbind] in Es; [|discriminate].
      apply Ok_inj in Es. subst snow. exists amount. split; [reflexivity|].
      exists ("🌍 Weather for " ++ opening ++ "🌡️ Temperature: " ++ temp ++ nl
              ++ lines ++ rain),
        (nl ++ RATE_LIMIT_WARNING).
      rewrite !append_assoc. reflexivity.
Qed.

(** X18. An empty [list] is no data for the air quality but an empty
    forecast: the air-quality formatter answers
    ["No air quality data available."], while the forecast formatter, when
    it returns, gives the two header lines followed by the notice. *)
Theorem formatters_on_empty_list (d : list (string * json)) (unit : json) :
  dict_get "list" d = Some (JList []) ->
  format_air_quality_response (JDict d) = Ok "No air quality data available."
  /\ (forall text,
        format_forecast_response (JDict d) unit = Ok text ->
        exists name lat lon,
          text = "🌍 5-Day Forecast for " ++ name ++ nl
                 ++ "📍 Coordinates: " ++ lat ++ ", " ++ lon ++ nl ++ nl
                 ++ RATE_LIMIT_WARNING).
Proof.
  intro Hl. split.
  - unfold format_air_quality_response.
    destruct d as [|item d']; [discriminate|].
    cbn [py_truthy negb py_in py_item]. rewrite Hl. reflexivity.
  - intros text H.
    destruct (format_forecast_response_shape (JDict d) unit text H)
      as [[[Hf | Hi] _]
         | [entries [forecasts [name [lat [lon [blocks [Ee [Ef [HF ->]]]]]]]]]].
    + destruct d; discriminate.
    + cbn [py_in] in Hi. rewrite Hl in Hi. discriminate.
    + rewrite py_get_dict, Hl in Ee. apply Ok_inj in Ee. subst entries.
      apply Ok_inj in Ef. subst forecasts. inversion HF. subst blocks.
      now exists name, lat, lon.
Qed.

End Reports.

Lemma tool_report_no_data_witness :
  tool_report (rt := utc_machine) "get_weather_forecast"
    (JDict [("cod", JStr "200")]) (JStr "celsius")
  = Ok (tool_no_data "get_weather_forecast").
Proof.
  apply (tool_report_no_data (rt := utc_machine) "get_weather_forecast"
           (JDict [("cod", JStr "200")]) (JStr "celsius")).
  - reflexivity.
  - right. exists [("cod", JStr "200")]. split; reflexivity.
Defined.

Lemma tool_report_framed_witness :
  report_or_empty
    (tool_report (rt := utc_machine) "get_current_weather" mild_day (JStr "celsius"))
  = tool_no_data "get_current_weather"
  \/ exists body,
       report_or_empty
         (tool_report (rt := utc_machine) "get_current_weather" mild_day
            (JStr "celsius"))
       = tool_headline "get_current_weather" ++ body ++ RATE_LIMIT_WARNING.
Proof.
  apply (tool_report_framed (rt := utc_machine) "get_current_weather" mild_day
           (JStr "celsius")).
  - reflexivity.
  - vm_compute. reflexivity.
Defined.

Lemma format_weather_response_precipitation_witness :
  exists amount,
    py_str (rt := utc_machine) (JFloat 2.5) = Ok amount
    /\ contains_text
         ("🌧️ Rain (1h): " ++ amount ++ " mm" ++ nl)
         (report_or_empty
            (format_weather_response (rt := utc_machine) (JDict rainy_day)
               (JStr "celsius"))).
Proof.
  apply (format_weather_response_precipitation (rt := utc_machine) rainy_day
           [("1h", JFloat 2.5)] (JDict [("temp", JFloat 285.15)]) (JStr "celsius")
           "rain" "🌧️ Rain (1h): ").
  - left. reflexivity.
  - reflexivity.
  - reflexivity.
  - discriminate.
  - vm_compute. reflexivity.
Defined.

Lemma formatters_on_empty_list_witness :
  format_air_quality_response (rt := utc_machine) (JDict [("list", JList [])])
  = Ok "No air quality data available."
  /\ (forall text,
        format_forecast_response (rt := utc_machine) (JDict [("list", JList [])])
          (JStr "celsius") = Ok text ->
        exists name lat lon,
          text = "🌍 5-Day Forecast for " ++ name ++ nl
                 ++ "📍 Coordinates: " ++ lat ++ ", " ++ lon ++ nl ++ nl
                 ++ RATE_LIMIT_WARNING).
Proof.
  exact (formatters_on_empty_list (rt := utc_machine) [("list", JList [])]
           (JStr "celsius") eq_refl).
Defined.

(* ================================================================== *)
(** ** More on format_temperature *)

Lemma scaled_round_nonneg (m : positive) (e : Z) (p : nat) :
  0 <= scaled_round m e p.
Proof.
  unfold scaled_round. destruct (0 <=? e) eqn:E.
  - apply Z.leb_le in E.
    apply Z.mul_nonneg_nonneg; [apply Z.mul_nonneg_nonneg|]; try lia;
      apply Z.pow_nonneg; lia.
  - apply Z.leb_gt in E. unfold round_half_even.
    assert (Hb : 0 < 2 ^ (- e)) by (apply Z.pow_pos_nonneg; lia).
    assert (Ha : 0 <= Zpos m * 10 ^ Z.of_nat p).
    { apply Z.mul_nonneg_nonneg; [lia | apply Z.pow_nonneg; lia]. }
    pose proof (Z.div_pos _ _ Ha Hb) as Hq.
    destruct (2 * ((Zpos m * 10 ^ Z.of_nat p) mod 2 ^ (- e)) ?= 2 ^ (- e));
      [destruct (Z.even _)| |]; lia.
Qed.

Lemma zero_pad_digit (d : Z) : 0 <= d < 10 -> zero_pad 1 d = str_of_Z d.
Proof.
  intro H.
  assert (C : d = 0 \/ d = 1 \/ d = 2 \/ d = 3 \/ d = 4 \/ d = 5 \/ d = 6
              \/ d = 7 \/ d = 8 \/ d = 9) by lia.
  repeat destruct C as [-> | C]; try subst d; reflexivity.
Qed.

(** With one decimal [fmt_f] shows the sign, the tenths divided by ten, a
    point and one digit. *)
Lemma fmt_f_1_finite (x : float) (s : bool) (m : positive) (e : Z) :
  Prim2SF x = S754_finite s m e ->
  fmt_f 1 x
  = sign_text s ++ str_of_Z (scaled_round m e 1 / 10) ++ "."
    ++ str_of_Z (scaled_round m e 1 mod 10).
Proof.
  intro H. rewrite (fmt_f_finite 1 x s m e H).
  change (10 ^ Z.of_nat 1) with 10.
  now rewrite zero_pad_digit by (apply Z.mod_pos_bound; lia).
Qed.

(** X19. A temperature is shown to the nearest tenth: when the converted
    reading is the finite float [(-1)^s * m * 2^e], the text is its sign,
    the integer part, a point and exactly one digit, followed by the unit's
    suffix, where the number of tenths [n] shown is the value itself when it
    is an integer and otherwise within half a tenth of it. *)
Theorem format_temperature_nearest_tenth (kelvin : float) (unit : json)
    (s : bool) (m : positive) (e : Z) :
  Prim2SF (shown_temperature kelvin unit) = S754_finite s m e ->
  exists n,
    0 <= n
    /\ format_temperature (JFloat kelvin) unit
       = Ok (sign_text s ++ str_of_Z (n / 10) ++ "." ++ str_of_Z (n mod 10)
             ++ unit_suffix unit)
    /\ (0 <= e -> n = Zpos m * 2 ^ e * 10)
    /\ (e < 0 -> Z.abs (2 * (2 ^ (- e) * n - Zpos m * 10)) <= 2 ^ (- e)).
Proof.
  intro H. exists (scaled_round m e 1).
  split; [apply scaled_round_nonneg|]. split.
  - unfold format_temperature, shown_temperature, unit_suffix in *.
    destruct (py_eq_str unit "fahrenheit").
    + cbn [py_sub_float as_number rbind].
      rewrite (fmt_f_1_finite _ s m e H). now rewrite !append_assoc.
    + destruct (py_eq_str unit "kelvin").
      * cbn [py_format_f as_number rbind].
        rewrite (fmt_f_1_finite _ s m e H). now rewrite !append_assoc.
      * cbn [py_sub_float as_number rbind].
        rewrite (fmt_f_1_finite _ s m e H). now rewrite !append_assoc.
  - exact (scaled_round_nearest m e 1).
Qed.

Lemma format_temperature_nearest_tenth_witness :
  exists n,
    0 <= n
    /\ format_temperature (JFloat 293.15) (JStr "celsius")
       = Ok (sign_text false ++ str_of_Z (n / 10) ++ "." ++ str_of_Z (n mod 10)
             ++ unit_suffix (JStr "celsius"))
    /\ (0 <= -48 -> n = 5629499534213120 * 2 ^ (-48) * 10)
    /\ (-48 < 0 ->
        Z.abs (2 * (2 ^ (- (-48)) * n - 5629499534213120 * 10)) <= 2 ^ (- (-48))).
Proof.
  apply (format_temperature_nearest_tenth 293.15 (JStr "celsius") false
           5629499534213120 (-48)).
  vm_compute. reflexivity.
Defined.

(* ================================================================== *)
(** ** list_tools *)

(** X20. The tools advertised are the tools dispatched: a name is listed by
    [list_tools] exactly when [call_tool] has a branch for it; every listed
    tool requires [location] and nothing else; a tool declares no [units]
    argument exactly when it is the air-quality tool; and the default a
    schema declares for [units] is the one [call_tool] applies. *)
Theorem list_tools_matches_call_tool :
  (forall tool, In tool (map Tool.name list_tools) <-> known_tool tool = true)
  /\ Forall (fun t => schema_required t = Some (JList [JStr "location"])) list_tools
  /\ (forall t, In t list_tools ->
        (schema_property t "units" = None <-> Tool.name t = "get_air_quality"))
  /\ (forall t default, In t list_tools ->
        schema_entry t "units" "default" = Some default ->
        default = units_argument []).
Proof.
  split; [|split; [|split]].
  - intro tool. split.
    + intros [<- | [<- | [<- | []]]]; reflexivity.
    + intro H. destruct (known_tool_cases tool H) as [-> | [-> | ->]]; simpl; auto.
  - repeat constructor.
  - intros t [<- | [<- | [<- | []]]]; split; intro H;
      solve [discriminate H | reflexivity].
  - intros t default [<- | [<- | [<- | []]]] H;
      solve [discriminate H | injection H as <-; reflexivity].
Qed.

(* ================================================================== *)
(** ** Local time of a provider's timestamp *)

Lemma year_of_era_bounds (doe : Z) :
  0 <= doe < 146097 ->
  0 <= year_of_era doe <= 400 /\ (doe <= 146036 -> year_of_era doe <= 399).
Proof.
  intro H. unfold year_of_era. cbv zeta.
  set (yoe := (doe - doe / 1460 + doe / 36524 - doe / 146096) / 365).
  assert (Hyoe : 0 <= yoe <= 399).
  { unfold yoe. Z.div_mod_to_equations. lia. }
  set (doy := doe - (365 * yoe + yoe / 4 - yoe / 100)).
  set (mp := (5 * doy + 2) / 153).
  split.
  - destruct ((if mp <? 10 then mp + 3 else mp - 9) <=? 2); lia.
  - intro Hd.
    destruct (Z.eq_dec yoe 399) as [E|E].
    + assert (Hdoy : 0 <= doy <= 305).
      { unfold doy. rewrite E. change (399 / 4) with 99. change (399 / 100) with 3.
        unfold yoe in E. Z.div_mod_to_equations. lia. }
      assert (Hmp : 0 <= mp <= 9).
      { unfold mp. Z.div_mod_to_equations. lia. }
      assert (Em : (mp <? 10) = true) by (apply Z.ltb_lt; lia).
      rewrite Em.
      assert (E2 : (mp + 3 <=? 2) = false) by (apply Z.leb_gt; lia).
      rewrite E2. lia.
    + destruct ((if mp <? 10 then mp + 3 else mp - 9) <=? 2); lia.
Qed.

Lemma civil_year (days : Z) :
  fst (fst (civil_from_days days))
  = year_of_era (days + 719468 - (days + 719468) / 146097 * 146097)
    + (days + 719468) / 146097 * 400.
Proof.
  unfold civil_from_days, year_of_era. cbv zeta. cbn [fst].
  apply Z.add_shuffle0.
Qed.

(** From four days before 1970 to the end of 9999 the year is within what a
    [datetime] holds. *)
Lemma local_year_bounds (local : Z) :
  -345600 <= local <= 253402300799 ->
  1 <= fst (fst (civil_from_days (local / 86400))) <= 9999.
Proof.
  intro H. rewrite civil_year.
  set (days := local / 86400).
  assert (Hd : -4 <= days <= 2932896).
  { unfold days. Z.div_mod_to_equations. lia. }
  set (z := days + 719468).
  assert (Hz : 719464 <= z <= 3652364) by (unfold z; lia).
  pose proof (Z.div_mod z 146097 ltac:(lia)) as Hdm.
  pose proof (Z.mod_pos_bound z 146097 ltac:(lia)) as Hm.
  set (era := z / 146097) in *.
  assert (He : 4 <= era <= 24) by lia.
  assert (Hdoe : 0 <= z - era * 146097 < 146097) by lia.
  destruct (year_of_era_bounds _ Hdoe) as [[Hy0 Hy1] Hy2].
  split; [lia|].
  destruct (Z.eq_dec era 24) as [E|E].
  - assert (z - era * 146097 <= 146036) by lia.
    specialize (Hy2 ltac:(assumption)). lia.
  - lia.
Qed.

Section LocalTime.

Context {rt : PyRuntime}.

(** Local time is less than a day away from UTC. *)
Hypothesis offset_within_a_day : forall t, -86400 < utcoffset t < 86400.

Lemma local_time_ok (t : Z) :
  -259200 <= t <= 253402214399 -> exists tm, local_time t = Ok tm.
Proof.
  intro H. pose proof (offset_within_a_day t) as Ho.
  assert (Hb : -345600 <= t + utcoffset t <= 253402300799).
  { lia. }
  pose proof (local_year_bounds (t + utcoffset t) Hb) as Hy.
  unfold local_time, localtime.
  destruct (civil_from_days ((t + utcoffset t) / 86400)) as [[y m] d].
  cbn [fst] in Hy.
  change (- 2 ^ 31) with (-2147483648). change (2 ^ 31) with 2147483648.
  assert (E1 : (- 2147483648 <=? y - 1900) && (y - 1900 <? 2147483648) = true).
  { apply andb_true_intro. split; [apply Z.leb_le | apply Z.ltb_lt]; lia. }
  rewrite E1. cbn [rbind year].
  assert (E2 : wrap_int y = y).
  { unfold wrap_int. change (2 ^ 31) with 2147483648.
    change (2 ^ 32) with 4294967296. rewrite Z.mod_small; lia. }
  rewrite E2.
  assert (E3 : (1 <=? y) && (y <=? 9999) = true).
  { apply andb_true_intro. split; apply Z.leb_le; lia. }
  rewrite E3. now eexists.
Qed.

(** [datetime.fromtimestamp] accepts every timestamp of the provider. *)
Lemma fromtimestamp_ok (v : json) :
  is_timestamp v = true -> exists tm, fromtimestamp v = Ok tm.
Proof.
  destruct v as [| |t| | | |]; try discriminate. cbn [is_timestamp]. intro H.
  apply andb_prop in H as [H0 H1]. apply Z.leb_le in H0. apply Z.leb_le in H1.
  unfold fromtimestamp, timestamp_seconds. cbn [as_number].
  assert (E : (t <? - 2 ^ 63) || (2 ^ 63 <=? t) = false).
  { change (- 2 ^ 63) with (-9223372036854775808).
    change (2 ^ 63) with 9223372036854775808.
    apply orb_false_intro; [apply Z.ltb_ge | apply Z.leb_gt]; lia. }
  rewrite E. cbn [rbind]. unfold max_fold_seconds. change (24 * 3600) with 86400.
  assert (B1 : -259200 <= t <= 253402214399) by lia.
  assert (B2 : -259200 <= t - 86400 <= 253402214399) by lia.
  destruct (local_time_ok t B1) as [tm ->]. cbn [rbind].
  destruct (local_time_ok (t - 86400) B2) as [probe ->]. cbn [rbind].
  pose proof (offset_within_a_day t) as Ho.
  pose proof (offset_within_a_day (t - 86400)) as Ho'.
  destruct (utcoffset t - utcoffset (t - 86400) <? 0) eqn:Et; [|now eexists].
  apply Z.ltb_lt in Et.
  assert (B3 : -259200 <= t + (utcoffset t - utcoffset (t - 86400))
               <= 253402214399) by lia.
  destruct (local_time_ok _ B3) as [before ->].
  now eexists.
Qed.

End LocalTime.

(* ================================================================== *)
(** ** The formatters on well-formed payloads *)

Lemma ok_text (r : result string) :
  (exists text, r = Ok text) -> r = Ok (report_or_empty r).
Proof. intros [text ->]. reflexivity. Qed.

Lemma py_get_field (d : list (string * json)) (k : string) (default : json) :
  py_get (JDict d) k default = Ok (field d k default).
Proof. reflexivity. Qed.

Lemma py_sub_float_ok (v : json) (c : float) :
  is_number v = true -> exists x, py_sub_float v c = Ok x.
Proof.
  unfold is_number, py_sub_float. intro H.
  destruct (as_number v) as [[z|f]|]; [|now eexists|discriminate].
  destruct (is_ok_true _ H) as [x ->]. now eexists.
Qed.

Lemma py_format_f_ok (p : nat) (v : json) :
  is_number v = true -> exists shown, py_format_f p v = Ok shown.
Proof.
  unfold is_number, py_format_f. intro H.
  destruct v; try discriminate; simpl in *;
    try (destruct (is_ok_true _ H) as [x ->]); now eexists.
Qed.

Lemma format_temperature_ok (v unit : json) :
  is_number v = true -> exists shown, format_temperature v unit = Ok shown.
Proof.
  intro H. unfold format_temperature.
  destruct (py_sub_float_ok v 273.15 H) as [c Ec].
  destruct (py_format_f_ok 1 v H) as [k Ek].
  rewrite Ec, Ek. simpl.
  destruct (py_eq_str unit "fahrenheit"); [now eexists|].
  destruct (py_eq_str unit "kelvin"); now eexists.
Qed.

Lemma is_number_0 : is_number (JInt 0) = true.
Proof. vm_compute. reflexivity. Qed.

Lemma float_of_100 : float_of_Z 100 = Ok 100%float.
Proof. vm_compute. reflexivity. Qed.

(** A fraction times 100 can be shown with no decimals. *)
Lemma fraction_shown (v : json) :
  is_fraction v = true ->
  exists percent shown,
    py_mul_int v 100 = Ok percent /\ py_format_f 0 percent = Ok shown.
Proof.
  unfold is_fraction. intro H.
  destruct v; try discriminate; simpl in H.
  - destruct (is_ok_true _ H) as [x E].
    exists (JInt ((if b then 1 else 0) * 100)). unfold py_format_f. simpl.
    rewrite E. now eexists.
  - destruct (is_ok_true _ H) as [x E].
    exists (JInt (z * 100)). unfold py_format_f. simpl. rewrite E. now eexists.
  - unfold py_mul_int. rewrite float_of_100. simpl. now do 2 eexists.
Qed.

(** The table of the code is the table of the specification. *)
Lemma aqi_label_int (z : Z) : aqi_label (JInt z) = Ok (spec_label z).
Proof.
  unfold aqi_label, int_key, spec_label, aqi_labels, labels_get.
  cbn [rbind]. rewrite !(Z.eqb_sym _ z).
  destruct (z =? 1); [reflexivity|]. destruct (z =? 2); [reflexivity|].
  destruct (z =? 3); [reflexivity|]. destruct (z =? 4); [reflexivity|].
  destruct (z =? 5); reflexivity.
Qed.

Lemma spec_label_unknown (z : Z) : z < 1 \/ 5 < z -> spec_label z = "Unknown".
Proof.
  intro H. unfold spec_label.
  destruct (Z.eqb_spec z 1); [lia|]. destruct (Z.eqb_spec z 2); [lia|].
  destruct (Z.eqb_spec z 3); [lia|]. destruct (Z.eqb_spec z 4); [lia|].
  destruct (Z.eqb_spec z 5); [lia|]. reflexivity.
Qed.

Lemma submap_ok (d : list (string * json)) (k : string)
    (P : list (string * json) -> bool) :
  optional d k (dict_of P) = true -> P [] = true ->
  field d k (JDict []) = JDict (submap d k) /\ P (submap d k) = true.
Proof.
  unfold optional, field, submap, dict_of. intros H H0.
  destruct (dict_get k d) as [v|]; [|now split].
  destruct v; try discriminate H. now split.
Qed.

Section Payloads.

Context {rt : PyRuntime}.
Hypothesis offset_within_a_day : forall t, -86400 < utcoffset t < 86400.

Lemma py_str_shown (v : json) : is_shown v = true -> py_str v = Ok (str_text v).
Proof.
  intro H. unfold str_text. apply ok_text.
  destruct v; try discriminate; cbn [py_str py_repr]; try now eexists.
  unfold int_str. cbn [is_shown] in H. rewrite H. now eexists.
Qed.

Lemma shown_field_ok (d : list (string * json)) (k : string) (default : json) :
  optional d k is_shown = true -> is_shown default = true ->
  shown_field (JDict d) k default = Ok (str_text (field d k default)).
Proof.
  intros H Hd. unfold shown_field. rewrite py_get_field. cbn [rbind].
  apply py_str_shown. unfold optional in H. unfold field.
  destruct (dict_get k d); assumption.
Qed.

Lemma temperature_field_ok (m : list (string * json)) (k : string) (unit : json) :
  optional m k is_number = true ->
  format_temperature (field m k (JInt 0)) unit
  = Ok (temperature_text unit (field m k (JInt 0))).
Proof.
  intro H. unfold temperature_text. apply ok_text, format_temperature_ok.
  unfold optional in H. unfold field.
  destruct (dict_get k m); [assumption | apply is_number_0].
Qed.

Lemma component_ok (c : list (string * json)) (k : string) :
  optional c k is_number = true ->
  component (JDict c) k = Ok (decimals 2 (field c k (JInt 0))).
Proof.
  intro H. unfold component. rewrite py_get_field. cbn [rbind].
  unfold decimals. apply ok_text, py_format_f_ok.
  unfold optional in H. unfold field.
  destruct (dict_get k c); [assumption | apply is_number_0].
Qed.

Lemma percent_field_ok (e : list (string * json)) :
  optional e "pop" is_fraction = true ->
  (let* percent := py_mul_int (field e "pop" (JInt 0)) 100 in
   py_format_f 0 percent)
  = Ok (percent_text (field e "pop" (JInt 0))).
Proof.
  intro H. unfold percent_text. apply ok_text.
  assert (F : is_fraction (field e "pop" (JInt 0)) = true).
  { unfold optional in H. unfold field.
    destruct (dict_get "pop" e); [assumption | vm_compute; reflexivity]. }
  destruct (fraction_shown _ F) as [percent [text [E1 E2]]].
  rewrite E1. cbn [rbind]. now exists text.
Qed.

Lemma time_field_ok (d : list (string * json)) (k : string) :
  optional d k is_timestamp = true ->
  exists t,
    fromtimestamp (field d k (JInt 0)) = Ok t
    /\ forall fmt, time_text fmt (field d k (JInt 0)) = strftime fmt t.
Proof.
  intro H.
  assert (T : is_timestamp (field d k (JInt 0)) = true).
  { unfold optional in H. unfold field.
    destruct (dict_get k d); [assumption | reflexivity]. }
  destruct (fromtimestamp_ok offset_within_a_day _ T) as [t E].
  exists t. split; [exact E|]. intro fmt. unfold time_text. now rewrite E.
Qed.

Lemma first_condition_ok (d : list (string * json)) :
  optional d "weather" is_condition_list = true ->
  first_or_empty (JDict d) "weather" = Ok (JDict (first_condition d))
  /\ optional (first_condition d) "main" is_shown = true
  /\ optional (first_condition d) "description" is_shown = true.
Proof.
  unfold optional at 1. unfold first_or_empty, first_condition.
  rewrite py_get_dict. cbn [rbind]. unfold py_item.
  destruct (dict_get "weather" d) as [v|]; [|intros _; now repeat split].
  destruct v as [| | | | |l|]; try discriminate.
  destruct l as [|first rest]; [intros _; now repeat split|].
  destruct first as [| | | | | |c]; try discriminate.
  cbn [is_condition_list py_truthy rbind py_item0]. intro H.
  apply andb_prop in H as [H1 H2]. now repeat split.
Qed.

Lemma add_precipitation_ok (d : list (string * json)) (k label response : string) :
  optional d k is_amounts = true ->
  add_precipitation (JDict d) k label response
  = Ok (response ++ precipitation_line d k label).
Proof.
  unfold optional, add_precipitation, precipitation_line.
  rewrite py_get_dict. cbn [rbind]. unfold py_item.
  destruct (dict_get k d) as [v|];
    [|intros _; cbn [py_truthy]; now rewrite append_nil_r].
  destruct v as [| | | | | |a]; try discriminate.
  destruct a as [|item rest];
    [intros _; cbn [py_truthy]; now rewrite append_nil_r|].
  cbn [is_amounts dict_of py_truthy rbind]. intro H.
  rewrite (shown_field_ok (item :: rest) "1h" (JInt 0) H eq_refl).
  reflexivity.
Qed.

Ltac split_wf H :=
  repeat match type of H with
         | (_ && _) = true =>
             let H' := fresh "W" in
             apply andb_prop in H; destruct H as [H H']
         end.

(** On a well-formed payload the current-weather formatter returns the
    report with every absent field at its default. *)
Lemma format_weather_response_wf (d : list (string * json)) (unit : json) :
  wf_weather (JDict d) = true ->
  format_weather_response (JDict d) unit
  = Ok match dict_get "main" d with
       | Some _ => weather_report d unit
       | None => "No weather data available."
       end.
Proof.
  unfold wf_weather, dict_of. intro H. split_wf H.
  unfold format_weather_response.
  destruct d as [|item d']; [reflexivity|].
  remember (item :: d') as dd eqn:Edd.
  assert (T : py_truthy (JDict dd) = true) by now subst dd.
  rewrite T. cbn [negb py_in rbind].
  unfold optional in H.
  destruct (dict_get "main" dd) as [main|] eqn:Em; cbn [negb]; [|reflexivity].
  destruct main as [| | | | | |m]; try discriminate.
  split_wf H.
  assert (Esub : m = submap dd "main") by (unfold submap; now rewrite Em).
  unfold py_item. rewrite Em. cbn [rbind].
  destruct (first_condition_ok dd W5) as [Ew [Wc Wd]]. rewrite Ew. cbn [rbind].
  destruct (submap_ok dd "wind" _ W4 eq_refl) as [Ewind Ww].
  destruct (submap_ok dd "clouds" _ W3 eq_refl) as [Eclouds Wcl].
  apply andb_prop in Ww as [Wspeed Wdeg].
  rewrite !py_get_field, Ewind, Eclouds. cbn [rbind].
  rewrite (temperature_field_ok m "temp" unit H),
    (temperature_field_ok m "feels_like" unit W10),
    (temperature_field_ok m "temp_min" unit W9),
    (temperature_field_ok m "temp_max" unit W8).
  cbn [rbind].
  rewrite (shown_field_ok dd "name" (JStr "Unknown location") W2 eq_refl).
  cbn [rbind].
  destruct (time_field_ok dd "dt" W1) as [time [Etime Etext]].
  rewrite Etime. cbn [rbind].
  rewrite (shown_field_ok _ "main" (JStr "Unknown") Wc eq_refl),
    (shown_field_ok _ "description" (JStr "No description") Wd eq_refl),
    (shown_field_ok m "humidity" (JInt 0) W7 eq_refl),
    (shown_field_ok m "pressure" (JInt 0) W6 eq_refl),
    (shown_field_ok _ "speed" (JInt 0) Wspeed eq_refl),
    (shown_field_ok _ "deg" (JInt 0) Wdeg eq_refl),
    (shown_field_ok _ "all" (JInt 0) Wcl eq_refl).
  cbn [rbind]. cbv zeta.
  rewrite (add_precipitation_ok dd "rain" _ _ W0). cbn [rbind].
  rewrite (add_precipitation_ok dd "snow" _ _ W). cbn [rbind].
  f_equal. rewrite <- (Etext "%Y-%m-%d %H:%M:%S"). subst m.
  transitivity (py_strip (nl ++ weather_report dd unit)).
  - f_equal. unfold weather_report, weather_lines. cbv zeta.
    rewrite !append_assoc. reflexivity.
  - rewrite py_strip_leading_newline. unfold weather_report.
    now apply py_strip_notice.
Qed.

Lemma concat_cons (block : string) (blocks : list string) :
  String.concat "" (block :: blocks) = block ++ String.concat "" blocks.
Proof.
  destruct blocks as [|b bs]; simpl; [now rewrite append_nil_r | reflexivity].
Qed.

(** A well-formed entry adds its block, with every absent field at its
    default. *)
Lemma add_forecast_wf (unit : json) (response : string) (forecast : json) :
  wf_forecast_entry forecast = true ->
  add_forecast unit response forecast
  = Ok (response ++ forecast_block unit forecast).
Proof.
  unfold wf_forecast_entry, dict_of. intro H.
  destruct forecast as [| | | | | |e]; try discriminate.
  split_wf H. unfold add_forecast.
  rewrite py_get_field. cbn [rbind].
  destruct (time_field_ok e "dt" H) as [time [Etime Etext]].
  rewrite Etime. cbn [rbind].
  destruct (submap_ok e "main" _ W2 eq_refl) as [Emain Wm].
  apply andb_prop in Wm as [Wm Whum]. apply andb_prop in Wm as [Wtemp Wfeels].
  rewrite py_get_field, Emain. cbn [rbind].
  destruct (first_condition_ok e W1) as [Ew [Wc Wd]]. rewrite Ew. cbn [rbind].
  destruct (submap_ok e "wind" _ W0 eq_refl) as [Ewind Wspeed].
  rewrite !py_get_field, Ewind. cbn [rbind].
  rewrite (temperature_field_ok _ "temp" unit Wtemp),
    (temperature_field_ok _ "feels_like" unit Wfeels).
  cbn [rbind]. cbv zeta.
  rewrite (shown_field_ok _ "main" (JStr "Unknown") Wc eq_refl),
    (shown_field_ok _ "description" (JStr "No description") Wd eq_refl),
    (shown_field_ok _ "humidity" (JInt 0) Whum eq_refl),
    (shown_field_ok _ "speed" (JInt 0) Wspeed eq_refl).
  cbn [rbind]. cbv zeta.
  assert (F : is_fraction (field e "pop" (JInt 0)) = true).
  { unfold optional in W. unfold field.
    destruct (dict_get "pop" e); [assumption | vm_compute; reflexivity]. }
  destruct (fraction_shown _ F) as [percent [text [E1 E2]]].
  rewrite E1. cbn [rbind]. rewrite E2. cbn [rbind].
  assert (P : percent_text (field e "pop" (JInt 0)) = text).
  { unfold percent_text. rewrite E1. cbn [rbind]. now rewrite E2. }
  f_equal. unfold forecast_block. cbv zeta.
  rewrite <- (Etext "%Y-%m-%d %H:%M"), P.
  rewrite !append_assoc. reflexivity.
Qed.

Lemma add_forecasts_wf (unit : json) (forecasts : list json) :
  forall response,
    forallb wf_forecast_entry forecasts = true ->
    add_forecasts unit response forecasts
    = Ok (response ++ String.concat "" (map (forecast_block unit) forecasts)).
Proof.
  induction forecasts as [|forecast rest IH]; intros response H.
  - cbn. now rewrite append_nil_r.
  - cbn [forallb] in H. apply andb_prop in H as [H1 H2].
    cbn [add_forecasts map]. rewrite (add_forecast_wf unit response forecast H1).
    cbn [rbind]. rewrite (IH _ H2), concat_cons, append_assoc. reflexivity.
Qed.

(** On a well-formed payload the forecast formatter returns the report of
    the first eight entries, with every absent field at its default. *)
Lemma format_forecast_response_wf (d : list (string * json)) (unit : json) :
  wf_forecast (JDict d) = true ->
  format_forecast_response (JDict d) unit
  = Ok match dict_get "list" d with
       | Some _ => forecast_report d unit
       | None => "No forecast data available."
       end.
Proof.
  unfold wf_forecast, dict_of. intro H. split_wf H.
  unfold format_forecast_response.
  destruct d as [|item d']; [reflexivity|].
  remember (item :: d') as dd eqn:Edd.
  assert (T : py_truthy (JDict dd) = true) by now subst dd.
  rewrite T. cbn [negb py_in rbind].
  unfold optional in W.
  destruct (dict_get "list" dd) as [entries|] eqn:El; cbn [negb]; [|reflexivity].
  destruct entries as [| | | | |l|]; try discriminate.
  destruct (submap_ok dd "city" _ H eq_refl) as [Ecity Wcity].
  apply andb_prop in Wcity as [Wname Wcoord].
  destruct (submap_ok (submap dd "city") "coord" _ Wcoord eq_refl)
    as [Ecoord Wll].
  apply andb_prop in Wll as [Wlat Wlon].
  rewrite !py_get_field, Ecity. cbn [rbind].
  assert (Elist : field dd "list" (JList []) = JList l)
    by (unfold field; now rewrite El).
  rewrite Elist. cbn [py_slice8 rbind].
  rewrite (shown_field_ok _ "name" (JStr "Unknown location") Wname eq_refl).
  cbn [rbind]. cbv zeta.
  rewrite !py_get_field, Ecoord. cbn [rbind].
  rewrite (shown_field_ok _ "lat" (JInt 0) Wlat eq_refl). cbn [rbind].
  rewrite (shown_field_ok _ "lon" (JInt 0) Wlon eq_refl). cbn [rbind].
  rewrite (add_forecasts_wf unit (firstn 8 l) _ W). cbn [rbind].
  f_equal.
  transitivity (py_strip (forecast_report dd unit)).
  - f_equal. unfold forecast_report, forecast_lines. cbv zeta. rewrite El.
    rewrite !append_assoc. reflexivity.
  - unfold forecast_report. now apply py_strip_notice.
Qed.

(** On a well-formed entry [main.aqi] is read without an error. *)
Lemma aqi_level_of_wf (e : list (string * json)) :
  wf_air_entry (JDict e) = true ->
  aqi_level_of (JDict e) = Ok (aqi_of (JDict e))
  /\ is_shown (aqi_of (JDict e)) = true.
Proof.
  unfold wf_air_entry, dict_of. intro H. split_wf H.
  destruct (submap_ok e "main" _ H eq_refl) as [Emain Waqi].
  unfold aqi_level_of, aqi_of. rewrite py_get_field, Emain. cbn [rbind].
  split; [reflexivity|].
  unfold optional in Waqi. unfold field.
  destruct (dict_get "aqi" (submap e "main")); [assumption | reflexivity].
Qed.

Lemma aqi_label_ok (v : json) :
  is_shown v = true -> aqi_label v = Ok (label_text v).
Proof.
  intro H. unfold label_text. apply ok_text. unfold aqi_label, int_key.
  destruct v; try discriminate; cbn [rbind]; try now eexists.
  destruct (float_of_Z (float_trunc f)); cbn [rbind]; now eexists.
Qed.

(** On a well-formed payload the air-quality formatter returns the report
    of the first entry, with every absent field at its default. *)
Lemma format_air_quality_response_wf (d : list (string * json)) :
  wf_air (JDict d) = true ->
  format_air_quality_response (JDict d)
  = Ok match dict_get "list" d with
       | Some (JList (first :: _)) => air_report first
       | _ => "No air quality data available."
       end.
Proof.
  unfold wf_air, dict_of, optional. intro H.
  unfold format_air_quality_response.
  destruct d as [|item d']; [reflexivity|].
  remember (item :: d') as dd eqn:Edd.
  assert (T : py_truthy (JDict dd) = true) by now subst dd.
  rewrite T. cbn [negb py_in rbind]. unfold py_item.
  destruct (dict_get "list" dd) as [entries|] eqn:El; cbn [negb]; [|reflexivity].
  destruct entries as [| | | | |l|]; try discriminate.
  destruct l as [|first rest]; [reflexivity|].
  cbn [rbind py_truthy negb py_item0].
  pose proof H as Hwf. unfold wf_air_entry, dict_of in H.
  destruct first as [| | | | | |e]; try discriminate.
  split_wf H.
  destruct (aqi_level_of_wf e Hwf) as [Elevel Wlevel].
  destruct (submap_ok e "main" _ H eq_refl) as [Emain _].
  destruct (submap_ok e "components" _ W0 eq_refl) as [Ecomp Wc].
  cbn [forallb component_keys] in Wc.
  repeat match goal with
         | Hx : (_ && _) = true |- _ => apply andb_prop in Hx; destruct Hx
         end.
  rewrite !py_get_field, Emain, Ecomp. cbn [rbind].
  rewrite py_get_field. cbn [rbind].
  change (field (submap e "main") "aqi" (JInt 0)) with (aqi_of (JDict e)).
  rewrite (py_str_shown _ Wlevel). cbn [rbind].
  rewrite (aqi_label_ok _ Wlevel). cbn [rbind].
  destruct (time_field_ok e "dt" W) as [time [Etime Etext]].
  rewrite Etime. cbn [rbind].
  repeat match goal with
         | Hk : optional _ ?k is_number = true |- _ =>
             rewrite (component_ok _ k Hk); clear Hk
         end.
  cbn [rbind]. cbv zeta. f_equal.
  transitivity (py_strip (nl ++ air_report (JDict e) ++ nl)).
  - f_equal. unfold air_report, air_details. cbv zeta.
    rewrite <- (Etext "%Y-%m-%d %H:%M:%S").
    rewrite !append_assoc. reflexivity.
  - unfold air_report.
    match goal with
    | |- py_strip (nl ++ (?h ++ ?b ++ ?r) ++ nl) = _ =>
        replace (nl ++ (h ++ b ++ r) ++ nl) with (nl ++ h ++ b ++ r ++ nl)
          by (now rewrite !append_assoc)
    end.
    now apply py_strip_report.
Qed.

End Payloads.

(* ================================================================== *)
(** ** Absent fields *)

(** C9, as the code has it. On a payload mapping in which every field the
    formatter reads is absent or of the provider's type each formatter
    returns, without raising, the report in which an absent field is shown
    by its default: 0 for a number, the time 0 for a timestamp, ["Unknown"]
    for the condition, ["No description"] for its description,
    ["Unknown location"] for the name, an empty mapping for a nested
    object, and no line for rain or snow. Without [main] (current weather)
    or [list] (forecast, air quality; for air quality also with an empty
    list) the text is the formatter's ["No ... data available."]; so it is
    for the empty payload. *)
Theorem formatters_total_on_absent_fields {rt : PyRuntime} :
  (forall t, -86400 < utcoffset t < 86400) ->
  (forall d unit,
     wf_weather (JDict d) = true ->
     format_weather_response (JDict d) unit
     = Ok match dict_get "main" d with
          | Some _ => weather_report d unit
          | None => "No weather data available."
          end)
  /\ (forall d unit,
        wf_forecast (JDict d) = true ->
        format_forecast_response (JDict d) unit
        = Ok match dict_get "list" d with
             | Some _ => forecast_report d unit
             | None => "No forecast data available."
             end)
  /\ (forall d,
        wf_air (JDict d) = true ->
        format_air_quality_response (JDict d)
        = Ok match dict_get "list" d with
             | Some (JList (first :: _)) => air_report first
             | _ => "No air quality data available."
             end)
  /\ (forall d k,
        dict_get k d = None ->
        (forall default, field d k default = default)
        /\ submap d k = []
        /\ (forall label, precipitation_line d k label = "")
        /\ (k = "weather" -> first_condition d = []))
  /\ format_weather_response (JDict []) (JStr "celsius")
     = Ok "No weather data available.".
Proof.
  intro H. split; [|split; [|split; [|split]]].
  - intros d unit. now apply format_weather_response_wf.
  - intros d unit. now apply format_forecast_response_wf.
  - intro d. now apply format_air_quality_response_wf.
  - intros d k E. unfold field, submap, precipitation_line, first_condition.
    rewrite E. repeat split. intros ->. now rewrite E.
  - reflexivity.
Qed.

Lemma utc_machine_offset (t : Z) : -86400 < utcoffset (PyRuntime := utc_machine) t < 86400.
Proof. simpl. lia. Qed.

Lemma formatters_total_on_absent_fields_witness :
  format_weather_response (rt := utc_machine) (JDict [("main", JDict [])])
    (JStr "celsius")
  = Ok ("🌍 Weather for Unknown location" ++ nl
        ++ "📅 Time: 1970-01-01 00:00:00" ++ nl
        ++ nl
        ++ "🌡️ Temperature: -273.1°C" ++ nl
        ++ "   Feels like: -273.1°C" ++ nl
        ++ "   Min: -273.1°C | Max: -273.1°C" ++ nl
        ++ nl
        ++ "☁️ Condition: Unknown - No description" ++ nl
        ++ "💧 Humidity: 0%" ++ nl
        ++ "🎈 Pressure: 0 hPa" ++ nl
        ++ "💨 Wind: 0 m/s, direction 0°" ++ nl
        ++ "☁️ Cloudiness: 0%" ++ nl
        ++ nl
        ++ RATE_LIMIT_WARNING).
Proof.
  destruct (formatters_total_on_absent_fields (rt := utc_machine)
              utc_machine_offset) as [Hw _].
  rewrite (Hw [("main", JDict [])] (JStr "celsius") eq_refl).
  vm_compute. reflexivity.
Defined.

(** C9, as stated, fails: a field that is present but not of the provider's
    type makes the formatter raise (a temperature that is a string, a
    forecast entry that is no mapping), and so does an integer timestamp
    before the year 1; the default of an absent description is
    ["No description"], neither 0 nor ["Unknown"]; an absent temperature is
    the 0 K that the conversion shows as -273.1 degrees. *)
Lemma formatters_raise_on_malformed_fields :
  format_weather_response (rt := utc_machine) warm_day (JStr "celsius")
  = Raise (PyExc TypeError "unsupported operand type(s) for -: 'str' and 'float'")
  /\ format_forecast_response (rt := utc_machine) scalar_forecast (JStr "celsius")
     = Raise (PyExc AttributeError "'int' object has no attribute 'get'")
  /\ format_weather_response (rt := utc_machine)
       (JDict [("main", JDict []); ("dt", JInt (-62135596800))]) (JStr "celsius")
     = Raise (PyExc ValueError "year 0 is out of range")
  /\ exists text,
       format_weather_response (rt := utc_machine) (JDict [("main", JDict [])])
         (JStr "celsius") = Ok text
       /\ str_contains "Condition: Unknown - No description" text = true
       /\ str_contains "Temperature: -273.1°C" text = true.
Proof.
  split; [vm_compute; reflexivity|]. split; [vm_compute; reflexivity|].
  split; [vm_compute; reflexivity|].
  eexists. split; [vm_compute; reflexivity|].
  split; vm_compute; reflexivity.
Qed.

(* ================================================================== *)
(** ** The AQI label *)

(** C8, as the code has it. The label of an integer AQI is the one of the
    table, 1 Good to 5 Very Poor, and Unknown for every other integer, the
    default 0 of an absent field included; a value that equals an index
    without being an int (2.0, True) gets the label of the index. For a
    well-formed payload whose first entry has the integer AQI [z] the
    report opens with the headline [z - label]: it contains ["2 - Fair"]
    when the AQI is the int 2. *)
Theorem format_air_quality_response_label {rt : PyRuntime}
    (d e : list (string * json)) (rest : list json) (z : Z) :
  (forall t, -86400 < utcoffset t < 86400) ->
  wf_air (JDict d) = true ->
  dict_get "list" d = Some (JList (JDict e :: rest)) ->
  aqi_level_of (JDict e) = Ok (JInt z) ->
  (aqi_label (JInt 1) = Ok "Good" /\ aqi_label (JInt 2) = Ok "Fair"
   /\ aqi_label (JInt 3) = Ok "Moderate" /\ aqi_label (JInt 4) = Ok "Poor"
   /\ aqi_label (JInt 5) = Ok "Very Poor"
   /\ forall other, other < 1 \/ 5 < other -> aqi_label (JInt other) = Ok "Unknown")
  /\ (aqi_label (JFloat 2) = Ok "Fair" /\ aqi_label (JBool true) = Ok "Good")
  /\ format_air_quality_response (JDict d)
     = Ok ("🌫️ Air Quality Index (AQI): " ++ str_of_Z z ++ " - " ++ spec_label z
           ++ nl ++ air_details (JDict e) ++ RATE_LIMIT_WARNING)
  /\ exists shown,
       format_air_quality_response (JDict d) = Ok shown
       /\ contains_text (str_of_Z z ++ " - " ++ spec_label z) shown
       /\ (z = 2 -> contains_text "2 - Fair" shown).
Proof.
  intros Hoff H Hl Hz.
  assert (E : format_air_quality_response (JDict d)
              = Ok ("🌫️ Air Quality Index (AQI): " ++ str_of_Z z ++ " - "
                    ++ spec_label z ++ nl ++ air_details (JDict e)
                    ++ RATE_LIMIT_WARNING)).
  { rewrite (format_air_quality_response_wf Hoff d H), Hl.
    assert (He : wf_air_entry (JDict e) = true).
    { unfold wf_air, dict_of, optional in H. now rewrite Hl in H. }
    destruct (aqi_level_of_wf e He) as [Ea Ws].
    rewrite Hz in Ea. apply Ok_inj in Ea.
    unfold air_report. rewrite <- Ea in *.
    assert (Es : str_text (JInt z) = str_of_Z z).
    { unfold str_text. cbn [py_str py_repr]. unfold int_str.
      cbn [is_shown] in Ws. now rewrite Ws. }
    assert (El : label_text (JInt z) = spec_label z).
    { unfold label_text. now rewrite aqi_label_int. }
    rewrite Es, El. f_equal. rewrite !append_assoc. reflexivity. }
  split; [|split; [|split]].
  - repeat split; try reflexivity.
    intros other Ho. rewrite aqi_label_int. now rewrite spec_label_unknown.
  - split; vm_compute; reflexivity.
  - exact E.
  - assert (C : contains_text (str_of_Z z ++ " - " ++ spec_label z)
                  ("🌫️ Air Quality Index (AQI): " ++ str_of_Z z ++ " - "
                   ++ spec_label z ++ nl ++ air_details (JDict e)
                   ++ RATE_LIMIT_WARNING)).
    { exists "🌫️ Air Quality Index (AQI): ",
        (nl ++ air_details (JDict e) ++ RATE_LIMIT_WARNING).
      rewrite !append_assoc. reflexivity. }
    eexists. split; [exact E|]. split; [exact C|].
    intros ->. exact C.
Qed.

Lemma format_air_quality_response_label_witness :
  exists shown,
    format_air_quality_response (rt := utc_machine) air_sample = Ok shown
    /\ contains_text "2 - Fair" shown.
Proof.
  destruct (format_air_quality_response_label (rt := utc_machine)
              [("list",
                JList
                  [JDict [("dt", JInt 1612345678);
                          ("main", JDict [("aqi", JInt 2)]);
                          ("components",
                           JDict [("co", JFloat 201.94); ("no", JFloat 0.01);
                                  ("no2", JFloat 0.78); ("o3", JFloat 68.66);
                                  ("so2", JFloat 0.64); ("pm2_5", JFloat 0.5);
                                  ("pm10", JFloat 0.54); ("nh3", JFloat 0.12)])]])]
              _ [] 2 utc_machine_offset eq_refl eq_refl eq_refl)
    as [_ [_ [_ [shown [E [_ C]]]]]].
  exists shown. split; [exact E | exact (C eq_refl)].
Defined.

(** C8, as stated, fails: an AQI that is the float 2.0 is equal to 2 and
    labelled Fair, but the report shows ["2.0 - Fair"], which does not
    contain ["2 - Fair"]; and a payload whose first entry has the AQI 2
    and a timestamp before the year 1 gives no report at all. *)
Lemma format_air_quality_response_float_index :
  (exists text,
     format_air_quality_response (rt := utc_machine) float_index_sample = Ok text
     /\ str_contains "2.0 - Fair" text = true
     /\ str_contains "2 - Fair" text = false)
  /\ format_air_quality_response (rt := utc_machine)
       (JDict [("list", JList [JDict [("dt", JInt (-62135596800));
                                      ("main", JDict [("aqi", JInt 2)])]])])
     = Raise (PyExc ValueError "year 0 is out of range").
Proof.
  split; [|vm_compute; reflexivity].
  eexists. split; [vm_compute; reflexivity|].
  split; vm_compute; reflexivity.
Qed.

(* ================================================================== *)
(** ** Units outside the enumeration *)

Section UnitsMore.

Context {rt : PyRuntime}.
Variable OPENWEATHER_API_KEY : option string.




End UnitsMore.


(* ================================================================== *)
(** ** Digits of other scripts *)

(** [float] reads the decimal digits of every script, so a location written
    with fullwidth or Arabic-Indic digits is a pair of coordinates too, and
    is resolved without a request. *)
Example get_coordinates_other_digits :
  get_coordinates (rt := utc_machine) (Some "key") "１２,３４"
    (always TimeoutException) fresh_world
  = (Ok (JFloat 12, JFloat 34), fresh_world)
  /\ get_coordinates (rt := utc_machine) (Some "key") "٤٨.٥, ٢"
       (always TimeoutException) fresh_world
     = (Ok (JFloat 48.5, JFloat 2), fresh_world).
Proof. split; vm_compute; reflexivity. Qed.
